(** * The prompt-to-action compiler of the MCP executor

    A shallow embedding of the parsing and action-generation methods of
    [RealMCPExecutor] (src/tests/logout-login.spec.ts, lines 500-1575):
    [parsePromptToActions] and everything it calls.  Around it, the
    same file's [extractTitle], [extractTags], [getBrowsersToRun],
    [calculateBrowserStats], [flattenElementSelectors], the execution
    of a compiled sequence ([executePromptDirectly],
    [executeBrowserAction] and the simulated browser,
    [executeBrowserBatch]) and [parseArguments] of the command line
    (src/cli/executor-cli.ts).

    Conventions of the embedding.
    - A JavaScript string is a [string]; a character is a code unit below
      256, read as Latin-1.  On that range [toLowerCase], [trim] and the
      regular-expression classes are modelled exactly.
    - A regular expression is a value of [Re.regex], run by a backtracking
      matcher with greedy quantifiers and capture groups, as ECMAScript
      specifies it.
    - [console.log] calls are dropped: they do not influence any result.
    - The file system read by [readCSVData] is a parameter: a function
      from a file name to the file's content, [None] when the file is
      missing or unreadable.
    - The recursion of [intelligentStepParser] through
      [generateWorkflowActions] has no bound in the source.  It is modelled
      with a call-stack budget: [None] stands for the [RangeError] a
      JavaScript engine throws when the stack is exhausted, which
      [parseSimpleStep] catches.
    - An object built by assignments is the list of its assignments,
      read with [field] or [assigned], the last assignment to a key
      winning.  A JavaScript object agrees with that list on every key
      but two kinds: an assignment to the key '__proto__' defines
      nothing, and a key that was never assigned reads as undefined
      only when Object.prototype has no property of that name
      ([inheritedNames]).  Statements about such objects leave these
      keys out, and say nothing about the order of the keys.
    - The clock behind [Date.now()] and [setTimeout] is a parameter of
      the execution; the browser of the source is a record of five
      fields that its methods update, and is modelled as such. *)

From Stdlib Require Import String Ascii List Bool Arith NArith ZArith Lia.
From Stdlib Require Import DecimalString.
Import ListNotations.
Open Scope string_scope.
Open Scope list_scope.
Open Scope bool_scope.

(* ================================================================== *)
(** ** JavaScript string primitives *)
(* ================================================================== *)

Module JS.

Definition code (c : ascii) : N := N_of_ascii c.

Definition inRange (lo hi : N) (c : ascii) : bool :=
  (lo <=? code c)%N && (code c <=? hi)%N.

(** WhiteSpace and LineTerminator code points below 256: TAB, LF, VT,
    FF, CR, SP and NBSP.  This is the set removed by [trim] and matched
    by the class [\s]. *)
Definition isSpace (c : ascii) : bool :=
  inRange 9 13 c || (code c =? 32)%N || (code c =? 160)%N.

Definition isDigit (c : ascii) : bool := inRange 48 57 c.

(** The class [\w]: letters, digits and the underscore. *)
Definition isWord (c : ascii) : bool :=
  inRange 65 90 c || inRange 97 122 c || isDigit c || (code c =? 95)%N.

(** The class [.]: anything but a line terminator. *)
Definition isDot (c : ascii) : bool :=
  negb ((code c =? 10)%N || (code c =? 13)%N).

(** Upper-case letters of Latin-1 are A-Z, U+00C0-U+00D6 and
    U+00D8-U+00DE; each is 32 below its lower-case form. *)
Definition isUpper (c : ascii) : bool :=
  inRange 65 90 c || inRange 192 214 c || inRange 216 222 c.

Definition lowerChar (c : ascii) : ascii :=
  if isUpper c then ascii_of_N (code c + 32) else c.

Fixpoint toLowerCase (s : string) : string :=
  match s with
  | EmptyString => EmptyString
  | String c s' => String (lowerChar c) (toLowerCase s')
  end.

(** [startsWith s p]: [p] is a prefix of [s]. *)
Fixpoint startsWith (s p : string) {struct p} : bool :=
  match p, s with
  | EmptyString, _ => true
  | String a p', String b s' => Ascii.eqb a b && startsWith s' p'
  | String _ _, EmptyString => false
  end.

(** [includes s sub] is [s.includes(sub)]. *)
Fixpoint includes (s sub : string) : bool :=
  startsWith s sub ||
  match s with
  | EmptyString => false
  | String _ s' => includes s' sub
  end.

Fixpoint trimStart (s : string) : string :=
  match s with
  | EmptyString => EmptyString
  | String c s' => if isSpace c then trimStart s' else s
  end.

Fixpoint trimEnd (s : string) : string :=
  match s with
  | EmptyString => EmptyString
  | String c s' =>
      match trimEnd s' with
      | EmptyString => if isSpace c then EmptyString else String c EmptyString
      | t => String c t
      end
  end.

Definition trim (s : string) : string := trimEnd (trimStart s).

(** [a || b] on strings: the empty string is falsy. *)
Definition orElse (a b : string) : string :=
  match a with EmptyString => b | _ => a end.

(** A possibly [undefined] string. *)
Definition truthy (v : option string) : bool :=
  match v with
  | Some (String _ _) => true
  | _ => false
  end.

(** [a || b] on possibly undefined strings. *)
Definition orU (a b : option string) : option string :=
  if truthy a then a else b.

(** A possibly undefined string inside a template literal. *)
Definition show (v : option string) : string :=
  match v with Some s => s | None => "undefined" end.

(** [s.split(sep)] for a separator of one character: the pieces
    between the occurrences; the empty string gives one empty piece. *)
Fixpoint splitChar (sep : ascii) (s : string) : list string :=
  match s with
  | EmptyString => [EmptyString]
  | String c s' =>
      if Ascii.eqb c sep then EmptyString :: splitChar sep s'
      else match splitChar sep s' with
           | p :: ps => String c p :: ps
           | [] => [String c EmptyString]
           end
  end.

Definition LF : ascii := ascii_of_N 10.

(** Numbers inside template literals. *)
Definition ofNat (n : nat) : string := NilEmpty.string_of_uint (Nat.to_uint n).
Definition ofN (n : N) : string := NilEmpty.string_of_uint (N.to_uint n).

(** [parseInt] on a non-empty string of decimal digits (the only
    argument the source passes: the capture of [(\d+)]).  Numbers are
    exact here; the source's doubles agree below 2^53. *)
Definition parseInt (s : string) : N :=
  (fix go (acc : N) (s : string) : N :=
     match s with
     | EmptyString => acc
     | String c s' =>
         if isDigit c then go (acc * 10 + (code c - 48))%N s' else acc
     end) 0%N s.

(** [s.slice(1, -1)]. *)
Definition slice1 (s : string) : string :=
  match s with
  | EmptyString => EmptyString
  | String _ s' => substring 0 (String.length s' - 1) s'
  end.

End JS.

(* ================================================================== *)
(** ** Regular expressions *)
(* ================================================================== *)

Module Re.

(** The fragment of ECMAScript patterns the source uses.  Quantifiers
    are greedy and apply to a single character class, except [?],
    which also applies to a group. *)
Inductive regex : Type :=
| Eps                                   (* the empty pattern *)
| Chr (ci : bool) (c : ascii)           (* a literal; [ci]: flag i *)
| Cls (p : ascii -> bool)               (* one character of a class *)
| Star (p : ascii -> bool)              (* [c*] *)
| Plus (p : ascii -> bool)              (* [c+] *)
| Opt (r : regex)                       (* [r?] *)
| Alt (r1 r2 : regex)                   (* [r1|r2] *)
| Seq (r1 r2 : regex)                   (* [r1r2] *)
| Grp (r : regex).                      (* [(r)], capturing *)

(** A literal string, with or without flag i. *)
Fixpoint lit (ci : bool) (s : string) : regex :=
  match s with
  | EmptyString => Eps
  | String c s' => Seq (Chr ci c) (lit ci s')
  end.

Fixpoint seqs (rs : list regex) : regex :=
  match rs with
  | [] => Eps
  | r :: rs' => Seq r (seqs rs')
  end.

Definition chrEq (ci : bool) (c d : ascii) : bool :=
  if ci then Ascii.eqb (JS.lowerChar c) (JS.lowerChar d) else Ascii.eqb c d.

(** What a match starting at [s] and ending at [rest] consumed. *)
Definition consumed (s rest : string) : string :=
  substring 0 (String.length s - String.length rest) s.

Section Matcher.
Context {A : Type}.

(** Greedy iteration of a class: take the longest run first, give
    characters back one at a time while the continuation fails. *)
Fixpoint star (p : ascii -> bool) (k : string -> option A) (s : string)
  : option A :=
  match s with
  | String c s' =>
      if p c then
        match star p k s' with
        | Some x => Some x
        | None => k s
        end
      else k s
  | EmptyString => k s
  end.

(** [run r s caps k]: match [r] at the start of [s], then continue
    with [k] on the rest and the captures; backtrack on failure. *)
Fixpoint run (r : regex) (s : string) (caps : list string)
         (k : string -> list string -> option A) : option A :=
  match r with
  | Eps => k s caps
  | Chr ci c =>
      match s with
      | String d s' => if chrEq ci c d then k s' caps else None
      | EmptyString => None
      end
  | Cls p =>
      match s with
      | String d s' => if p d then k s' caps else None
      | EmptyString => None
      end
  | Star p => star p (fun rest => k rest caps) s
  | Plus p =>
      match s with
      | String d s' => if p d then star p (fun rest => k rest caps) s' else None
      | EmptyString => None
      end
  | Opt r1 =>
      match run r1 s caps k with
      | Some x => Some x
      | None => k s caps
      end
  | Alt r1 r2 =>
      match run r1 s caps k with
      | Some x => Some x
      | None => run r2 s caps k
      end
  | Seq r1 r2 => run r1 s caps (fun rest caps' => run r2 rest caps' k)
  | Grp r1 => run r1 s caps (fun rest caps' => k rest (caps' ++ [consumed s rest]))
  end.
End Matcher.

(** The result of a match: the matched text (index 0), the captures
    (index 1, 2, ...) and the text after the match. *)
Record result := { whole : string; groups : list string; after : string }.

(** A match anchored at the start of [s] (a pattern that begins with
    [^], without flag m). *)
Definition matchStart (r : regex) (s : string) : option result :=
  run r s [] (fun rest caps =>
    Some {| whole := consumed s rest; groups := caps; after := rest |}).

(** [s.match(r)] without flag g: the leftmost match. *)
Fixpoint search (r : regex) (s : string) : option result :=
  match matchStart r s with
  | Some m => Some m
  | None =>
      match s with
      | EmptyString => None
      | String _ s' => search r s'
      end
  end.

Definition test (r : regex) (s : string) : bool :=
  match search r s with Some _ => true | None => false end.

(** Capture [i] (counted from 1) of a match. *)
Definition group (i : nat) (m : result) : string := nth (i - 1) (groups m) "".

(** [s.match(r)] with flag g: the texts of all matches, left to right,
    each search resuming where the last match ended.  [skip] counts the
    characters of the last match still to pass.  None of the patterns
    used with flag g matches the empty string. *)
Fixpoint matchAllFrom (r : regex) (skip : nat) (s : string) : list string :=
  match s with
  | EmptyString => []
  | String _ s' =>
      match skip with
      | S k => matchAllFrom r k s'
      | O =>
          match matchStart r s with
          | Some m => whole m :: matchAllFrom r (String.length (whole m) - 1) s'
          | None => matchAllFrom r 0 s'
          end
      end
  end.

Definition matchAll (r : regex) (s : string) : list string := matchAllFrom r 0 s.

End Re.

(* ================================================================== *)
(** ** Data model *)
(* ================================================================== *)

(** [MCPAction.type]. *)
Inductive ActionType : Type :=
| Navigate | Fill | Click | Wait | Assert | Select | Hover | Snapshot.

(** [interface MCPAction]: an optional property is an [option], [None]
    when the property is absent or [undefined]. *)
Record MCPAction : Type := {
  type : ActionType;
  selector : option string;
  element : option string;
  value : option string;
  url : option string;
  condition : option string;
  timeout : option N;
  description : string
}.

Record Credentials : Type := { username : string; password : string }.

(** [interface MCPContext], the fields the compiler reads.  Both
    assignments of [this.mcpContext] (the constructor and
    [loadApplicationConfig]) set [userCredentials], so it is never
    undefined. *)
Record MCPContext : Type := {
  applicationUrl : string;
  userCredentials : Credentials
}.

Record PromptData : Type := {
  file : string;
  title : string;
  content : string;
  tags : list string
}.

(** The [primaryAction] of a step context. *)
Inductive Intent : Type :=
| unknown | navigate | login | fill_form | click_element | verify_element
| wait_action | complex_workflow | data_driven_test.

(** The object built by [analyzeStepContext]. *)
Record StepContext : Type := {
  primaryAction : Intent;
  elements : list string;
  values : list string;
  conditions : list string;
  modifiers : list string
}.

(** The result of [extractCredentials]. *)
Record ExtractedCredentials : Type := {
  c_username : option string;
  c_password : option string
}.

(** An inline dataset: [{ username; password; expected }]. *)
Record InlineDataset : Type := {
  d_username : string;
  d_password : string;
  d_expected : string
}.

(** A row of [readCSVData]: the object filled by [row[header] = ...],
    kept as the list of assignments in the order they were made. *)
Definition Row : Type := list (string * string).

(** A file system: the content of a file of the test-data directory,
    [None] when [existsSync] is false or [readFileSync] throws. *)
Definition FileSystem : Type := string -> option string.

(** Object literals of the five action shapes the compiler builds. *)
Definition navigateTo (u d : string) : MCPAction :=
  {| type := Navigate; selector := None; element := None; value := None;
     url := Some u; condition := None; timeout := None; description := d |}.

Definition fillIn (e v d : string) : MCPAction :=
  {| type := Fill; selector := None; element := Some e; value := Some v;
     url := None; condition := None; timeout := None; description := d |}.

Definition clickOn (e d : string) : MCPAction :=
  {| type := Click; selector := None; element := Some e; value := None;
     url := None; condition := None; timeout := None; description := d |}.

Definition waitFor (t : N) (d : string) : MCPAction :=
  {| type := Wait; selector := None; element := None; value := None;
     url := None; condition := None; timeout := Some t; description := d |}.

Definition assertThat (e c d : string) : MCPAction :=
  {| type := Assert; selector := None; element := Some e; value := None;
     url := None; condition := Some c; timeout := None; description := d |}.

(* ================================================================== *)
(** ** The patterns of the source *)
(* ================================================================== *)

Module Pat.
Import Re.

Definition DQ : ascii := ascii_of_N 34.       (* the double quote *)
Definition isNot (c d : ascii) : bool := negb (Ascii.eqb c d).
Definition colonOrSpace (c : ascii) : bool := Ascii.eqb c ":" || JS.isSpace c.

(** [/^\s*\d+\.\s/] *)
Definition numberedPrompt : regex :=
  seqs [Star JS.isSpace; Plus JS.isDigit; Chr false "."; Cls JS.isSpace].

(** [/^\d+\.\s/] *)
Definition numberedLine : regex :=
  seqs [Plus JS.isDigit; Chr false "."; Cls JS.isSpace].

(** [/^\d+\.\s*/] *)
Definition stepPrefix : regex :=
  seqs [Plus JS.isDigit; Chr false "."; Star JS.isSpace].

(** [/https?:\/\/[^\s`'\x22]+/]; here and below [\x22] stands for
    the double quote the source writes literally. *)
Definition urlPattern : regex :=
  seqs [lit false "http"; Opt (Chr false "s"); lit false "://";
        Plus (fun c => negb (JS.isSpace c || Ascii.eqb c "`" || Ascii.eqb c "'"
                             || Ascii.eqb c DQ))].

(** [/<label>[:\s]+\x22?([^\x22\s]+)\x22?/i] for the labels username,
    password. *)
Definition credential (label : string) : regex :=
  seqs [lit true label; Plus colonOrSpace; Opt (Chr false DQ);
        Grp (Plus (fun c => negb (Ascii.eqb c DQ || JS.isSpace c)));
        Opt (Chr false DQ)].

(** [/<label>[:\s]+\x22([^\x22]+)\x22/i] for first name, last name,
    email. *)
Definition quotedField (label : string) : regex :=
  seqs [lit true label; Plus colonOrSpace; Chr false DQ;
        Grp (Plus (isNot DQ)); Chr false DQ].

(** [/(\d+)\s*(?:ms|milliseconds|s|seconds)/i] *)
Definition timeoutPattern : regex :=
  seqs [Grp (Plus JS.isDigit); Star JS.isSpace;
        Alt (lit true "ms") (Alt (lit true "milliseconds")
            (Alt (lit true "s") (lit true "seconds")))].

(** [/ and | then /] *)
Definition clauseSeparator : regex :=
  Alt (lit false " and ") (lit false " then ").

(** [/\x22([^\x22]+)\x22/g] *)
Definition quoted : regex :=
  seqs [Chr false DQ; Grp (Plus (isNot DQ)); Chr false DQ].

(** [/(\w+\.csv)/i] *)
Definition csvName : regex :=
  Grp (seqs [Plus JS.isWord; Chr true "."; lit true "csv"]).

(** [/.*username:\s*([^,]+),.*password:\s*([^,]+),.*expected:\s*(.+)/i] *)
Definition inlinePattern : regex :=
  seqs [Star JS.isDot; lit true "username:"; Star JS.isSpace;
        Grp (Plus (isNot ",")); Chr true ",";
        Star JS.isDot; lit true "password:"; Star JS.isSpace;
        Grp (Plus (isNot ",")); Chr true ",";
        Star JS.isDot; lit true "expected:"; Star JS.isSpace;
        Grp (Plus JS.isDot)].

(** [/<label>[:\s]+([^,\s]+)/i] for the labels username, password. *)
Definition blockField (label : string) : regex :=
  seqs [lit true label; Plus colonOrSpace;
        Grp (Plus (fun c => negb (Ascii.eqb c "," || JS.isSpace c)))].

(** [/expected[:\s]+(.+)/i] *)
Definition blockExpected : regex :=
  seqs [lit true "expected"; Plus colonOrSpace; Grp (Plus JS.isDot)].

(** [new RegExp(`${field}\\s+(?:as\\s+)?\x22([^\x22]+)\x22`, 'i')] *)
Definition valueOf (field : string) : regex :=
  seqs [lit true field; Plus JS.isSpace;
        Opt (Seq (lit true "as") (Plus JS.isSpace));
        Chr false DQ; Grp (Plus (isNot DQ)); Chr false DQ].

End Pat.

(** [s.split(r)] for a pattern that does not match the empty string:
    the pieces between the matches of [r], left to right.  [piece] is
    the piece being read and [skip] the number of characters of the
    last match still to pass. *)
Fixpoint splitFrom (r : Re.regex) (skip : nat) (piece s : string) : list string :=
  match s with
  | EmptyString => [piece]
  | String c s' =>
      match skip with
      | S k => splitFrom r k piece s'
      | O =>
          match option_map (fun m => String.length (Re.whole m)) (Re.matchStart r s) with
          | Some (S k) => piece :: splitFrom r k "" s'
          | _ => splitFrom r 0 (piece ++ String c "") s'
          end
      end
  end.

Definition splitRe (r : Re.regex) (s : string) : list string := splitFrom r 0 "" s.

Definition dq : string := String Pat.DQ "".

(* ================================================================== *)
(** ** The compiler *)
(* ================================================================== *)

(** The [context] argument of the [generate...Actions] methods is never
    read by them; the embedding leaves it out. *)

(** [keywords.some(keyword => text.includes(keyword))] *)
Definition matchesIntent (text : string) (keywords : list string) : bool :=
  existsb (JS.includes text) keywords.

Definition matchesPattern (content : string) (triggers : list string) : bool :=
  existsb (JS.includes content) triggers.

Definition extractURL (step : string) : option string :=
  option_map Re.whole (Re.search Pat.urlPattern step).

Definition extractCredentials (step : string) : ExtractedCredentials :=
  {| c_username := option_map (Re.group 1) (Re.search (Pat.credential "username") step);
     c_password := option_map (Re.group 1) (Re.search (Pat.credential "password") step) |}.

(** One entry of [extractFormFields]. *)
Record FormField : Type := { f_element : string; f_value : string; f_label : string }.

Definition formField (label : string) (step : string) : list FormField :=
  match Re.search (Pat.quotedField label) step with
  | Some m => [{| f_element := label ++ " input field"; f_value := Re.group 1 m;
                  f_label := label |}]
  | None => []
  end.

Definition extractFormFields (step : string) : list FormField :=
  formField "first name" step ++ formField "last name" step ++ formField "email" step.

Definition extractClickableElement (step : string) : string :=
  let lowerStep := JS.toLowerCase step in
  if JS.includes lowerStep "pim"
     && (JS.includes lowerStep "click" || JS.includes lowerStep "module")
  then "PIM navigation link"
  else if JS.includes lowerStep "add" && negb (JS.includes lowerStep "employee")
  then "Add Employee button"
  else if JS.includes lowerStep "save" then "save employee button"
  else if JS.includes lowerStep "login" then "login button"
  else if JS.includes lowerStep "user" && JS.includes lowerStep "icon"
  then "user dropdown menu icon"
  else if JS.includes lowerStep "logout" then "logout button"
  else "clickable element".

(** The result of [extractVerificationDetails]. *)
Record Verification : Type := { v_element : string; v_condition : string; v_description : string }.

Definition extractVerificationDetails (step : string) : Verification :=
  if JS.includes step "dashboard" then
    {| v_element := "dashboard page"; v_condition := "visible";
       v_description := "dashboard is displayed" |}
  else if JS.includes step "employee" && JS.includes step "profile" then
    {| v_element := "employee profile page"; v_condition := "visible";
       v_description := "employee profile page is displayed" |}
  else
    {| v_element := "page content"; v_condition := "visible";
       v_description := "page content is visible" |}.

Definition triggersNavigation (step : string) : bool :=
  JS.includes step "pim" || JS.includes step "add" || JS.includes step "save".

Definition extractTimeout (step : string) : N :=
  match Re.search Pat.timeoutPattern step with
  | Some m =>
      let value := JS.parseInt (Re.group 1 m) in
      if JS.includes step "s" && negb (JS.includes step "ms")
      then (value * 1000)%N else value
  | None => 2000%N
  end.

Definition isComplexWorkflow (step : string) : bool :=
  JS.includes step " and " || JS.includes step " then "
  || Nat.ltb 10 (List.length (JS.splitChar " " step)).

Definition decomposeComplexStep (step : string) : list string :=
  map JS.trim (splitRe Pat.clauseSeparator step).

Definition extractURLs (text : string) : list string :=
  Re.matchAll Pat.urlPattern text.

Definition extractFieldNames (text : string) : list string :=
  filter (JS.includes text) ["first name"; "last name"; "email"; "username"; "password"].

Definition extractFieldValues (text : string) : list string :=
  map JS.slice1 (Re.matchAll Pat.quoted text).

Definition extractClickableElements (text : string) : list string :=
  filter (JS.includes text) ["button"; "link"; "menu"; "icon"; "dropdown"].

Definition extractVerificationTargets (text : string) : list string :=
  filter (JS.includes text) ["page"; "element"; "button"; "field"; "text"; "title"].

Definition extractVerificationConditions (text : string) : list string :=
  filter (JS.includes text) ["visible"; "hidden"; "enabled"; "disabled"; "contains"].

Definition extractWaitConditions (text : string) : list string :=
  filter (JS.includes text) ["load"; "appear"; "disappear"; "complete"].

Definition hasInlineDatasets (text : string) : bool :=
  (JS.includes text "username:" && JS.includes text "password:"
   && JS.includes text "expected:")
  || (JS.includes text "- username:" || JS.includes text "Username:")
  || JS.includes text "following dataset:" || JS.includes text "test data:".

Definition isDataDrivenTest (text : string) : bool :=
  JS.includes text "csv" || JS.includes text "data-driven"
  || JS.includes text "external dataset" || JS.includes text "logindata.csv"
  || JS.includes text "test data from" || hasInlineDatasets text.

(** [csvMatch || ['loginData.csv']]: [match] with flag g gives [null]
    when nothing matches. *)
Definition extractDataSources (text : string) : list string :=
  match Re.matchAll Pat.csvName text with
  | [] => ["loginData.csv"]
  | found => found
  end.

Definition extractDataDrivenModifiers (text : string) : list string :=
  (if JS.includes text "iteration" then ["iterate"] else [])
  ++ (if JS.includes text "multiple" then ["multiple"] else [])
  ++ (if JS.includes text "each row" then ["per_row"] else []).

Definition extractCSVFileName (step : string) : string :=
  match Re.search Pat.csvName step with
  | Some m => Re.group 1 m
  | None => "loginData.csv"
  end.

(** [analyzeStepContext]: the chain of [if ... else if ...] in the
    order of the source. *)
Definition analyzeStepContext (stepText : string) : StepContext :=
  if matchesIntent stepText ["navigate"; "open"; "go to"; "visit"] then
    {| primaryAction := navigate; elements := extractURLs stepText;
       values := []; conditions := []; modifiers := [] |}
  else if matchesIntent stepText ["login"; "sign in"; "authenticate"; "enter credentials"] then
    let credentials := extractCredentials stepText in
    {| primaryAction := login; elements := [];
       values := filter (fun v => negb (String.eqb v ""))
                   [JS.show (JS.orU (c_username credentials) (Some ""));
                    JS.show (JS.orU (c_password credentials) (Some ""))];
       conditions := []; modifiers := [] |}
  else if matchesIntent stepText ["enter"; "input"; "type"; "fill"; "provide"] then
    {| primaryAction := fill_form; elements := extractFieldNames stepText;
       values := extractFieldValues stepText; conditions := []; modifiers := [] |}
  else if matchesIntent stepText ["click"; "press"; "select"; "choose"; "tap"] then
    {| primaryAction := click_element; elements := extractClickableElements stepText;
       values := []; conditions := []; modifiers := [] |}
  else if matchesIntent stepText ["verify"; "check"; "confirm"; "validate"; "assert"] then
    {| primaryAction := verify_element; elements := extractVerificationTargets stepText;
       values := []; conditions := extractVerificationConditions stepText;
       modifiers := [] |}
  else if matchesIntent stepText ["wait"; "pause"; "delay"] then
    {| primaryAction := wait_action; elements := []; values := []; conditions := [];
       modifiers := extractWaitConditions stepText |}
  else if isComplexWorkflow stepText then
    {| primaryAction := complex_workflow; elements := []; values := [];
       conditions := []; modifiers := [] |}
  else if isDataDrivenTest stepText then
    {| primaryAction := data_driven_test; elements := extractDataSources stepText;
       values := []; conditions := [];
       modifiers := extractDataDrivenModifiers stepText |}
  else
    {| primaryAction := unknown; elements := []; values := []; conditions := [];
       modifiers := [] |}.

(** [extractInlineDatasets], first loop: the lines that match the
    single-line pattern, each giving one dataset. *)
Definition inlineTriple (line : string) : option InlineDataset :=
  match Re.search Pat.inlinePattern line with
  | Some m => Some {| d_username := JS.trim (Re.group 1 m);
                      d_password := JS.trim (Re.group 2 m);
                      d_expected := JS.trim (Re.group 3 m) |}
  | None => None
  end.

Fixpoint inlineTriples (lines : list string) : list InlineDataset :=
  match lines with
  | [] => []
  | line :: rest =>
      match inlineTriple line with
      | Some d => d :: inlineTriples rest
      | None => inlineTriples rest
      end
  end.

(** [extractInlineDatasets], second loop.  The state of the loop:
    [currentDataset] (a property is [None] while unset),
    [inDatasetSection], and the datasets pushed so far. *)
Record Accumulator : Type := {
  a_username : option string;
  a_password : option string;
  a_expected : option string
}.

Record ScanState : Type := {
  currentDataset : Accumulator;
  inDatasetSection : bool;
  datasets : list InlineDataset
}.

Definition emptyAccumulator : Accumulator :=
  {| a_username := None; a_password := None; a_expected := None |}.

Definition scanStart : ScanState :=
  {| currentDataset := emptyAccumulator; inDatasetSection := false; datasets := [] |}.

Definition isMarkerLine (trimmedLine : string) : bool :=
  JS.includes trimmedLine "dataset" || JS.includes trimmedLine "test data".

Definition readUsername (line trimmedLine : string) (a : Accumulator) : Accumulator :=
  if JS.includes trimmedLine "username" && JS.includes trimmedLine ":" then
    match Re.search (Pat.blockField "username") line with
    | Some m => {| a_username := Some (JS.trim (Re.group 1 m));
                   a_password := a_password a; a_expected := a_expected a |}
    | None => a
    end
  else a.

Definition readPassword (line trimmedLine : string) (a : Accumulator) : Accumulator :=
  if JS.includes trimmedLine "password" && JS.includes trimmedLine ":" then
    match Re.search (Pat.blockField "password") line with
    | Some m => {| a_username := a_username a;
                   a_password := Some (JS.trim (Re.group 1 m)); a_expected := a_expected a |}
    | None => a
    end
  else a.

(** The body of the second loop for one line. *)
Definition scanLine (st : ScanState) (line : string) : ScanState :=
  let trimmedLine := JS.toLowerCase (JS.trim line) in
  if isMarkerLine trimmedLine then
    {| currentDataset := currentDataset st; inDatasetSection := true;
       datasets := datasets st |}
  else if inDatasetSection st then
    let a := readPassword line trimmedLine
               (readUsername line trimmedLine (currentDataset st)) in
    if JS.includes trimmedLine "expected" && JS.includes trimmedLine ":" then
      match Re.search Pat.blockExpected line with
      | Some m =>
          let expected := JS.trim (Re.group 1 m) in
          if JS.truthy (a_username a) && JS.truthy (a_password a)
             && JS.truthy (Some expected)
          then {| currentDataset := emptyAccumulator; inDatasetSection := true;
                  datasets := datasets st ++
                    [{| d_username := JS.show (a_username a);
                        d_password := JS.show (a_password a);
                        d_expected := expected |}] |}
          else {| currentDataset :=
                    {| a_username := a_username a; a_password := a_password a;
                       a_expected := Some expected |};
                  inDatasetSection := true; datasets := datasets st |}
      | None => {| currentDataset := a; inDatasetSection := true;
                   datasets := datasets st |}
      end
    else {| currentDataset := a; inDatasetSection := true; datasets := datasets st |}
  else st.

Definition blockScan (lines : list string) : list InlineDataset :=
  datasets (fold_left scanLine lines scanStart).

Definition extractInlineDatasets (text : string) : list InlineDataset :=
  let lines := JS.splitChar JS.LF text in
  match inlineTriples lines with
  | [] => blockScan lines
  | found => found
  end.

(** [readCSVData]: the rows of a file, [[]] when it is missing, cannot
    be read, or has fewer than two lines. *)
Definition csvRow (headers : list string) (line : string) : Row :=
  let vals := map JS.trim (JS.splitChar "," line) in
  map (fun hi => (fst hi, JS.orElse (nth (snd hi) vals "") ""))
      (combine headers (seq 0 (List.length headers))).

Definition readCSVData (fs : FileSystem) (fileName : string) : list Row :=
  match fs fileName with
  | None => []
  | Some csvContent =>
      match JS.splitChar JS.LF (JS.trim csvContent) with
      | header :: ((_ :: _) as rows) =>
          let headers := map JS.trim (JS.splitChar "," header) in
          map (csvRow headers) rows
      | _ => []
      end
  end.

(** [row.key]: the last assignment to [key], [None] (undefined) when
    there is none.  The keys the generators read are 'Username',
    'username', 'Password', 'password', 'Expected' and 'expected', on
    which the list and the JavaScript object agree. *)
Fixpoint field (row : Row) (key : string) : option string :=
  match row with
  | [] => None
  | (k, v) :: rest =>
      match field rest key with
      | Some later => Some later
      | None => if String.eqb k key then Some v else None
      end
  end.

Section Compiler.

Variable mcpContext : MCPContext.
Variable fs : FileSystem.

(** [`Step ${stepNumber}: `] and [`Step ${stepNumber}.${index + 1}: `] *)
Definition stepTag (stepNumber : nat) : string :=
  "Step " ++ JS.ofNat stepNumber ++ ": ".

Definition rowTag (stepNumber index : nat) : string :=
  "Step " ++ JS.ofNat stepNumber ++ "." ++ JS.ofNat (index + 1) ++ ": ".

Definition generateNavigationActions (step : string) (stepNumber : nat) : list MCPAction :=
  let url := match extractURL step with
             | Some u => JS.orElse u (applicationUrl mcpContext)
             | None => applicationUrl mcpContext
             end in
  [navigateTo url (stepTag stepNumber ++ "Navigate to " ++ url)].

Definition generateLoginActions (step : string) (stepNumber : nat) : list MCPAction :=
  let credentials := extractCredentials step in
  let defaultCreds := userCredentials mcpContext in
  [fillIn "username input field"
     (JS.show (JS.orU (c_username credentials) (Some (username defaultCreds))))
     (stepTag stepNumber ++ "Enter username");
   fillIn "password input field"
     (JS.show (JS.orU (c_password credentials) (Some (password defaultCreds))))
     (stepTag stepNumber ++ "Enter password");
   clickOn "login button" (stepTag stepNumber ++ "Click login button");
   waitFor 3000 (stepTag stepNumber ++ "Wait for login to complete")].

Definition generateFormActions (step : string) (stepNumber : nat) : list MCPAction :=
  map (fun field => fillIn (f_element field) (f_value field)
                      (stepTag stepNumber ++ "Enter " ++ f_label field))
      (extractFormFields step).

Definition generateClickActions (step : string) (stepNumber : nat) : list MCPAction :=
  let element := extractClickableElement step in
  clickOn element (stepTag stepNumber ++ "Click " ++ element)
  :: (if triggersNavigation step
      then [waitFor 2000 (stepTag stepNumber ++ "Wait for page transition")]
      else []).

Definition generateVerificationActions (step : string) (stepNumber : nat) : list MCPAction :=
  let verification := extractVerificationDetails step in
  [assertThat (v_element verification) (v_condition verification)
     (stepTag stepNumber ++ "Verify " ++ v_description verification)].

Definition generateWaitActions (step : string) (stepNumber : nat) : list MCPAction :=
  let timeout := extractTimeout step in
  [waitFor timeout (stepTag stepNumber ++ "Wait " ++ JS.ofN timeout ++ "ms")].

(** [semanticAnalysis] returns a click on 'interactive element'
    described by the step; [generateSemanticActions] copies it, its
    absent [value] and [condition] staying undefined. *)
Definition generateSemanticActions (step : string) (stepNumber : nat) : list MCPAction :=
  [clickOn "interactive element" (stepTag stepNumber ++ step)].

(** The assertion a row's expected result selects, inline data. *)
Definition inlineAssert (tag expected : string) : list MCPAction :=
  if JS.includes (JS.toLowerCase expected) "dashboard" then
    [assertThat "dashboard page" "visible"
       (tag ++ "Verify dashboard is displayed for valid credentials")]
  else if JS.includes (JS.toLowerCase expected) "invalid"
          || JS.includes (JS.toLowerCase expected) "error" then
    [assertThat "error message" "contains:Invalid credentials"
       (tag ++ "Verify error message for invalid credentials")]
  else [].

(** The body of the [forEach] of [generateInlineDataActions] for the
    dataset at [index], [total] being [inlineData.length]. *)
Definition inlineRowActions (step : string) (stepNumber total index : nat)
           (dataset : InlineDataset) : list MCPAction :=
  let tag := rowTag stepNumber index in
  [navigateTo (applicationUrl mcpContext)
     (tag ++ "Navigate to login page for test case " ++ JS.ofNat (index + 1));
   fillIn "username input field" (JS.orElse (d_username dataset) "")
     (tag ++ "Enter username " ++ dq ++ d_username dataset ++ dq);
   fillIn "password input field" (JS.orElse (d_password dataset) "")
     (tag ++ "Enter password " ++ dq ++ d_password dataset ++ dq);
   clickOn "login button" (tag ++ "Click login button");
   waitFor 3000 (tag ++ "Wait for login response")]
  ++ inlineAssert tag (d_expected dataset)
  ++ (if JS.includes (JS.toLowerCase (d_expected dataset)) "dashboard"
         && JS.includes (JS.toLowerCase step) "logout"
      then [clickOn "user dropdown menu" (tag ++ "Click user dropdown menu");
            clickOn "logout button" (tag ++ "Click logout button");
            waitFor 2000 (tag ++ "Wait for logout to complete")]
      else [])
  ++ (if Nat.ltb index (total - 1)
      then [waitFor 1000 (tag ++ "Wait before next test case")]
      else []).

(** [forEach((x, index) => ...)] from [index] on, pushing to one array. *)
Fixpoint forEachFrom {X : Type} (body : nat -> X -> list MCPAction)
         (index : nat) (xs : list X) : list MCPAction :=
  match xs with
  | [] => []
  | x :: rest => body index x ++ forEachFrom body (S index) rest
  end.

(** [generateInlineDataActions].  Nothing inside its [try] block can
    throw (every field of a dataset is a string), so the [catch] branch
    is never taken and is not modelled. *)
Definition generateInlineDataActions (step : string) (stepNumber : nat) : list MCPAction :=
  let inlineData := extractInlineDatasets step in
  forEachFrom (inlineRowActions step stepNumber (List.length inlineData)) 0 inlineData.

(** The assertion a row's expected result selects, CSV data. *)
Definition csvAssert (tag expectedResult : string) : list MCPAction :=
  if JS.includes (JS.toLowerCase expectedResult) "dashboard" then
    [assertThat "dashboard page" "visible"
       (tag ++ "Verify dashboard is displayed for valid credentials")]
  else if JS.includes (JS.toLowerCase expectedResult) "invalid" then
    [assertThat "error message" "contains:Invalid credentials"
       (tag ++ "Verify error message for invalid credentials")]
  else [].

(** The body of the [forEach] of [generateCSVDataActions]. *)
Definition csvRowActions (stepNumber total index : nat) (row : Row) : list MCPAction :=
  let tag := rowTag stepNumber index in
  let user := JS.orU (field row "Username") (field row "username") in
  let pass := JS.orU (field row "Password") (field row "password") in
  let expectedResult :=
    JS.show (JS.orU (JS.orU (field row "Expected") (field row "expected")) (Some "")) in
  [navigateTo (applicationUrl mcpContext)
     (tag ++ "Navigate to login page for test case " ++ JS.ofNat (index + 1));
   fillIn "username input field" (JS.show (JS.orU user (Some "")))
     (tag ++ "Enter username " ++ dq ++ JS.show user ++ dq);
   fillIn "password input field" (JS.show (JS.orU pass (Some "")))
     (tag ++ "Enter password " ++ dq ++ JS.show pass ++ dq);
   clickOn "login button" (tag ++ "Click login button");
   waitFor 3000 (tag ++ "Wait for login response")]
  ++ csvAssert tag expectedResult
  ++ (if Nat.ltb index (total - 1)
      then [waitFor 1000 (tag ++ "Wait before next test case")]
      else []).

(** [generateCSVDataActions].  [readCSVData] catches its own errors
    and returns an empty array, and every field of a row is a string,
    so nothing inside the [try] block can throw: the [catch] branch
    (one navigate action, "CSV fallback") is never taken and is not
    modelled. *)
Definition generateCSVDataActions (step : string) (stepNumber : nat) : list MCPAction :=
  let csvFile := extractCSVFileName step in
  let csvData := readCSVData fs csvFile in
  forEachFrom (csvRowActions stepNumber (List.length csvData)) 0 csvData.

Definition generateDataDrivenActions (step : string) (stepNumber : nat) : list MCPAction :=
  if hasInlineDatasets step
  then generateInlineDataActions step stepNumber
  else generateCSVDataActions step stepNumber.

(** The [forEach] of [generateWorkflowActions]: the sub-steps are
    parsed in order; an exception in one of them ends the loop. *)
Fixpoint parseEach (parse : string -> option (list MCPAction)) (subActions : list string)
  : option (list MCPAction) :=
  match subActions with
  | [] => Some []
  | subAction :: rest =>
      match parse subAction with
      | None => None
      | Some subStepActions =>
          match parseEach parse rest with
          | None => None
          | Some more => Some (subStepActions ++ more)
          end
      end
  end.

(** [intelligentStepParser], with [generateWorkflowActions] written in
    its [complex_workflow] case.  [stack] is the number of nested
    activations the call stack still has room for; [None] is the
    [RangeError] thrown when there is none. *)
Fixpoint intelligentStepParser (stack : nat) (step : string) (stepNumber : nat)
  : option (list MCPAction) :=
  match stack with
  | O => None
  | S stack' =>
      let stepText := JS.trim (JS.toLowerCase step) in
      let stepContext := analyzeStepContext stepText in
      match primaryAction stepContext with
      | navigate => Some (generateNavigationActions step stepNumber)
      | login => Some (generateLoginActions step stepNumber)
      | fill_form => Some (generateFormActions step stepNumber)
      | click_element => Some (generateClickActions step stepNumber)
      | verify_element => Some (generateVerificationActions step stepNumber)
      | wait_action => Some (generateWaitActions step stepNumber)
      | complex_workflow =>
          parseEach (fun subAction => intelligentStepParser stack' subAction stepNumber)
                    (decomposeComplexStep step)
      | data_driven_test => Some (generateDataDrivenActions step stepNumber)
      | unknown => Some (generateSemanticActions step stepNumber)
      end
  end.

Definition generateWorkflowActions (stack : nat) (step : string) (stepNumber : nat)
  : option (list MCPAction) :=
  parseEach (fun subAction => intelligentStepParser stack subAction stepNumber)
            (decomposeComplexStep step).

Definition fallbackBasicParser (step : string) (stepNumber : nat) : list MCPAction :=
  let lowerStep := JS.toLowerCase step in
  if JS.includes lowerStep "navigate" then
    [navigateTo (applicationUrl mcpContext) (stepTag stepNumber ++ "Navigate to application")]
  else if JS.includes lowerStep "login" then
    [clickOn "login button" (stepTag stepNumber ++ "Login action")]
  else
    [waitFor 1000 (stepTag stepNumber ++ "Default wait action")].

(** [parseSimpleStep]: the parsed actions when there are some, the
    fallback when there are none or when the parser threw. *)
Definition parseSimpleStep (stack : nat) (step : string) (stepNumber : nat) : list MCPAction :=
  match intelligentStepParser stack step stepNumber with
  | Some parsedActions =>
      if Nat.ltb 0 (List.length parsedActions) then parsedActions
      else fallbackBasicParser step stepNumber
  | None => fallbackBasicParser step stepNumber
  end.

Definition isStepByStepPrompt (content : string) : bool :=
  (match Re.matchStart Pat.numberedPrompt content with Some _ => true | None => false end)
  || JS.includes content "1." || JS.includes content "2.".

(** The numbered lines of a prompt, trimmed. *)
Definition stepLines (content : string) : list string :=
  filter (fun trimmedLine =>
            match Re.matchStart Pat.numberedLine trimmedLine with
            | Some _ => true
            | None => false
            end)
         (map JS.trim (JS.splitChar JS.LF content)).

(** [step.replace(/^\d+\.\s*/, '')] *)
Definition stepContent (step : string) : string :=
  match Re.matchStart Pat.stepPrefix step with
  | Some m => Re.after m
  | None => step
  end.

Definition parseStepByStepPrompt (stack : nat) (content : string) : list MCPAction :=
  forEachFrom (fun i line => parseSimpleStep stack (stepContent (JS.trim line)) (i + 1))
              0 (stepLines content).

Definition extractValue (content field defaultValue : string) : string :=
  match Re.search (Pat.valueOf field) content with
  | Some m => Re.group 1 m
  | None => defaultValue
  end.

(** [getActionPatterns]: the triggers and the actions of each pattern. *)
Definition getActionPatterns (content : string) : list (list string * list MCPAction) :=
  [ (["navigate"; "open"; "go to"],
     [navigateTo (applicationUrl mcpContext) "Navigate to application"]);
    (["login"; "username"; "password"; "admin"; "credential"],
     [fillIn "username input field" (username (userCredentials mcpContext)) "Enter username";
      fillIn "password input field" (password (userCredentials mcpContext)) "Enter password";
      clickOn "login button" "Click login button";
      waitFor 3000 "Wait for login to complete"]);
    (["dashboard"; "verify"; "confirm"],
     [assertThat "dashboard page" "visible" "Verify dashboard is displayed"]);
    (["pim"; "employee"],
     [clickOn "PIM navigation link" "Navigate to PIM"]);
    (["add"; "employee"; "first name"; "last name"],
     [clickOn "Add Employee button" "Click Add Employee button";
      fillIn "first name input field" (extractValue content "first name" "John123")
        "Enter first name";
      fillIn "last name input field" (extractValue content "last name" "Doe456")
        "Enter last name";
      clickOn "save employee button" "Save employee";
      waitFor 2000 "Wait for employee to be saved";
      assertThat "employee name display" "contains:John123 Doe456"
        "Verify employee name on profile"]);
    (["logout"; "user icon"; "sign out"],
     [clickOn "user dropdown menu" "Open user dropdown";
      clickOn "logout button" "Click logout"]) ].

(** The pattern loop of [parsePromptToActions]. *)
Definition patternActions (content : string) : list MCPAction :=
  flat_map (fun pattern =>
              if matchesPattern content (fst pattern) then snd pattern else [])
           (getActionPatterns content).

Definition parsePromptToActions (stack : nat) (prompt : PromptData) : list MCPAction :=
  let promptContent := content prompt in
  let content := JS.toLowerCase promptContent in
  if isDataDrivenTest content then
    generateDataDrivenActions promptContent 1
  else if isStepByStepPrompt content then
    parseStepByStepPrompt stack promptContent
  else
    match patternActions content with
    | [] => [navigateTo (applicationUrl mcpContext)
               "Navigate to application (default action)"]
    | actions => actions
    end.

End Compiler.

(* ================================================================== *)
(** ** Vocabulary of the statements *)
(* ================================================================== *)

(** The intent [intelligentStepParser] dispatches on: the
    [primaryAction] of the lower-cased, trimmed step. *)
Definition intentOf (step : string) : Intent :=
  primaryAction (analyzeStepContext (JS.trim (JS.toLowerCase step))).

(* Clause separators, for the lemmas on decomposeComplexStep. *)

(** [s] without its first [n] characters. *)
Fixpoint drop (n : nat) (s : string) : string :=
  match n, s with
  | S n', String _ s' => drop n' s'
  | _, _ => s
  end.

(** The length of the clause separator that starts [s], if any. *)
Definition sepLen (s : string) : option nat :=
  if JS.startsWith s " and " then Some 5
  else if JS.startsWith s " then " then Some 6
  else None.

(** No clause separator occurs in [q]. *)
Definition sepFree (q : string) : Prop :=
  forall a b, q = (a ++ b)%string -> sepLen b = None.

(** No clause separator of [q ++ s] starts inside [q]. *)
Definition noneStarts (q s : string) : Prop :=
  forall a b, q = (a ++ b)%string -> b <> ""%string -> sepLen (b ++ s) = None.

(* Rows of the data-driven expansion. *)

Definition isNavigate (a : MCPAction) : bool :=
  match type a with Navigate => true | _ => false end.

Definition isFillOf (e : string) (a : MCPAction) : bool :=
  match type a, element a with
  | Fill, Some x => String.eqb x e
  | _, _ => false
  end.

Definition isClickOf (e : string) (a : MCPAction) : bool :=
  match type a, element a with
  | Click, Some x => String.eqb x e
  | _, _ => false
  end.

(** The shape of the subsequence of one row: it opens with its only
    Navigate, fills the username field once, with the row's username,
    fills the password field once, with the row's password, and clicks
    the login button once. *)
Definition rowShape (d : InlineDataset) (block : list MCPAction) : Prop :=
  (exists a rest, block = a :: rest /\ isNavigate a = true
                  /\ filter isNavigate rest = [])
  /\ map value (filter (isFillOf "username input field") block) = [Some (d_username d)]
  /\ map value (filter (isFillOf "password input field") block) = [Some (d_password d)]
  /\ List.length (filter (isClickOf "login button") block) = 1.

(* The block scan. *)

(** The lower-cased, trimmed line the loop tests. *)
Definition trimmedLower (line : string) : string := JS.toLowerCase (JS.trim line).

(** [line] completes the accumulator of [st] into [row]: the scan is
    inside a dataset section, the line carries the expected label, and
    after the line's own username and password labels are read the
    accumulator holds a username and a password. *)
Definition completes (st : ScanState) (line : string) (row : InlineDataset) : Prop :=
  inDatasetSection st = true
  /\ isMarkerLine (trimmedLower line) = false
  /\ JS.includes (trimmedLower line) "expected" = true
  /\ exists m, Re.search Pat.blockExpected line = Some m
     /\ let a := readPassword line (trimmedLower line)
                   (readUsername line (trimmedLower line) (currentDataset st)) in
        JS.truthy (a_username a) = true
        /\ JS.truthy (a_password a) = true
        /\ row = {| d_username := JS.show (a_username a);
                    d_password := JS.show (a_password a);
                    d_expected := JS.trim (Re.group 1 m) |}.

(* ================================================================== *)
(** ** Fixtures *)
(* ================================================================== *)

Definition demoContext : MCPContext :=
  {| applicationUrl := "https://opensource-demo.orangehrmlive.com";
     userCredentials := {| username := "Admin"; password := "admin123" |} |}.

(** A test-data directory without files. *)
Definition noFiles : FileSystem := fun _ => None.

Definition promptOf (text : string) : PromptData :=
  {| file := "prompt.md"; title := "prompt"; content := text; tags := [] |}.

Definition newline : string := String JS.LF "".

(** A csv file with one row whose expected result is 'Error shown'. *)
Definition errorRowFile : FileSystem :=
  fun name =>
    if String.eqb name "data.csv"
    then Some ("Username,Password,Expected" ++ newline ++ "bob,wrong,Error shown")%string
    else None.

Definition twoTriples : string :=
  "Username: Admin, Password: admin123, Expected: Dashboard visible"
  ++ newline ++ "Username: bob, Password: wrong, Expected: Invalid credentials".

(** Labelled lines after a marker, then a username and a password that
    no expected label follows. *)
Definition blockLines : list string :=
  ["Test data:"; "username: Admin"; "password: admin123"; "expected: Dashboard"].

Definition danglingLines : list string := ["username: bob"; "password: wrong"].

(** A step of eleven words with no intent keyword and no separator. *)
Definition elevenWords : string :=
  "Ensure the employee list shows the new hire within the table".

Definition twoClauses : string := "Hover over the profile menu and scroll to the bottom".

Definition loginPrompt : string :=
  "Login test" ++ newline
  ++ "1. Navigate to https://opensource-demo.orangehrmlive.com" ++ newline
  ++ "2. Login with username: Admin password: admin123" ++ newline
  ++ "3. " ++ elevenWords ++ newline
  ++ "4. Verify the dashboard is displayed".

(* ================================================================== *)
(** ** Prompt files: title and tags *)
(* ================================================================== *)

(** [/\.(prompt|txt)$/i], without its end anchor. *)
Definition promptExtension : Re.regex :=
  Re.Seq (Re.Chr true ".") (Re.Grp (Re.Alt (Re.lit true "prompt") (Re.lit true "txt"))).

(** [s.replace(/r$/, '')] for a pattern [r] that is followed by the end
    anchor: the leftmost match of [r] that ends where [s] ends is
    removed. *)
Fixpoint removeAtEnd (r : Re.regex) (s : string) : string :=
  match Re.run r s [] (fun rest _ => match rest with
                                     | EmptyString => Some tt
                                     | String _ _ => None
                                     end) with
  | Some _ => EmptyString
  | None =>
      match s with
      | EmptyString => EmptyString
      | String c s' => String c (removeAtEnd r s')
      end
  end.

(** [s.replace(/[-_]/g, ' ')] *)
Fixpoint spaced (s : string) : string :=
  match s with
  | EmptyString => EmptyString
  | String c s' =>
      String (if Ascii.eqb c "-" || Ascii.eqb c "_" then " "%char else c) (spaced s')
  end.

(** The loop of [extractTitle]: the first line that starts with '# ',
    without these two characters, trimmed. *)
Fixpoint firstHeading (lines : list string) : option string :=
  match lines with
  | [] => None
  | line :: rest =>
      if JS.startsWith line "# " then Some (JS.trim (drop 2 line))
      else firstHeading rest
  end.

Definition extractTitle (fileName content : string) : string :=
  match firstHeading (firstn 3 (JS.splitChar JS.LF content)) with
  | Some t => t
  | None => spaced (removeAtEnd promptExtension fileName)
  end.

Definition nonEmpty (s : string) : bool :=
  match s with EmptyString => false | String _ _ => true end.

(** The first loop of [extractTags]: the tags of the first line that
    starts with 'tags:' in any case; the loop ends at that line. *)
Fixpoint explicitTags (lines : list string) : list string :=
  match lines with
  | [] => []
  | line :: rest =>
      let trimmedLine := JS.trim line in
      if JS.startsWith (JS.toLowerCase trimmedLine) "tags:" then
        let tagPart := JS.trim (drop 5 trimmedLine) in
        filter nonEmpty (map JS.trim (JS.splitChar "," tagPart))
      else explicitTags rest
  end.

(** The tags [extractTags] derives from the file name and the content. *)
Definition contentTags (combined : string) : list string :=
  (if JS.includes combined "login" then ["login"] else [])
  ++ (if JS.includes combined "smoke" then ["smoke"] else [])
  ++ (if JS.includes combined "regression" then ["regression"] else [])
  ++ (if JS.includes combined "data" then ["data-driven"] else [])
  ++ (if JS.includes combined "employee" || JS.includes combined "pim"
      then ["employee"] else [])
  ++ (if JS.includes combined "self-heal" then ["self-healing"] else [])
  ++ (if JS.includes combined "p1" then ["P1"] else []).

(** [[...new Set(tags)]]: the first occurrence of every tag, in order. *)
Fixpoint distinctFrom (seen tags : list string) : list string :=
  match tags with
  | [] => []
  | t :: rest =>
      if existsb (String.eqb t) seen then distinctFrom seen rest
      else t :: distinctFrom (t :: seen) rest
  end.

Definition extractTags (fileName content : string) : list string :=
  let tags :=
    match explicitTags (JS.splitChar JS.LF content) with
    | [] => contentTags (JS.toLowerCase (fileName ++ " " ++ content))
    | explicit => explicit
    end in
  distinctFrom [] tags.

(* ================================================================== *)
(** ** Browsers, results and statistics *)
(* ================================================================== *)

(** [interface ExecutorOptions]. *)
Record ExecutorOptions : Type := {
  o_tags : option (list string);
  o_suite : option string;
  o_file : option string;
  o_verbose : option bool;
  o_headed : option bool;
  o_browsers : option (list string);
  o_parallel : option bool;
  o_app : option string
}.

(** [this.supportedBrowsers], set once in the constructor. *)
Definition supportedBrowsers : list string :=
  ["chromium"; "firefox"; "webkit"; "chrome"; "edge"].

Definition getBrowsersToRun (options : ExecutorOptions) : list string :=
  match o_browsers options with
  | Some ((_ :: _) as browsers) =>
      match filter (fun browser => existsb (String.eqb browser) supportedBrowsers) browsers with
      | [] => ["chromium"]
      | validBrowsers => validBrowsers
      end
  | _ => ["chromium"]
  end.

Inductive StepStatus : Type := passed | failed.

(** [interface StepResult]; times are in milliseconds. *)
Record StepResult : Type := {
  stepNumber : nat;
  s_description : string;
  s_action : ActionType;
  status : StepStatus;
  s_duration : Z;
  details : string;
  s_error : option string
}.

(** [interface PromptResult]. *)
Record PromptResult : Type := {
  r_file : string;
  r_title : string;
  success : bool;
  r_duration : Z;
  r_error : option string;
  output : string;
  steps : option (list StepResult);
  totalSteps : option nat;
  passedSteps : option nat;
  failedSteps : option nat;
  browser : option string
}.





(** [object[key]] for an object given by its assignments: the last
    assignment to [key], [None] (undefined) when there is none. *)
Fixpoint assigned {V : Type} (object : list (string * V)) (key : string) : option V :=
  match object with
  | [] => None
  | (k, v) :: rest =>
      match assigned rest key with
      | Some later => Some later
      | None => if String.eqb k key then Some v else None
      end
  end.

(** [flattenElementSelectors]: [elements] is given by its entries, each
    module by the entries of its elements, in the order
    [Object.entries] lists them; the result is the list of the
    assignments to [flattened].  An assignment to the key '__proto__'
    is in the list although it defines nothing in the object: what is
    stated of [flattened] leaves that key out. *)
Definition flattenElementSelectors (elements : list (string * list (string * string)))
  : list (string * string) :=
  flat_map (fun moduleEntry =>
              flat_map (fun elementEntry =>
                          [((fst moduleEntry ++ "_" ++ fst elementEntry)%string,
                            snd elementEntry);
                           (fst elementEntry, snd elementEntry)])
                       (snd moduleEntry))
           elements.

(* ================================================================== *)
(** ** Execution of a compiled sequence *)
(* ================================================================== *)

Definition actionName (t : ActionType) : string :=
  match t with
  | Navigate => "navigate" | Fill => "fill" | Click => "click" | Wait => "wait"
  | Assert => "assert" | Select => "select" | Hover => "hover" | Snapshot => "snapshot"
  end.

Section Execution.

(** The browser behind [executeBrowserAction] and the clock behind
    [Date.now()] are parameters: [World] is their state, an action
    returns its result text or throws, and reading the clock may let
    time pass.  [message] and [thrownText] are [error.message] and
    [error.toString()] of what was thrown. *)
Variable World : Type.
Variable Thrown : Type.
Variable message : Thrown -> option string.
Variable thrownText : Thrown -> string.
Variable dateNow : World -> Z * World.
Variable executeBrowserAction : MCPAction -> World -> (string + Thrown) * World.

Variable mcpContext : MCPContext.
Variable fs : FileSystem.
Variable stack : nat.

(** How the loop over the actions ends. *)
Record LoopEnd : Type := {
  l_steps : list StepResult;
  l_executionLog : string;
  l_thrown : option Thrown;
  l_world : World
}.

(** The [for] loop of [executePromptDirectly] from index [i] on: every
    action is executed and recorded; the first one that throws is
    recorded as failed and ends the loop with what it threw. *)
Fixpoint runActions (i : nat) (actions : list MCPAction) (w : World)
         (steps : list StepResult) (executionLog : string) : LoopEnd :=
  match actions with
  | [] => {| l_steps := steps; l_executionLog := executionLog; l_thrown := None;
             l_world := w |}
  | action :: rest =>
      let (stepStartTime, w1) := dateNow w in
      let (outcome, w2) := executeBrowserAction action w1 in
      let (stepEnd, w3) := dateNow w2 in
      match outcome with
      | inl actionResult =>
          let stepResult :=
            {| stepNumber := i + 1; s_description := description action;
               s_action := type action; status := passed;
               s_duration := (stepEnd - stepStartTime)%Z;
               details := actionResult; s_error := None |} in
          runActions (S i) rest w3 (steps ++ [stepResult])
            (executionLog ++ "Step " ++ JS.ofNat (i + 1) ++ ": " ++ description action
             ++ " - " ++ actionResult ++ newline)
      | inr stepError =>
          let stepResult :=
            {| stepNumber := i + 1; s_description := description action;
               s_action := type action; status := failed;
               s_duration := (stepEnd - stepStartTime)%Z;
               details := "Step failed";
               s_error := Some (JS.show (JS.orU (message stepError)
                                               (Some "Unknown step error"))) |} in
          {| l_steps := steps ++ [stepResult]; l_executionLog := executionLog;
             l_thrown := Some stepError; l_world := w3 |}
      end
  end.

Definition isPassed (s : StepResult) : bool :=
  match status s with passed => true | failed => false end.

Definition isFailed (s : StepResult) : bool :=
  match status s with passed => false | failed => true end.

Definition executePromptDirectly (prompt : PromptData) (browserType : string) (w : World)
  : PromptResult * World :=
  let (startTime, w0) := dateNow w in
  let actions := parsePromptToActions mcpContext fs stack prompt in
  let loopEnd := runActions 0 actions w0 [] "" in
  let recorded := l_steps loopEnd in
  let nPassed := List.length (filter isPassed recorded) in
  let nFailed := List.length (filter isFailed recorded) in
  let (endTime, w') := dateNow (l_world loopEnd) in
  match l_thrown loopEnd with
  | None =>
      ({| r_file := file prompt; r_title := title prompt; success := true;
          r_duration := (endTime - startTime)%Z; r_error := None;
          output := l_executionLog loopEnd; steps := Some recorded;
          totalSteps := Some (List.length actions);
          passedSteps := Some nPassed; failedSteps := Some nFailed;
          browser := Some browserType |}, w')
  | Some error =>
      ({| r_file := file prompt; r_title := title prompt; success := false;
          r_duration := (endTime - startTime)%Z;
          r_error := Some (JS.show (JS.orU (message error)
                                          (Some "Direct execution failed")));
          output := thrownText error; steps := Some recorded;
          totalSteps := Some (List.length recorded);
          passedSteps := Some nPassed; failedSteps := Some nFailed;
          browser := Some browserType |}, w')
  end.

End Execution.

Arguments l_steps {World Thrown} _.
Arguments l_executionLog {World Thrown} _.
Arguments l_thrown {World Thrown} _.
Arguments l_world {World Thrown} _.
Arguments runActions {World Thrown} message dateNow executeBrowserAction
  i actions w steps executionLog.
Arguments executePromptDirectly {World Thrown} message thrownText dateNow
  executeBrowserAction mcpContext fs stack prompt browserType w.

(* ================================================================== *)
(** ** Command-line arguments *)
(* ================================================================== *)

(** [interface CLIOptions]. *)
Record CLIOptions : Type := {
  cli_app : option string;
  cli_file : option string;
  cli_suite : option string;
  cli_browsers : option (list string);
  cli_headed : option bool;
  cli_parallel : option bool;
  cli_verbose : option bool;
  cli_listApps : option bool;
  cli_help : option bool
}.

Definition noOptions : CLIOptions :=
  {| cli_app := None; cli_file := None; cli_suite := None; cli_browsers := None;
     cli_headed := None; cli_parallel := None; cli_verbose := None;
     cli_listApps := None; cli_help := None |}.

(** [arg.split('=')[1]] *)
Definition afterEquals (arg : string) : option string :=
  nth_error (JS.splitChar "=" arg) 1.

(** The body of the loop of [parseArguments].  For [--browsers=] the
    source calls [split(',')] on [arg.split('=')[1]], which is defined
    whenever the argument starts with '--browsers='. *)
Definition parseArgument (options : CLIOptions) (arg : string) : CLIOptions :=
  if JS.startsWith arg "--app=" then
    {| cli_app := afterEquals arg; cli_file := cli_file options;
       cli_suite := cli_suite options; cli_browsers := cli_browsers options;
       cli_headed := cli_headed options; cli_parallel := cli_parallel options;
       cli_verbose := cli_verbose options; cli_listApps := cli_listApps options;
       cli_help := cli_help options |}
  else if JS.startsWith arg "--file=" then
    {| cli_app := cli_app options; cli_file := afterEquals arg;
       cli_suite := cli_suite options; cli_browsers := cli_browsers options;
       cli_headed := cli_headed options; cli_parallel := cli_parallel options;
       cli_verbose := cli_verbose options; cli_listApps := cli_listApps options;
       cli_help := cli_help options |}
  else if JS.startsWith arg "--suite=" then
    {| cli_app := cli_app options; cli_file := cli_file options;
       cli_suite := afterEquals arg; cli_browsers := cli_browsers options;
       cli_headed := cli_headed options; cli_parallel := cli_parallel options;
       cli_verbose := cli_verbose options; cli_listApps := cli_listApps options;
       cli_help := cli_help options |}
  else if JS.startsWith arg "--browsers=" then
    {| cli_app := cli_app options; cli_file := cli_file options;
       cli_suite := cli_suite options;
       cli_browsers := option_map (JS.splitChar ",") (afterEquals arg);
       cli_headed := cli_headed options; cli_parallel := cli_parallel options;
       cli_verbose := cli_verbose options; cli_listApps := cli_listApps options;
       cli_help := cli_help options |}
  else if String.eqb arg "--headed" then
    {| cli_app := cli_app options; cli_file := cli_file options;
       cli_suite := cli_suite options; cli_browsers := cli_browsers options;
       cli_headed := Some true; cli_parallel := cli_parallel options;
       cli_verbose := cli_verbose options; cli_listApps := cli_listApps options;
       cli_help := cli_help options |}
  else if String.eqb arg "--parallel" then
    {| cli_app := cli_app options; cli_file := cli_file options;
       cli_suite := cli_suite options; cli_browsers := cli_browsers options;
       cli_headed := cli_headed options; cli_parallel := Some true;
       cli_verbose := cli_verbose options; cli_listApps := cli_listApps options;
       cli_help := cli_help options |}
  else if String.eqb arg "--verbose" then
    {| cli_app := cli_app options; cli_file := cli_file options;
       cli_suite := cli_suite options; cli_browsers := cli_browsers options;
       cli_headed := cli_headed options; cli_parallel := cli_parallel options;
       cli_verbose := Some true; cli_listApps := cli_listApps options;
       cli_help := cli_help options |}
  else if String.eqb arg "--list-apps" then
    {| cli_app := cli_app options; cli_file := cli_file options;
       cli_suite := cli_suite options; cli_browsers := cli_browsers options;
       cli_headed := cli_headed options; cli_parallel := cli_parallel options;
       cli_verbose := cli_verbose options; cli_listApps := Some true;
       cli_help := cli_help options |}
  else if String.eqb arg "--help" then
    {| cli_app := cli_app options; cli_file := cli_file options;
       cli_suite := cli_suite options; cli_browsers := cli_browsers options;
       cli_headed := cli_headed options; cli_parallel := cli_parallel options;
       cli_verbose := cli_verbose options; cli_listApps := cli_listApps options;
       cli_help := Some true |}
  else options.

(** [parseArguments] on [process.argv.slice(2)]. *)
Definition parseArguments (args : list string) : CLIOptions :=
  fold_left parseArgument args noOptions.

(** The options [run] passes to [execute]. *)
Definition executorOptions (options : CLIOptions) : ExecutorOptions :=
  {| o_tags := None; o_suite := cli_suite options; o_file := cli_file options;
     o_verbose := cli_verbose options; o_headed := cli_headed options;
     o_browsers := cli_browsers options; o_parallel := cli_parallel options;
     o_app := Some (JS.show (JS.orU (cli_app options) (Some "orangehrm"))) |}.

(* ================================================================== *)
(** ** More vocabulary *)
(* ================================================================== *)

(** [q] occurs in [s]. *)
Definition isSubstring (q s : string) : Prop :=
  exists a b, s = (a ++ q ++ b)%string.

Fixpoint allChars (p : ascii -> bool) (s : string) : bool :=
  match s with
  | EmptyString => true
  | String c s' => p c && allChars p s'
  end.

(** [derives r w caps]: the pattern [r] can match exactly the text [w],
    its groups capturing [caps]. *)
Inductive derives : Re.regex -> string -> list string -> Prop :=
| d_eps : derives Re.Eps "" []
| d_chr ci c d : Re.chrEq ci c d = true -> derives (Re.Chr ci c) (String d "") []
| d_cls (p : ascii -> bool) d : p d = true -> derives (Re.Cls p) (String d "") []
| d_star p w : allChars p w = true -> derives (Re.Star p) w []
| d_plus p w : allChars p w = true -> w <> ""%string -> derives (Re.Plus p) w []
| d_opt_some r w caps : derives r w caps -> derives (Re.Opt r) w caps
| d_opt_none r : derives (Re.Opt r) "" []
| d_alt_l r1 r2 w caps : derives r1 w caps -> derives (Re.Alt r1 r2) w caps
| d_alt_r r1 r2 w caps : derives r2 w caps -> derives (Re.Alt r1 r2) w caps
| d_seq r1 r2 w1 w2 caps1 caps2 :
    derives r1 w1 caps1 -> derives r2 w2 caps2 ->
    derives (Re.Seq r1 r2) (w1 ++ w2) (caps1 ++ caps2)
| d_grp r w caps : derives r w caps -> derives (Re.Grp r) w (caps ++ [w]).

(** The first and the last character of [kw] are no white space. *)
Definition startsSolid (kw : string) : bool :=
  match kw with
  | EmptyString => false
  | String c _ => negb (JS.isSpace c)
  end.

Fixpoint endsSolid (kw : string) : bool :=
  match kw with
  | EmptyString => false
  | String c EmptyString => negb (JS.isSpace c)
  | String _ rest => endsSolid rest
  end.

Definition edgesSolid (kw : string) : bool := startsSolid kw && endsSolid kw.

(** The keywords of the six keyword intents of [analyzeStepContext]. *)
Definition intentKeywords : list (list string) :=
  [["navigate"; "open"; "go to"; "visit"];
   ["login"; "sign in"; "authenticate"; "enter credentials"];
   ["enter"; "input"; "type"; "fill"; "provide"];
   ["click"; "press"; "select"; "choose"; "tap"];
   ["verify"; "check"; "confirm"; "validate"; "assert"];
   ["wait"; "pause"; "delay"]].

(** The shape of the subsequence of one CSV row: as [rowShape], the
    values being those of the row's Username and Password columns, in
    either spelling, or the empty string. *)
Definition csvRowShape (row : Row) (block : list MCPAction) : Prop :=
  (exists a rest, block = a :: rest /\ isNavigate a = true
                  /\ filter isNavigate rest = [])
  /\ map value (filter (isFillOf "username input field") block)
     = [Some (JS.show (JS.orU (JS.orU (field row "Username") (field row "username"))
                             (Some "")))]
  /\ map value (filter (isFillOf "password input field") block)
     = [Some (JS.show (JS.orU (JS.orU (field row "Password") (field row "password"))
                             (Some "")))]
  /\ List.length (filter (isClickOf "login button") block) = 1.

(** The Wait(1000) that separates two rows. *)
Definition isSeparatorWait (a : MCPAction) : bool :=
  match type a, timeout a with
  | Wait, Some t => N.eqb t 1000
  | _, _ => false
  end.

(** The last action of a sequence. *)
Definition lastAction (actions : list MCPAction) : option MCPAction :=
  hd_error (rev actions).

Definition compoundPrompt : string :=
  "Profile" ++ newline ++ "3. Hover over the profile menu and scroll down".

(** The three fields of a dataset are filled. *)
Definition filled (d : InlineDataset) : Prop :=
  d_username d <> ""%string /\ d_password d <> ""%string /\ d_expected d <> ""%string.

(** The characters of the class that ends [Pat.urlPattern]: no white
    space, backtick, apostrophe or double quote. *)
Definition urlChar (c : ascii) : bool :=
  negb (JS.isSpace c || Ascii.eqb c "`" || Ascii.eqb c "'" || Ascii.eqb c Pat.DQ).

(** [name] is a run of word characters followed by '.csv' in any case. *)
Definition csvFileName (name : string) : Prop :=
  exists w t, name = (w ++ t)%string /\ w <> ""%string
              /\ allChars JS.isWord w = true /\ JS.toLowerCase t = ".csv"%string.

(** [u] is 'http://' or 'https://' followed by a non-empty run of URL
    characters. *)
Definition httpUrl (u : string) : Prop :=
  exists rest, (u = ("http://" ++ rest)%string \/ u = ("https://" ++ rest)%string)
               /\ rest <> ""%string /\ allChars urlChar rest = true.

(** The tags [extractTags] can derive from the file name and content. *)
Definition derivedTags : list string :=
  ["login"; "smoke"; "regression"; "data-driven"; "employee"; "self-healing"; "P1"].


(** No character of [s] is [c]. *)
Definition freeOf (c : ascii) (s : string) : bool :=
  allChars (fun d => negb (Ascii.eqb d c)) s.

(** [v] between two double quotes. *)
Definition quoted (v : string) : string :=
  String Pat.DQ (v ++ String Pat.DQ "").

(** The longest sequence the pattern path can emit: all six patterns. *)
Definition allPatternActions : nat := 15.

(** The values of the options that take one: none holds '='. *)
Definition plainValues (o : CLIOptions) : Prop :=
  (forall v, cli_app o = Some v -> freeOf "=" v = true)
  /\ (forall v, cli_file o = Some v -> freeOf "=" v = true)
  /\ (forall v, cli_suite o = Some v -> freeOf "=" v = true)
  /\ (forall names, cli_browsers o = Some names ->
        names <> []
        /\ forall name, In name names ->
             freeOf "=" name = true /\ freeOf "," name = true).

(** No character of [v] is a double quote. *)
Definition quoteFree (v : string) : bool := allChars (Pat.isNot Pat.DQ) v.

(** Neither a double quote nor white space. *)
Definition bareChar (c : ascii) : bool := negb (Ascii.eqb c Pat.DQ || JS.isSpace c).

(** A text a pattern captured between double quotes in [source]: not
    empty, without a double quote. *)
Definition quotedIn (source v : string) : Prop :=
  v <> ""%string /\ quoteFree v = true /\ isSubstring (quoted v) source.

(** A credential read from [source]: a non-empty run without white
    space and double quotes. *)
Definition bareIn (source v : string) : Prop :=
  v <> ""%string /\ allChars bareChar v = true /\ isSubstring v source.

(** The labels of [extractFormFields]. *)
Definition formLabels : list string := ["first name"; "last name"; "email"].

(* ================================================================== *)
(** ** The simulated browser *)
(* ================================================================== *)

(** [interface MCPBrowser]. *)
Record MCPBrowser : Type := {
  isInitialized : bool;
  currentUrl : option string;
  lastSnapshot : option string;
  isHeaded : option bool;
  browserType : option string
}.

(** [this.browser] as the constructor leaves it. *)
Definition newBrowser : MCPBrowser :=
  {| isInitialized := false; currentUrl := None; lastSnapshot := None;
     isHeaded := None; browserType := None |}.

Definition cleanup (b : MCPBrowser) : MCPBrowser :=
  if isInitialized b then
    {| isInitialized := false; currentUrl := None; lastSnapshot := None;
       isHeaded := isHeaded b; browserType := None |}
  else b.

(** [initializeBrowser(headed, browserType)]: nothing in its [try]
    block throws. *)
Definition initializeBrowser (headed : bool) (kind : string) (b : MCPBrowser) : MCPBrowser :=
  let cleaned := if isInitialized b then cleanup b else b in
  {| isInitialized := true; currentUrl := currentUrl cleaned;
     lastSnapshot := lastSnapshot cleaned; isHeaded := Some headed;
     browserType := Some kind |}.

(** The two signs that open the result texts, U+2705 and U+26A0 U+FE0F,
    as their UTF-8 bytes; the texts are only concatenated. *)
Definition checkMark : string :=
  String (ascii_of_N 226) (String (ascii_of_N 156) (String (ascii_of_N 133) "")).

Definition warningSign : string :=
  String (ascii_of_N 226) (String (ascii_of_N 154) (String (ascii_of_N 160)
    (String (ascii_of_N 239) (String (ascii_of_N 184) (String (ascii_of_N 143) ""))))).

(** An integer inside a template literal. *)
Definition ofZ (z : Z) : string := NilEmpty.string_of_int (Z.to_int z).

(** [action.timeout || 1000] *)
Definition timeoutOr (t : option N) (d : N) : N :=
  match t with
  | Some 0%N | None => d
  | Some n => n
  end.

Section Simulation.

(** The clock: [now] is [Date.now()], [sleep] the wait of
    [setTimeout]; reading the clock may let time pass. *)
Variable Clock : Type.
Variable now : Clock -> Z * Clock.
Variable sleep : N -> Clock -> Clock.

(** The state the executor runs in: [this.browser] and the clock. *)
Definition Session : Type := (MCPBrowser * Clock)%type.

Definition mcpNavigate (target : option string) (s : Session) : string * Session :=
  let (b, c) := s in
  ((checkMark ++ " Navigate successful: " ++ JS.show target)%string,
   ({| isInitialized := isInitialized b; currentUrl := target;
       lastSnapshot := lastSnapshot b; isHeaded := isHeaded b;
       browserType := browserType b |}, c)).

Definition mcpTakeSnapshot (s : Session) : string * Session :=
  let (b, c) := s in
  let (timestamp, c') := now c in
  let name := ("real_mcp_snapshot_" ++ ofZ timestamp)%string in
  ((checkMark ++ " Real MCP Snapshot successful: " ++ name)%string,
   ({| isInitialized := isInitialized b; currentUrl := currentUrl b;
       lastSnapshot := Some name; isHeaded := isHeaded b;
       browserType := browserType b |}, c')).

Definition mcpClick (elementDescription : option string) (s : Session) : string * Session :=
  let (_, s') := mcpTakeSnapshot s in
  ((checkMark ++ " Click successful: " ++ JS.show elementDescription)%string, s').

Definition mcpFill (elementDescription fieldValue : option string) (s : Session)
  : string * Session :=
  ((checkMark ++ " Fill successful: " ++ JS.show elementDescription ++ " = "
    ++ JS.show fieldValue)%string, s).

Definition mcpWait (t : N) (s : Session) : string * Session :=
  let (b, c) := s in
  ((checkMark ++ " MCP Wait completed: " ++ JS.ofN t ++ "ms")%string, (b, sleep t c)).

Definition mcpAssert (elementDescription cond : option string) (s : Session)
  : string * Session :=
  let (_, s') := mcpTakeSnapshot s in
  ((checkMark ++ " MCP Assert successful: " ++ JS.show elementDescription ++ " "
    ++ JS.show cond)%string, s').

(** [executeBrowserAction]: the browser is initialised first when it
    is not, which cannot fail, so that the function always returns its
    result text. *)
Definition executeBrowserAction (action : MCPAction) (s : Session) : string * Session :=
  let (b, c) := s in
  let ready :=
    if isInitialized b then b
    else initializeBrowser false (JS.show (JS.orU (browserType b) (Some "chromium"))) b in
  match type action with
  | Navigate => mcpNavigate (url action) (ready, c)
  | Fill => mcpFill (element action) (value action) (ready, c)
  | Click => mcpClick (element action) (ready, c)
  | Wait => mcpWait (timeoutOr (timeout action) 1000) (ready, c)
  | Assert => mcpAssert (element action) (condition action) (ready, c)
  | Snapshot => mcpTakeSnapshot (ready, c)
  | Select | Hover =>
      ((warningSign ++ "  Unknown action type: " ++ actionName (type action))%string,
       (ready, c))
  end.

Variable mcpContext : MCPContext.
Variable fs : FileSystem.
Variable stack : nat.

(** [Date.now()] in a session. *)
Definition sessionNow (s : Session) : Z * Session :=
  let (b, c) := s in let (t, c') := now c in (t, (b, c')).

(** [executeBrowserAction] as [executePromptDirectly] awaits it; no
    error is ever thrown, the errors being [Error] objects. *)
Definition awaited (action : MCPAction) (s : Session) : (string + string) * Session :=
  let (text, s') := executeBrowserAction action s in (inl text, s').

(** [executePromptDirectly] on the simulated browser. *)
Definition executePrompt (prompt : PromptData) (kind : string) (s : Session)
  : PromptResult * Session :=
  executePromptDirectly (fun e => Some e) (fun e => ("Error: " ++ e)%string)
                        sessionNow awaited mcpContext fs stack prompt kind s.

(** The loop of [executeBrowserBatch]; its [catch] is never entered,
    [executePromptDirectly] catching whatever is thrown. *)
Fixpoint runPrompts (prompts : list PromptData) (kind : string) (s : Session)
         (results : list PromptResult) : list PromptResult * Session :=
  match prompts with
  | [] => (results, s)
  | prompt :: rest =>
      let (result, s') := executePrompt prompt kind s in
      runPrompts rest kind s' (results ++ [result])
  end.

Definition executeBrowserBatch (prompts : list PromptData) (kind : string)
           (options : ExecutorOptions) (s : Session) : list PromptResult * Session :=
  let (b, c) := s in
  let headed := match o_headed options with Some h => h | None => false end in
  let (results, s') := runPrompts prompts kind (initializeBrowser headed kind b, c) [] in
  let (b', c') := s' in
  (results, (cleanup b', c')).

End Simulation.

Arguments mcpNavigate {Clock} target s.
Arguments mcpTakeSnapshot {Clock} now s.
Arguments mcpClick {Clock} now elementDescription s.
Arguments mcpFill {Clock} elementDescription fieldValue s.
Arguments mcpWait {Clock} sleep t s.
Arguments mcpAssert {Clock} now elementDescription cond s.
Arguments executeBrowserAction {Clock} now sleep action s.
Arguments sessionNow {Clock} now s.
Arguments awaited {Clock} now sleep action s.
Arguments executePrompt {Clock} now sleep mcpContext fs stack prompt kind s.
Arguments runPrompts {Clock} now sleep mcpContext fs stack prompts kind s results.
Arguments executeBrowserBatch {Clock} now sleep mcpContext fs stack prompts kind options s.

(** The browser after [cleanup]: nothing is left but the headed flag. *)
Definition isClean (b : MCPBrowser) : Prop :=
  isInitialized b = false /\ currentUrl b = None /\ lastSnapshot b = None
  /\ browserType b = None.


(** One triple with its labels in capitals, and the same triple with
    the labels as the documentation writes them. *)
Definition capitalTriple : string := "USERNAME: a, PASSWORD: b, EXPECTED: Dashboard".

Definition canonicalTriple : string := "Username: a, Password: b, Expected: Dashboard".

(** The property names of Object.prototype: a key of this list reads
    as something else than undefined on every object. *)
Definition inheritedNames : list string :=
  ["constructor"; "__defineGetter__"; "__defineSetter__"; "hasOwnProperty";
   "__lookupGetter__"; "__lookupSetter__"; "isPrototypeOf"; "propertyIsEnumerable";
   "toString"; "valueOf"; "__proto__"; "toLocaleString"].

(** A prompt for the pattern path that gives a first name in quotes. *)
Definition aliceFirstName : string :=
  "Add an employee with first name " ++ dq ++ "Alice" ++ dq.

(** [arg.startsWith('--app=')] *)
Definition isAppArgument (arg : string) : bool := JS.startsWith arg "--app=".

(** An element configuration of one module with one element. *)
Definition loginElements : list (string * list (string * string)) :=
  [("login", [("submit", "#go")])].

(* ================================================================== *)
(** ** Properties of the string primitives *)
(* ================================================================== *)

Module JSFacts.
Import JS.

Lemma lowerChar_idem (c : ascii) : lowerChar (lowerChar c) = lowerChar c.
Proof.
  destruct c as [[] [] [] [] [] [] [] []]; vm_compute; reflexivity.
Qed.

Lemma toLowerCase_idem (s : string) : toLowerCase (toLowerCase s) = toLowerCase s.
Proof.
  induction s as [|c s IH]; simpl; [reflexivity|].
  rewrite lowerChar_idem, IH. reflexivity.
Qed.

Lemma startsWith_app (s t p : string) :
  startsWith s p = true -> startsWith (s ++ t) p = true.
Proof.
  revert s. induction p as [|a p IH]; intros s H; [reflexivity|].
  destruct s as [|b s]; simpl in *; [discriminate|].
  apply andb_true_iff in H. destruct H as [Hab Hp].
  rewrite Hab. simpl. apply IH, Hp.
Qed.

Lemma startsWith_empty (p : string) :
  startsWith "" p = true -> p = "".
Proof. destruct p; simpl; [reflexivity|discriminate]. Qed.

Lemma append_nil_r (s : string) : (s ++ "")%string = s.
Proof. induction s as [|c s IH]; simpl; [|rewrite IH]; reflexivity. Qed.

Lemma append_assoc (a b c : string) : ((a ++ b) ++ c = a ++ (b ++ c))%string.
Proof. induction a as [|x a IH]; simpl; [|rewrite IH]; reflexivity. Qed.

Lemma length_append (a b : string) :
  String.length (a ++ b) = String.length a + String.length b.
Proof. induction a as [|x a IH]; simpl; [|rewrite IH]; reflexivity. Qed.

(** [trimStart] leaves a suffix and [trimEnd] a prefix. *)
Lemma trimStart_suffix (s : string) : exists w, s = (w ++ trimStart s)%string.
Proof.
  induction s as [|c s [w IH]]; simpl.
  - exists ""%string. reflexivity.
  - destruct (isSpace c).
    + exists (String c w). simpl. rewrite <- IH. reflexivity.
    + exists ""%string. reflexivity.
Qed.

Lemma trimEnd_prefix (s : string) : exists w, s = (trimEnd s ++ w)%string.
Proof.
  induction s as [|c s [w IH]]; simpl.
  - exists ""%string. reflexivity.
  - destruct (trimEnd s) as [|d t] eqn:E.
    + destruct (isSpace c).
      * exists (String c s). reflexivity.
      * exists s. reflexivity.
    + exists w. simpl. rewrite IH at 1. reflexivity.
Qed.

Lemma trimEnd_idem (s : string) : trimEnd (trimEnd s) = trimEnd s.
Proof.
  induction s as [|c s IH]; simpl; [reflexivity|].
  destruct (trimEnd s) as [|d t] eqn:E.
  - destruct (isSpace c) eqn:Ec; simpl; [reflexivity|]. rewrite Ec. reflexivity.
  - simpl in *. rewrite IH. reflexivity.
Qed.

(** A string that does not begin with white space keeps its first
    character under [trimEnd]. *)
Lemma trimStart_trimEnd_fixed (s : string) :
  trimStart s = s -> trimStart (trimEnd s) = trimEnd s.
Proof.
  destruct s as [|c s]; simpl; [reflexivity|].
  destruct (isSpace c) eqn:Ec.
  - intros H. exfalso.
    destruct (trimStart_suffix s) as [w Hw].
    rewrite H in Hw. apply (f_equal String.length) in Hw.
    rewrite length_append in Hw. simpl in Hw. lia.
  - intros _. destruct (trimEnd s); simpl; rewrite Ec; reflexivity.
Qed.

Lemma trimStart_idem (s : string) : trimStart (trimStart s) = trimStart s.
Proof.
  induction s as [|c s IH]; simpl; [reflexivity|].
  destruct (isSpace c) eqn:Ec; [exact IH|]. simpl. rewrite Ec. reflexivity.
Qed.

Lemma trim_idem (s : string) : trim (trim s) = trim s.
Proof.
  unfold trim.
  rewrite (trimStart_trimEnd_fixed (trimStart s) (trimStart_idem s)).
  apply trimEnd_idem.
Qed.

End JSFacts.

(* ================================================================== *)
(** ** Properties of clause splitting *)
(* ================================================================== *)

Module SplitFacts.
Import JS JSFacts.

Lemma startsWith_split (s p : string) :
  startsWith s p = true -> s = (p ++ drop (String.length p) s)%string.
Proof.
  revert s. induction p as [|a p IH]; intros s H; [reflexivity|].
  destruct s as [|b s]; simpl in H; [discriminate|].
  apply andb_true_iff in H. destruct H as [Hab Hp].
  apply Ascii.eqb_eq in Hab. subst b. simpl. f_equal. apply IH, Hp.
Qed.

Lemma consumed_prefix (p r : string) : Re.consumed (p ++ r) r = p.
Proof.
  unfold Re.consumed. rewrite length_append.
  replace (String.length p + String.length r - String.length r)
    with (String.length p) by lia.
  induction p as [|a p IH]; simpl.
  - destruct r; reflexivity.
  - rewrite IH. reflexivity.
Qed.

(** Running a case-sensitive literal is a prefix test. *)
Lemma run_lit {A : Type} (l s : string) (caps : list string)
      (k : string -> list string -> option A) :
  Re.run (Re.lit false l) s caps k
  = if startsWith s l then k (drop (String.length l) s) caps else None.
Proof.
  revert s. induction l as [|a l IH]; intros s; simpl.
  - destruct s; reflexivity.
  - destruct s as [|b s]; [reflexivity|].
    unfold Re.chrEq. destruct (Ascii.eqb a b); simpl; [apply IH|reflexivity].
Qed.

Lemma matchStart_separator (s : string) :
  option_map (fun m => String.length (Re.whole m)) (Re.matchStart Pat.clauseSeparator s)
  = sepLen s.
Proof.
  unfold Re.matchStart, Pat.clauseSeparator, sepLen.
  cbn [Re.run]. rewrite !run_lit.
  destruct (startsWith s " and ") eqn:E1.
  - apply startsWith_split in E1. cbn [option_map Re.whole].
    rewrite E1 at 1. rewrite consumed_prefix. reflexivity.
  - destruct (startsWith s " then ") eqn:E2; [|reflexivity].
    apply startsWith_split in E2. cbn [option_map Re.whole].
    rewrite E2 at 1. rewrite consumed_prefix. reflexivity.
Qed.

Lemma sepLen_app (b w : string) :
  sepLen (b ++ w) = None -> sepLen b = None.
Proof.
  unfold sepLen. intros H.
  destruct (startsWith b " and ") eqn:E1.
  - rewrite (startsWith_app _ w _ E1) in H. discriminate.
  - destruct (startsWith b " then ") eqn:E2; [|reflexivity].
    rewrite (startsWith_app _ w _ E2) in H.
    destruct (startsWith (b ++ w) " and "); discriminate.
Qed.

Lemma sepLen_positive (s : string) : sepLen s <> Some 0.
Proof.
  unfold sepLen.
  destruct (startsWith s " and "); [discriminate|].
  destruct (startsWith s " then "); discriminate.
Qed.

Lemma app_snoc_inv (a b p : string) (c : ascii) :
  (a ++ b = p ++ String c "")%string -> b <> ""%string ->
  exists b', b = (b' ++ String c "")%string /\ p = (a ++ b')%string.
Proof.
  revert p. induction a as [|x a IH]; intros p H Hb; simpl in H.
  - subst b. exists p. split; reflexivity.
  - destruct p as [|y p]; simpl in H.
    + injection H as _ H. destruct a; [|discriminate]. simpl in H. contradiction.
    + injection H as -> H. destruct (IH p H Hb) as [b' [-> ->]].
      exists b'. split; reflexivity.
Qed.

Lemma app_eq_empty (a b : string) : (a ++ b)%string = ""%string -> b = ""%string.
Proof. destruct a; simpl; [auto|discriminate]. Qed.

Lemma noneStarts_sepFree (q s : string) : noneStarts q s -> sepFree q.
Proof.
  intros H a b Hq. destruct b as [|c b]; [reflexivity|].
  apply (sepLen_app _ s). apply (H a); [exact Hq|discriminate].
Qed.

Lemma noneStarts_snoc (q s : string) (c : ascii) :
  noneStarts q (String c s) -> sepLen (String c s) = None ->
  noneStarts (q ++ String c "") s.
Proof.
  intros H Hs a b Hq Hb. symmetry in Hq.
  destruct (app_snoc_inv _ _ _ _ Hq Hb) as [b' [-> Hq']].
  rewrite append_assoc. simpl.
  destruct b' as [|d b']; [exact Hs|].
  apply (H a); [exact Hq'|discriminate].
Qed.

(** Every piece of a split is free of separators. *)
Lemma splitFrom_pieces (s : string) : forall skip piece,
  (skip = 0 -> noneStarts piece s) -> (skip <> 0 -> piece = ""%string) ->
  Forall sepFree (splitFrom Pat.clauseSeparator skip piece s).
Proof.
  induction s as [|c s IH]; intros skip piece H0 H1; simpl.
  - constructor; [|constructor].
    destruct skip as [|k].
    + apply (noneStarts_sepFree _ ""%string), H0. reflexivity.
    + rewrite H1 by discriminate. intros a b Hq.
      symmetry in Hq. apply app_eq_empty in Hq. subst b. reflexivity.
  - destruct skip as [|k].
    + specialize (H0 eq_refl).
      rewrite matchStart_separator.
      destruct (sepLen (String c s)) as [[|k]|] eqn:E.
      * exfalso. exact (sepLen_positive _ E).
      * constructor.
        -- apply (noneStarts_sepFree _ (String c s)), H0.
        -- apply IH; [|reflexivity].
           intros _ a b Hq Hb. symmetry in Hq. apply app_eq_empty in Hq. contradiction.
      * apply IH; [|intros Hk; contradiction].
        intros _. apply noneStarts_snoc; assumption.
    + rewrite H1 by discriminate. apply IH; [|reflexivity].
      intros _ a b Hq Hb. symmetry in Hq. apply app_eq_empty in Hq. contradiction.
Qed.

Lemma splitRe_pieces (s : string) : Forall sepFree (splitRe Pat.clauseSeparator s).
Proof.
  apply splitFrom_pieces; [|intros H; contradiction].
  intros _ a b Hq Hb. symmetry in Hq. apply app_eq_empty in Hq. contradiction.
Qed.

(** A string free of separators is its own single piece. *)
Lemma splitFrom_sepFree (s : string) : forall piece,
  sepFree s -> splitFrom Pat.clauseSeparator 0 piece s = [(piece ++ s)%string].
Proof.
  induction s as [|c s IH]; intros piece H; simpl.
  - rewrite append_nil_r. reflexivity.
  - rewrite matchStart_separator.
    rewrite (H ""%string (String c s) eq_refl).
    rewrite IH.
    + rewrite append_assoc. reflexivity.
    + intros a b Hq. apply (H (String c a)). simpl. rewrite Hq. reflexivity.
Qed.

Lemma sepFree_trim (q : string) : sepFree q -> sepFree (trim q).
Proof.
  intros H a b Hq. unfold trim in Hq.
  destruct (trimStart_suffix q) as [w Hw].
  destruct (trimEnd_prefix (trimStart q)) as [w' Hw'].
  rewrite Hq in Hw'. rewrite Hw' in Hw.
  apply (sepLen_app _ w'). apply (H (w ++ a)%string).
  rewrite Hw. rewrite !append_assoc. reflexivity.
Qed.

(** A sub-clause of a decomposition decomposes into itself. *)
Lemma decompose_fixed (step sub : string) :
  In sub (decomposeComplexStep step) -> decomposeComplexStep sub = [sub].
Proof.
  unfold decomposeComplexStep. intros H.
  apply in_map_iff in H. destruct H as [q [Hq Hin]].
  pose proof (splitRe_pieces step) as Hall.
  rewrite Forall_forall in Hall. specialize (Hall q Hin).
  apply sepFree_trim in Hall. rewrite Hq in Hall.
  unfold splitRe. rewrite (splitFrom_sepFree sub ""%string Hall). simpl.
  rewrite <- Hq. rewrite trim_idem. reflexivity.
Qed.

Lemma decompose_nonempty (step : string) : decomposeComplexStep step <> [].
Proof.
  unfold decomposeComplexStep, splitRe.
  assert (forall s skip piece, splitFrom Pat.clauseSeparator skip piece s <> []) as H.
  { induction s as [|c s IH]; intros skip piece; simpl; [discriminate|].
    destruct skip; [|apply IH].
    destruct (option_map _ _) as [[|k]|]; try apply IH. discriminate. }
  specialize (H step 0 ""%string).
  destruct (splitFrom _ _ _ _); [contradiction|discriminate].
Qed.

End SplitFacts.

(* ================================================================== *)
(** ** Properties of the step parser *)
(* ================================================================== *)

Section ParserFacts.

Variable mcpContext : MCPContext.
Variable fs : FileSystem.

Local Abbreviation parser := (intelligentStepParser mcpContext fs).

Lemma parser_unfold (stack : nat) (step : string) (n : nat) :
  parser (S stack) step n =
  match intentOf step with
  | navigate => Some (generateNavigationActions mcpContext step n)
  | login => Some (generateLoginActions mcpContext step n)
  | fill_form => Some (generateFormActions step n)
  | click_element => Some (generateClickActions step n)
  | verify_element => Some (generateVerificationActions step n)
  | wait_action => Some (generateWaitActions step n)
  | complex_workflow =>
      parseEach (fun sub => parser stack sub n) (decomposeComplexStep step)
  | data_driven_test => Some (generateDataDrivenActions mcpContext fs step n)
  | unknown => Some (generateSemanticActions step n)
  end.
Proof. reflexivity. Qed.

Lemma parseEach_ext (f g : string -> option (list MCPAction)) (l : list string) :
  (forall x, In x l -> f x = g x) -> parseEach f l = parseEach g l.
Proof.
  induction l as [|x l IH]; intros H; simpl; [reflexivity|].
  rewrite (H x (or_introl eq_refl)).
  rewrite IH; [reflexivity|]. intros y Hy. apply H. right. exact Hy.
Qed.

Lemma parseEach_each (f : string -> option (list MCPAction)) (l : list string)
      (acts : list MCPAction) :
  parseEach f l = Some acts -> forall x, In x l -> exists a, f x = Some a.
Proof.
  revert acts. induction l as [|y l IH]; intros acts H x Hx; [contradiction|].
  simpl in H. destruct (f y) as [a|] eqn:Ey; [|discriminate].
  destruct (parseEach f l) as [more|] eqn:El; [|discriminate].
  destruct Hx as [<-|Hx]; [exists a; exact Ey|].
  apply (IH more eq_refl x Hx).
Qed.

Lemma parseEach_total (f : string -> option (list MCPAction)) (l : list string) :
  (forall x, In x l -> exists a, f x = Some a) -> exists acts, parseEach f l = Some acts.
Proof.
  induction l as [|y l IH]; intros H; simpl; [exists []; reflexivity|].
  destruct (H y (or_introl eq_refl)) as [a ->].
  destruct IH as [more ->]; [intros x Hx; apply H; right; exact Hx|].
  eexists. reflexivity.
Qed.

(** A step that is not a complex workflow needs one activation. *)
Lemma parser_simple (stack : nat) (step : string) (n : nat) :
  intentOf step <> complex_workflow ->
  parser (S stack) step n = parser 1 step n.
Proof.
  intros H. rewrite !parser_unfold.
  destruct (intentOf step); try reflexivity. contradiction.
Qed.

Lemma parser_simple_returns (step : string) (n : nat) :
  intentOf step <> complex_workflow -> exists acts, parser 1 step n = Some acts.
Proof.
  intros H. rewrite parser_unfold.
  destruct (intentOf step); try (eexists; reflexivity). contradiction.
Qed.

(** A complex workflow that decomposes into itself re-enters the
    parser with the same step, whatever room the stack has. *)
Lemma parser_self_loop (sub : string) (n : nat) :
  intentOf sub = complex_workflow -> decomposeComplexStep sub = [sub] ->
  forall stack, parser stack sub n = None.
Proof.
  intros Hc Hd. induction stack as [|k IH]; [reflexivity|].
  rewrite parser_unfold, Hc, Hd. simpl. rewrite IH. reflexivity.
Qed.

(** A sub-clause the parser returns from is not a complex workflow. *)
Lemma subclause_simple (step sub : string) (n stack : nat) (a : list MCPAction) :
  In sub (decomposeComplexStep step) -> parser stack sub n = Some a ->
  intentOf sub <> complex_workflow.
Proof.
  intros Hin Hs Hc.
  rewrite (parser_self_loop sub n Hc (SplitFacts.decompose_fixed _ _ Hin)) in Hs.
  discriminate.
Qed.

(** Whenever the parser returns, two nested activations were enough. *)
Lemma parser_depth (stack : nat) (step : string) (n : nat) (acts : list MCPAction) :
  parser stack step n = Some acts -> parser 2 step n = Some acts.
Proof.
  destruct stack as [|k]; [discriminate|].
  intros H.
  destruct (intentOf step) eqn:E;
    try (rewrite parser_simple in H |- * by (rewrite E; discriminate); exact H).
  rewrite parser_unfold, E in H. rewrite parser_unfold, E.
  rewrite <- H. apply parseEach_ext. intros sub Hin.
  destruct (parseEach_each _ _ _ H sub Hin) as [a Ha].
  pose proof (subclause_simple _ _ _ _ _ Hin Ha) as Hs.
  destruct k as [|k]; [discriminate|].
  symmetry. apply parser_simple, Hs.
Qed.

(** More room on the stack does not change a result. *)
Lemma parser_mono (stack : nat) (step : string) (n : nat) (acts : list MCPAction) :
  parser 2 step n = Some acts -> 2 <= stack -> parser stack step n = Some acts.
Proof.
  intros H Hle.
  destruct stack as [|[|k]]; [lia|lia|].
  destruct (intentOf step) eqn:E;
    try (rewrite parser_simple in H |- * by (rewrite E; discriminate); exact H).
  rewrite parser_unfold, E in H. rewrite parser_unfold, E.
  rewrite <- H. apply parseEach_ext. intros sub Hin.
  destruct (parseEach_each _ _ _ H sub Hin) as [a Ha].
  apply parser_simple. exact (subclause_simple _ _ _ _ _ Hin Ha).
Qed.

Lemma parser_stack_independent (s1 s2 : nat) (step : string) (n : nat) :
  2 <= s1 -> 2 <= s2 -> parser s1 step n = parser s2 step n.
Proof.
  intros H1 H2.
  destruct (parser s1 step n) as [a|] eqn:E1.
  - symmetry. apply parser_mono; [|exact H2]. exact (parser_depth _ _ _ _ E1).
  - destruct (parser s2 step n) as [b|] eqn:E2; [|reflexivity].
    rewrite (parser_mono s1 step n b (parser_depth _ _ _ _ E2) H1) in E1.
    discriminate.
Qed.

Lemma parseSimpleStep_stack_independent (s1 s2 : nat) (step : string) (n : nat) :
  2 <= s1 -> 2 <= s2 ->
  parseSimpleStep mcpContext fs s1 step n = parseSimpleStep mcpContext fs s2 step n.
Proof.
  intros H1 H2. unfold parseSimpleStep.
  change (intelligentStepParser mcpContext fs) with parser.
  rewrite (parser_stack_independent s1 s2 step n H1 H2). reflexivity.
Qed.

End ParserFacts.

(* ================================================================== *)
(** ** Click steps: element lookup and the wait after navigation *)
(* ================================================================== *)

Lemma extractClickableElement_lower (step : string) :
  extractClickableElement (JS.toLowerCase step) = extractClickableElement step.
Proof.
  unfold extractClickableElement. rewrite JSFacts.toLowerCase_idem. reflexivity.
Qed.

(** C9: the clickable element is looked up in the lower-cased step, so
    'PIM' and 'pim' both give the 'PIM navigation link'; the test that
    appends the Wait(2000) reads the step as written.  'Click the PIM
    link' compiles to one Click and nothing else, 'click the pim link'
    to the Click followed by Wait(2000). *)
Theorem click_lookup_ignores_case_wait_does_not
        (mcpContext : MCPContext) (fs : FileSystem) (stack n : nat) :
  (forall step, extractClickableElement step
                = extractClickableElement (JS.toLowerCase step))
  /\ extractClickableElement "Click the PIM link" = "PIM navigation link"
  /\ extractClickableElement "click the pim link" = "PIM navigation link"
  /\ triggersNavigation "Click the PIM link" = false
  /\ triggersNavigation "click the pim link" = true
  /\ parseSimpleStep mcpContext fs (S stack) "Click the PIM link" n
     = [clickOn "PIM navigation link" (stepTag n ++ "Click PIM navigation link")]
  /\ parseSimpleStep mcpContext fs (S stack) "click the pim link" n
     = [clickOn "PIM navigation link" (stepTag n ++ "Click PIM navigation link");
        waitFor 2000 (stepTag n ++ "Wait for page transition")].
Proof.
  split; [intros step; symmetry; apply extractClickableElement_lower|].
  repeat split; vm_compute; reflexivity.
Qed.

(* ================================================================== *)
(** ** Steps the classifier leaves unknown *)
(* ================================================================== *)

(** C6, as stated, fails: 'hello world' matches no intent keyword and
    compiles to one Click on 'interactive element', not to a Wait. *)
Lemma unknown_step_is_not_a_wait :
  intentOf "hello world" = unknown
  /\ parseSimpleStep demoContext noFiles 5 "hello world" 1
     = [clickOn "interactive element" "Step 1: hello world"]
  /\ ~ (exists a, parseSimpleStep demoContext noFiles 5 "hello world" 1 = [a]
                  /\ type a = Wait /\ timeout a = Some 1000%N).
Proof.
  split; [vm_compute; reflexivity|].
  split; [vm_compute; reflexivity|].
  intros [a [H [Ht _]]]. vm_compute in H. injection H as <-. discriminate.
Qed.

(** C6, amended: a step the classifier leaves unknown compiles to
    exactly one Click on 'interactive element' whose description is the
    step text.  The one Wait(1000), described 'Default wait action', is
    what [fallbackBasicParser] gives when the parser returned no action
    or threw and the step names neither 'navigate' nor 'login'. *)
Theorem unknown_step_emits_one_click
        (mcpContext : MCPContext) (fs : FileSystem) (stack : nat) (step : string) (n : nat) :
  (intentOf step = unknown ->
   parseSimpleStep mcpContext fs (S stack) step n
   = [clickOn "interactive element" (stepTag n ++ step)])
  /\ ((intelligentStepParser mcpContext fs stack step n = None
       \/ intelligentStepParser mcpContext fs stack step n = Some []) ->
      JS.includes (JS.toLowerCase step) "navigate" = false ->
      JS.includes (JS.toLowerCase step) "login" = false ->
      parseSimpleStep mcpContext fs stack step n
      = [waitFor 1000 (stepTag n ++ "Default wait action")]).
Proof.
  split.
  - intros H. unfold parseSimpleStep. rewrite parser_unfold, H. reflexivity.
  - intros H Hn Hl. unfold parseSimpleStep, fallbackBasicParser.
    destruct H as [-> | ->]; simpl; rewrite Hn, Hl; reflexivity.
Qed.

Lemma unknown_step_emits_one_click_witness :
  parseSimpleStep demoContext noFiles 5 "hello world" 1
  = [clickOn "interactive element" (stepTag 1 ++ "hello world")].
Proof.
  apply (proj1 (unknown_step_emits_one_click demoContext noFiles 4 "hello world" 1)).
  vm_compute. reflexivity.
Defined.

(* ================================================================== *)
(** ** Where the data-driven check sits *)
(* ================================================================== *)

(** The classifier on its own: given a text that names a csv file and
    says 'navigate', it answers navigate.  The compiler never gives it
    such a text, the prompt being tested for markers first. *)
Lemma marker_does_not_win_in_classifier :
  isDataDrivenTest "navigate to logindata.csv" = true
  /\ primaryAction (analyzeStepContext "navigate to logindata.csv") = navigate
  /\ primaryAction (analyzeStepContext "navigate to logindata.csv") <> data_driven_test.
Proof.
  split; [vm_compute; reflexivity|].
  split; [vm_compute; reflexivity|].
  vm_compute. discriminate.
Qed.

(** The two places of the data-driven check.  [parsePromptToActions]
    tests the lower-cased prompt for dataset markers before it looks
    for numbered steps or patterns, and a prompt with a marker is
    compiled by the data-driven generator alone.  Inside the step
    classifier the markers are tested last: it answers data_driven_test
    exactly when none of the navigate, login, fill, click, verify and
    wait keywords occurs in the text, the text is not a complex
    workflow, and it has a marker. *)
Theorem data_driven_first_for_prompt_last_for_step :
  (forall (mcpContext : MCPContext) (fs : FileSystem) (stack : nat) (prompt : PromptData),
      isDataDrivenTest (JS.toLowerCase (content prompt)) = true ->
      parsePromptToActions mcpContext fs stack prompt
      = generateDataDrivenActions mcpContext fs (content prompt) 1)
  /\ (forall stepText : string,
         primaryAction (analyzeStepContext stepText) = data_driven_test
         <-> (matchesIntent stepText ["navigate"; "open"; "go to"; "visit"] = false
              /\ matchesIntent stepText
                   ["login"; "sign in"; "authenticate"; "enter credentials"] = false
              /\ matchesIntent stepText ["enter"; "input"; "type"; "fill"; "provide"] = false
              /\ matchesIntent stepText ["click"; "press"; "select"; "choose"; "tap"] = false
              /\ matchesIntent stepText
                   ["verify"; "check"; "confirm"; "validate"; "assert"] = false
              /\ matchesIntent stepText ["wait"; "pause"; "delay"] = false
              /\ isComplexWorkflow stepText = false
              /\ isDataDrivenTest stepText = true)).
Proof.
  split.
  - intros mcpContext fs stack prompt H. unfold parsePromptToActions.
    cbv zeta. rewrite H. reflexivity.
  - intros stepText. unfold analyzeStepContext.
    destruct (matchesIntent stepText ["navigate"; "open"; "go to"; "visit"]);
      [simpl; split; [discriminate|intros [? _]; discriminate]|].
    destruct (matchesIntent stepText
                ["login"; "sign in"; "authenticate"; "enter credentials"]);
      [simpl; split; [discriminate|intros [_ [? _]]; discriminate]|].
    destruct (matchesIntent stepText ["enter"; "input"; "type"; "fill"; "provide"]);
      [simpl; split; [discriminate|intros [_ [_ [? _]]]; discriminate]|].
    destruct (matchesIntent stepText ["click"; "press"; "select"; "choose"; "tap"]);
      [simpl; split; [discriminate|intros [_ [_ [_ [? _]]]]; discriminate]|].
    destruct (matchesIntent stepText
                ["verify"; "check"; "confirm"; "validate"; "assert"]);
      [simpl; split; [discriminate|intros [_ [_ [_ [_ [? _]]]]]; discriminate]|].
    destruct (matchesIntent stepText ["wait"; "pause"; "delay"]);
      [simpl; split; [discriminate|intros [_ [_ [_ [_ [_ [? _]]]]]]; discriminate]|].
    destruct (isComplexWorkflow stepText);
      [simpl; split; [discriminate|intros [_ [_ [_ [_ [_ [_ [? _]]]]]]]; discriminate]|].
    destruct (isDataDrivenTest stepText); simpl.
    + split; [intros _; repeat split|reflexivity].
    + split; [discriminate|]. intros H. decompose [and] H. discriminate.
Qed.

Lemma data_driven_first_for_prompt_last_for_step_witness :
  parsePromptToActions demoContext noFiles 5
    (promptOf "1. navigate to the login page using logindata.csv")
  = generateDataDrivenActions demoContext noFiles
      "1. navigate to the login page using logindata.csv" 1.
Proof.
  apply (proj1 data_driven_first_for_prompt_last_for_step
               demoContext noFiles 5
               (promptOf "1. navigate to the login page using logindata.csv")).
  vm_compute. reflexivity.
Defined.

(* ================================================================== *)
(** ** Prompts that compile to no action *)
(* ================================================================== *)

(** The pattern path of [parsePromptToActions] never returns an empty
    sequence: it pushes a default navigate action when no pattern
    matched. *)
Lemma pattern_path_nonempty (mcpContext : MCPContext) (fs : FileSystem) (stack : nat)
      (prompt : PromptData) :
  isDataDrivenTest (JS.toLowerCase (content prompt)) = false ->
  isStepByStepPrompt (JS.toLowerCase (content prompt)) = false ->
  parsePromptToActions mcpContext fs stack prompt <> [].
Proof.
  intros Hd Hs. unfold parsePromptToActions. cbv zeta. rewrite Hd, Hs.
  destruct (patternActions mcpContext (JS.toLowerCase (content prompt))); discriminate.
Qed.

(** Every numbered step compiles to at least one action. *)
Lemma parseSimpleStep_nonempty (mcpContext : MCPContext) (fs : FileSystem) (stack : nat)
      (step : string) (n : nat) :
  parseSimpleStep mcpContext fs stack step n <> [].
Proof.
  unfold parseSimpleStep.
  assert (fallbackBasicParser mcpContext step n <> []) as Hf.
  { unfold fallbackBasicParser.
    destruct (JS.includes _ "navigate"); [discriminate|].
    destruct (JS.includes _ "login"); discriminate. }
  destruct (intelligentStepParser mcpContext fs stack step n) as [[|a l]|];
    simpl; try exact Hf. discriminate.
Qed.

(** C1: the two early returns of [parsePromptToActions] skip the
    default action.  The prompt 'test data:' has a dataset marker and
    no dataset, the prompt 'release 1.0' has '1.' and no numbered line;
    each compiles to the empty sequence. *)
Theorem nonempty_prompt_compiles_to_nothing
        (mcpContext : MCPContext) (fs : FileSystem) (stack : nat) :
  parsePromptToActions mcpContext fs stack (promptOf "test data:") = []
  /\ parsePromptToActions mcpContext fs stack (promptOf "release 1.0") = [].
Proof.
  split; vm_compute; reflexivity.
Qed.

(** [generateCSVDataActions] returns no action when the file is missing
    or unreadable. *)
Lemma missing_csv_gives_no_action (mcpContext : MCPContext) (fs : FileSystem)
      (step : string) (n : nat) :
  fs (extractCSVFileName step) = None ->
  generateCSVDataActions mcpContext fs step n = [].
Proof.
  intros H. unfold generateCSVDataActions, readCSVData. cbv zeta. rewrite H. reflexivity.
Qed.

(** C4: a prompt that refers to a csv file the test-data directory
    does not have compiles to the empty sequence, not to a login block. *)
Theorem missing_csv_compiles_to_nothing (mcpContext : MCPContext) (stack : nat) :
  extractCSVFileName "Run the login test with data from missing.csv" = "missing.csv"
  /\ readCSVData noFiles "missing.csv" = []
  /\ parsePromptToActions mcpContext noFiles stack
       (promptOf "Run the login test with data from missing.csv") = [].
Proof.
  repeat split; vm_compute; reflexivity.
Qed.

(* ================================================================== *)
(** ** The assertion chosen for a row *)
(* ================================================================== *)

(** For inline rows the assertion follows the expected result as the
    source's three cases say. *)
Lemma inline_assert_selection (tag expected : string) :
  let e := JS.toLowerCase expected in
  (JS.includes e "dashboard" = true ->
   inlineAssert tag expected
   = [assertThat "dashboard page" "visible"
        (tag ++ "Verify dashboard is displayed for valid credentials")])
  /\ (JS.includes e "dashboard" = false ->
      JS.includes e "invalid" = true \/ JS.includes e "error" = true ->
      inlineAssert tag expected
      = [assertThat "error message" "contains:Invalid credentials"
           (tag ++ "Verify error message for invalid credentials")])
  /\ (JS.includes e "dashboard" = false -> JS.includes e "invalid" = false ->
      JS.includes e "error" = false -> inlineAssert tag expected = []).
Proof.
  cbv zeta. unfold inlineAssert. repeat split.
  - intros ->. reflexivity.
  - intros -> [-> | ->]; [reflexivity|].
    rewrite orb_true_r. reflexivity.
  - intros -> -> ->. reflexivity.
Qed.

(** For CSV rows the word 'error' selects nothing. *)
Lemma csv_assert_selection (tag expectedResult : string) :
  JS.includes (JS.toLowerCase expectedResult) "dashboard" = false ->
  JS.includes (JS.toLowerCase expectedResult) "invalid" = false ->
  csvAssert tag expectedResult = [].
Proof.
  intros H1 H2. unfold csvAssert. rewrite H1, H2. reflexivity.
Qed.

(** C5: for the row (bob, wrong, 'Error shown') read from a csv file
    the compiled sequence ends with the Wait(3000): no assertion is
    emitted, while the inline generator emits the error-message
    assertion for the same expected result. *)
Theorem csv_row_with_error_gets_no_assert (mcpContext : MCPContext) (stack : nat) :
  readCSVData errorRowFile "data.csv"
  = [[("Username", "bob"); ("Password", "wrong"); ("Expected", "Error shown")]]
  /\ parsePromptToActions mcpContext errorRowFile stack
       (promptOf "Run the login test for each row of data.csv")
     = [navigateTo (applicationUrl mcpContext)
          "Step 1.1: Navigate to login page for test case 1";
        fillIn "username input field" "bob"
          ("Step 1.1: Enter username " ++ dq ++ "bob" ++ dq);
        fillIn "password input field" "wrong"
          ("Step 1.1: Enter password " ++ dq ++ "wrong" ++ dq);
        clickOn "login button" "Step 1.1: Click login button";
        waitFor 3000 "Step 1.1: Wait for login response"]
  /\ inlineAssert "Step 1.1: " "Error shown"
     = [assertThat "error message" "contains:Invalid credentials"
          "Step 1.1: Verify error message for invalid credentials"].
Proof.
  repeat split; vm_compute; reflexivity.
Qed.

(* ================================================================== *)
(** ** Expansion of inline triples *)
(* ================================================================== *)

Lemma orElse_empty (s : string) : JS.orElse s "" = s.
Proof. destruct s; reflexivity. Qed.

Lemma inlineRowActions_shape (mcpContext : MCPContext) (step : string)
      (n total index : nat) (d : InlineDataset) :
  rowShape d (inlineRowActions mcpContext step n total index d).
Proof.
  unfold rowShape, inlineRowActions, inlineAssert. cbv zeta.
  rewrite !orElse_empty.
  generalize (rowTag n index) as tag. intros tag.
  destruct (JS.includes (JS.toLowerCase (d_expected d)) "dashboard");
    destruct (JS.includes (JS.toLowerCase (d_expected d)) "invalid"
              || JS.includes (JS.toLowerCase (d_expected d)) "error");
    destruct (JS.includes (JS.toLowerCase step) "logout");
    destruct (Nat.ltb index (total - 1));
    (split; [eexists; eexists; split; [reflexivity|split; reflexivity]|]);
    repeat split; reflexivity.
Qed.

Lemma forEachFrom_concat {X : Type} (body : nat -> X -> list MCPAction) (xs : list X) :
  forall index,
    forEachFrom body index xs
    = concat (map (fun p => body (fst p) (snd p))
                  (combine (seq index (List.length xs)) xs)).
Proof.
  induction xs as [|x xs IH]; intros index; simpl; [reflexivity|].
  rewrite IH. reflexivity.
Qed.

Lemma forEachFrom_blocks {X : Type} (shape : X -> list MCPAction -> Prop)
      (body : nat -> X -> list MCPAction) (xs : list X) :
  (forall i x, shape x (body i x)) ->
  forall index,
    Forall2 shape xs
      (map (fun p => body (fst p) (snd p)) (combine (seq index (List.length xs)) xs)).
Proof.
  intros H. induction xs as [|x xs IH]; intros index; simpl; constructor.
  - apply H.
  - apply IH.
Qed.

(** The single-line triples are the lines that match the pattern, in
    their order. *)
Lemma inlineTriples_length (lines : list string) :
  List.length (inlineTriples lines)
  = List.length (filter (Re.test Pat.inlinePattern) lines).
Proof.
  induction lines as [|l lines IH]; simpl; [reflexivity|].
  unfold inlineTriple, Re.test.
  destruct (Re.search Pat.inlinePattern l); simpl; rewrite IH; reflexivity.
Qed.

(** A text with the label 'Username:' as written, or with the three
    labels in lower case, is inline data for the expander. *)
Lemma labels_make_inline_text (step : string) :
  JS.includes step "Username:" = true
  \/ (JS.includes step "username:" = true /\ JS.includes step "password:" = true
      /\ JS.includes step "expected:" = true) ->
  hasInlineDatasets step = true.
Proof.
  unfold hasInlineDatasets. intros [-> | [-> [-> ->]]]; [|reflexivity].
  destruct (JS.includes step "username:" && JS.includes step "password:"
            && JS.includes step "expected:");
    destruct (JS.includes step "- username:"); reflexivity.
Qed.

(** For a text that [hasInlineDatasets] recognises as inline data and
    in which N lines match the single-line triple pattern (N at least
    1), the expander's output is the concatenation of exactly N row
    subsequences, the i-th built from the i-th matching line; each has
    exactly one Fill of the username field, one Fill of the password
    field and one Click of the login button. *)
Theorem inline_triples_expand_row_by_row
        (mcpContext : MCPContext) (fs : FileSystem) (step : string) (n : nat) :
  let lines := JS.splitChar JS.LF step in
  let N := List.length (filter (Re.test Pat.inlinePattern) lines) in
  hasInlineDatasets step = true ->
  0 < N ->
  exists blocks : list (list MCPAction),
    generateDataDrivenActions mcpContext fs step n = concat blocks
    /\ List.length blocks = N
    /\ Forall2 rowShape (inlineTriples lines) blocks.
Proof.
  intros lines N Hinline HN.
  unfold generateDataDrivenActions. rewrite Hinline.
  unfold generateInlineDataActions, extractInlineDatasets. cbv zeta.
  fold lines.
  assert (List.length (inlineTriples lines) = N) as Hlen
      by apply inlineTriples_length.
  destruct (inlineTriples lines) as [|d rows] eqn:E; [simpl in Hlen; lia|].
  rewrite forEachFrom_concat.
  eexists. split; [reflexivity|]. split.
  - rewrite length_map, length_combine, length_seq, Nat.min_id. exact Hlen.
  - apply forEachFrom_blocks. intros i x. apply inlineRowActions_shape.
Qed.

Lemma inline_triples_expand_row_by_row_witness :
  exists blocks : list (list MCPAction),
    generateDataDrivenActions demoContext noFiles twoTriples 1 = concat blocks
    /\ List.length blocks = 2
    /\ Forall2 rowShape
         [{| d_username := "Admin"; d_password := "admin123";
             d_expected := "Dashboard visible" |};
          {| d_username := "bob"; d_password := "wrong";
             d_expected := "Invalid credentials" |}]
         blocks.
Proof.
  apply (inline_triples_expand_row_by_row demoContext noFiles twoTriples 1).
  - vm_compute. reflexivity.
  - vm_compute. lia.
Defined.

(* ================================================================== *)
(** ** The block scan of inline datasets *)
(* ================================================================== *)

Lemma scanLine_outside_section (st : ScanState) (line : string) :
  inDatasetSection st = false -> isMarkerLine (trimmedLower line) = false ->
  scanLine st line = st.
Proof.
  unfold scanLine, trimmedLower. cbv zeta. intros -> ->. reflexivity.
Qed.

Lemma scan_without_marker (lines : list string) : forall st,
  inDatasetSection st = false ->
  (forall l, In l lines -> isMarkerLine (trimmedLower l) = false) ->
  fold_left scanLine lines st = st.
Proof.
  induction lines as [|l lines IH]; intros st Hs Hm; simpl; [reflexivity|].
  rewrite (scanLine_outside_section st l Hs (Hm l (or_introl eq_refl))).
  apply IH; [exact Hs|]. intros x Hx. apply Hm. right. exact Hx.
Qed.

Lemma scanLine_emits (st : ScanState) (line : string) :
  datasets (scanLine st line) = datasets st
  \/ exists row, completes st line row
                 /\ datasets (scanLine st line) = datasets st ++ [row]
                 /\ currentDataset (scanLine st line) = emptyAccumulator.
Proof.
  unfold scanLine, completes, trimmedLower. cbv zeta.
  destruct (isMarkerLine (JS.toLowerCase (JS.trim line))) eqn:Em; [left; reflexivity|].
  destruct (inDatasetSection st) eqn:Es; [|left; reflexivity].
  destruct (JS.includes (JS.toLowerCase (JS.trim line)) "expected") eqn:Ee;
    [|left; reflexivity].
  destruct (JS.includes (JS.toLowerCase (JS.trim line)) ":"); [|left; reflexivity].
  cbn [andb].
  destruct (Re.search Pat.blockExpected line) as [m|]; [|left; reflexivity].
  set (a := readPassword line _ (readUsername line _ (currentDataset st))).
  destruct (JS.truthy (a_username a)) eqn:Eu; [|left; reflexivity].
  destruct (JS.truthy (a_password a)) eqn:Ep; [|left; reflexivity].
  destruct (JS.truthy (Some (JS.trim (Re.group 1 m)))); [|left; reflexivity].
  right. eexists. split; [|split; reflexivity].
  repeat split. exists m. repeat split.
Qed.

Lemma scanLine_without_expected (st : ScanState) (line : string) :
  JS.includes (trimmedLower line) "expected" = false ->
  datasets (scanLine st line) = datasets st.
Proof.
  intros He. destruct (scanLine_emits st line) as [H | [row [Hc _]]]; [exact H|].
  destruct Hc as [_ [_ [Hc _]]]. rewrite He in Hc. discriminate.
Qed.

Lemma scan_tail_without_expected (tail : list string) : forall st,
  (forall l, In l tail -> JS.includes (trimmedLower l) "expected" = false) ->
  datasets (fold_left scanLine tail st) = datasets st.
Proof.
  induction tail as [|l tail IH]; intros st H; simpl; [reflexivity|].
  rewrite IH by (intros x Hx; apply H; right; exact Hx).
  apply scanLine_without_expected, H. left. reflexivity.
Qed.

(** C10: the block scan runs only when no line matched the single-line
    pattern; outside a dataset section a line that is no marker leaves
    the scan state untouched, so the lines before the first marker are
    as good as absent and labelled lines with no marker line before
    them give no row; a line adds a row only when it carries the
    expected label and the accumulator then holds a username and a
    password, and the accumulator is emptied; lines after the last
    expected label add no row, whatever they left in the accumulator. *)
Theorem block_scan_rows :
  (forall text : string,
      let lines := JS.splitChar JS.LF text in
      (inlineTriples lines <> [] -> extractInlineDatasets text = inlineTriples lines)
      /\ (inlineTriples lines = [] -> extractInlineDatasets text = blockScan lines))
  /\ (forall st line,
         inDatasetSection st = false -> isMarkerLine (trimmedLower line) = false ->
         scanLine st line = st)
  /\ (forall before rest : list string,
         (forall l, In l before -> isMarkerLine (trimmedLower l) = false) ->
         blockScan (before ++ rest) = blockScan rest)
  /\ (forall lines : list string,
         (forall l, In l lines -> isMarkerLine (trimmedLower l) = false) ->
         blockScan lines = [])
  /\ (forall st line,
         datasets (scanLine st line) = datasets st
         \/ exists row, completes st line row
                        /\ datasets (scanLine st line) = datasets st ++ [row]
                        /\ currentDataset (scanLine st line) = emptyAccumulator)
  /\ (forall lines tail : list string,
         (forall l, In l tail -> JS.includes (trimmedLower l) "expected" = false) ->
         blockScan (lines ++ tail) = blockScan lines).
Proof.
  split; [|split; [|split; [|split; [|split]]]].
  - intros text lines. unfold extractInlineDatasets. cbv zeta. fold lines.
    split; intros H.
    + destruct (inlineTriples lines); [contradiction|reflexivity].
    + rewrite H. reflexivity.
  - exact scanLine_outside_section.
  - intros before rest H. unfold blockScan. rewrite fold_left_app.
    rewrite (scan_without_marker before scanStart eq_refl H). reflexivity.
  - intros lines H. unfold blockScan.
    rewrite scan_without_marker; [reflexivity|reflexivity|exact H].
  - exact scanLine_emits.
  - intros lines tail H. unfold blockScan. rewrite fold_left_app.
    apply scan_tail_without_expected, H.
Qed.

Lemma block_scan_rows_witness :
  blockScan (blockLines ++ danglingLines) = blockScan blockLines
  /\ blockScan blockLines
     = [{| d_username := "Admin"; d_password := "admin123"; d_expected := "Dashboard" |}]
  /\ blockScan ["username: Admin"; "password: admin123"; "expected: Dashboard"] = [].
Proof.
  split; [|split].
  - apply (proj2 (proj2 (proj2 (proj2 (proj2 block_scan_rows)))) blockLines danglingLines).
    intros l [<- | [<- | []]]; vm_compute; reflexivity.
  - vm_compute. reflexivity.
  - apply (proj1 (proj2 (proj2 (proj2 block_scan_rows)))).
    intros l [<- | [<- | [<- | []]]]; vm_compute; reflexivity.
Defined.

(* ================================================================== *)
(** ** Depth of compound-step decomposition *)
(* ================================================================== *)

(** C2, as stated, fails: the step [elevenWords] is a complex workflow
    whose decomposition is the step itself, so the parser re-enters
    itself and returns for no stack size; what the compiler then emits
    is the fallback of the [catch] in [parseSimpleStep], not the action
    of an unknown step. *)
Lemma decomposition_can_recurse_forever :
  intentOf elevenWords = complex_workflow
  /\ decomposeComplexStep elevenWords = [elevenWords]
  /\ ~ (exists stack acts,
           intelligentStepParser demoContext noFiles stack elevenWords 1 = Some acts)
  /\ parseSimpleStep demoContext noFiles 1000 elevenWords 1
     = [waitFor 1000 "Step 1: Default wait action"]
  /\ generateSemanticActions elevenWords 1
     <> [waitFor 1000 "Step 1: Default wait action"].
Proof.
  assert (intentOf elevenWords = complex_workflow) as Hc by (vm_compute; reflexivity).
  assert (decomposeComplexStep elevenWords = [elevenWords]) as Hd
      by (vm_compute; reflexivity).
  split; [exact Hc|]. split; [exact Hd|]. split; [|split].
  - intros [stack [acts H]].
    rewrite (parser_self_loop demoContext noFiles elevenWords 1 Hc Hd) in H.
    discriminate.
  - unfold parseSimpleStep.
    rewrite (parser_self_loop demoContext noFiles elevenWords 1 Hc Hd).
    vm_compute. reflexivity.
  - vm_compute. discriminate.
Qed.

(** C2, amended: the decomposition keeps no depth counter and never
    turns text into an unknown step because of depth.  The parse of a
    step returns when the step is not a complex workflow or when none
    of its sub-clauses is one; and whenever it returns, two nested
    activations of the parser (the step, then its sub-clauses) were
    enough to get the same result. *)
Theorem decomposition_returns_within_depth_two
        (mcpContext : MCPContext) (fs : FileSystem) (step : string) (n : nat) :
  ((intentOf step <> complex_workflow
    \/ Forall (fun sub => intentOf sub <> complex_workflow) (decomposeComplexStep step)) ->
   exists acts, intelligentStepParser mcpContext fs 2 step n = Some acts)
  /\ (forall stack acts,
         intelligentStepParser mcpContext fs stack step n = Some acts ->
         intelligentStepParser mcpContext fs 2 step n = Some acts).
Proof.
  split.
  - intros H.
    destruct (intentOf step) eqn:E;
      try (rewrite parser_simple by (rewrite E; discriminate);
           apply parser_simple_returns; rewrite E; discriminate).
    destruct H as [H | H]; [contradiction|].
    rewrite parser_unfold, E. apply parseEach_total.
    intros sub Hin. rewrite Forall_forall in H.
    apply parser_simple_returns, H, Hin.
  - intros stack acts. apply parser_depth.
Qed.

Lemma decomposition_returns_within_depth_two_witness :
  exists acts, intelligentStepParser demoContext noFiles 2 twoClauses 1 = Some acts.
Proof.
  apply (proj1 (decomposition_returns_within_depth_two demoContext noFiles twoClauses 1)).
  right.
  replace (decomposeComplexStep twoClauses)
    with ["Hover over the profile menu"; "scroll to the bottom"]
    by (vm_compute; reflexivity).
  repeat constructor; vm_compute; discriminate.
Defined.

(* ================================================================== *)
(** ** Determinism *)
(* ================================================================== *)

Lemma forEachFrom_ext {X : Type} (f g : nat -> X -> list MCPAction) (xs : list X) :
  (forall i x, f i x = g i x) ->
  forall index, forEachFrom f index xs = forEachFrom g index xs.
Proof.
  intros H. induction xs as [|x xs IH]; intros index; simpl; [reflexivity|].
  rewrite H, IH. reflexivity.
Qed.

(** C8: the compiled sequence is a function of the prompt text alone:
    two prompts with the same content compile to the same sequence
    (same kinds, order and field values), whatever their file, title
    and tags, and the result does not depend on how much room the call
    stack has, from two activations on.  The classifier gives every
    text exactly one context, with one of the nine intents. *)
Theorem compile_is_deterministic (mcpContext : MCPContext) (fs : FileSystem) :
  (forall stack p q,
      content p = content q ->
      parsePromptToActions mcpContext fs stack p
      = parsePromptToActions mcpContext fs stack q)
  /\ (forall s1 s2 p,
         2 <= s1 -> 2 <= s2 ->
         parsePromptToActions mcpContext fs s1 p = parsePromptToActions mcpContext fs s2 p)
  /\ (forall t u, t = u -> analyzeStepContext t = analyzeStepContext u)
  /\ (forall t, exists c,
         analyzeStepContext t = c
         /\ In (primaryAction c)
               [unknown; navigate; login; fill_form; click_element; verify_element;
                wait_action; complex_workflow; data_driven_test]).
Proof.
  split; [|split; [|split]].
  - intros stack p q H. unfold parsePromptToActions. rewrite H. reflexivity.
  - intros s1 s2 p H1 H2. unfold parsePromptToActions. cbv zeta.
    destruct (isDataDrivenTest _); [reflexivity|].
    destruct (isStepByStepPrompt _); [|reflexivity].
    unfold parseStepByStepPrompt. apply forEachFrom_ext.
    intros i line. apply parseSimpleStep_stack_independent; assumption.
  - intros t u ->. reflexivity.
  - intros t. exists (analyzeStepContext t). split; [reflexivity|].
    destruct (primaryAction (analyzeStepContext t)); simpl; tauto.
Qed.

Lemma compile_is_deterministic_witness :
  parsePromptToActions demoContext noFiles 2 (promptOf loginPrompt)
  = parsePromptToActions demoContext noFiles 40 (promptOf loginPrompt)
  /\ parsePromptToActions demoContext noFiles 40 (promptOf loginPrompt)
     = parsePromptToActions demoContext noFiles 40
         {| file := "other.md"; title := "Other"; content := loginPrompt;
            tags := ["smoke"] |}.
Proof.
  split.
  - apply (proj1 (proj2 (compile_is_deterministic demoContext noFiles))); lia.
  - apply (proj1 (compile_is_deterministic demoContext noFiles)). reflexivity.
Defined.

(* ================================================================== *)
(** ** Worked examples *)
(* ================================================================== *)

(** Greedy quantifiers give characters back: the capture of the user
    name stops before the comma, the leading [.*] reaches the last
    label that lets the rest match. *)
Example inline_datasets_of_two_lines :
  extractInlineDatasets twoTriples
  = [{| d_username := "Admin"; d_password := "admin123";
        d_expected := "Dashboard visible" |};
     {| d_username := "bob"; d_password := "wrong";
        d_expected := "Invalid credentials" |}].
Proof. vm_compute. reflexivity. Qed.

Example credentials_of_a_login_step :
  extractCredentials "Login with username: Admin password: admin123"
  = {| c_username := Some "Admin"; c_password := Some "admin123" |}.
Proof. vm_compute. reflexivity. Qed.

Example timeout_in_seconds_and_milliseconds :
  extractTimeout "wait 5 seconds" = 5000%N
  /\ extractTimeout "wait 500ms" = 500%N
  /\ extractTimeout "wait for the page" = 2000%N.
Proof. repeat split; vm_compute; reflexivity. Qed.

Example clauses_of_a_compound_step :
  decomposeComplexStep "hover over the menu and scroll down then look around"
  = ["hover over the menu"; "scroll down"; "look around"].
Proof. vm_compute. reflexivity. Qed.

Example numbered_steps_compile_in_order :
  map type (parsePromptToActions demoContext noFiles 40 (promptOf loginPrompt))
  = [Navigate; Fill; Fill; Click; Wait; Wait; Assert].
Proof. vm_compute. reflexivity. Qed.

(** The last action of a successful inline row is the dashboard
    assertion, of a failing one the error-message assertion. *)
Example inline_rows_end_with_their_assertion :
  map (fun a => (type a, element a, condition a))
      (generateDataDrivenActions demoContext noFiles twoTriples 1)
  = [(Navigate, None, None);
     (Fill, Some "username input field", None);
     (Fill, Some "password input field", None);
     (Click, Some "login button", None);
     (Wait, None, None);
     (Assert, Some "dashboard page", Some "visible");
     (Wait, None, None);
     (Navigate, None, None);
     (Fill, Some "username input field", None);
     (Fill, Some "password input field", None);
     (Click, Some "login button", None);
     (Wait, None, None);
     (Assert, Some "error message", Some "contains:Invalid credentials")].
Proof. vm_compute. reflexivity. Qed.

(* ================================================================== *)
(** ** Occurrences and substrings *)
(* ================================================================== *)

Module SubFacts.
Import JS JSFacts.

Lemma startsWith_iff (s p : string) :
  startsWith s p = true <-> exists b, s = (p ++ b)%string.
Proof.
  split.
  - intros H. exists (drop (String.length p) s). apply SplitFacts.startsWith_split, H.
  - intros [b ->]. induction p as [|a p IH]; simpl; [reflexivity|].
    rewrite Ascii.eqb_refl. exact IH.
Qed.

Lemma includes_iff (s p : string) : includes s p = true <-> isSubstring p s.
Proof.
  split.
  - induction s as [|c s IH]; simpl; intros H.
    + rewrite orb_false_r in H. apply startsWith_iff in H. destruct H as [b ->].
      exists ""%string, b. reflexivity.
    + apply orb_true_iff in H. destruct H as [H | H].
      * apply startsWith_iff in H. destruct H as [b ->].
        exists ""%string, b. reflexivity.
      * destruct (IH H) as [a [b ->]]. exists (String c a), b. reflexivity.
  - intros [a [b ->]]. induction a as [|c a IH]; simpl.
    + assert (startsWith (p ++ b) p = true) as H by (apply startsWith_iff; eauto).
      destruct (p ++ b)%string; simpl; rewrite H; reflexivity.
    + rewrite IH. apply orb_true_r.
Qed.

Lemma isSubstring_refl (s : string) : isSubstring s s.
Proof. exists ""%string, ""%string. simpl. rewrite append_nil_r. reflexivity. Qed.

Lemma isSubstring_trans (a b c : string) :
  isSubstring a b -> isSubstring b c -> isSubstring a c.
Proof.
  intros [x [y ->]] [u [v ->]]. exists (u ++ x)%string, (y ++ v)%string.
  rewrite !append_assoc. reflexivity.
Qed.

Lemma isSubstring_suffix (w s : string) : isSubstring s (w ++ s).
Proof. exists w, ""%string. rewrite append_nil_r. reflexivity. Qed.

Lemma isSubstring_prefix (s w : string) : isSubstring s (s ++ w).
Proof. exists ""%string, w. reflexivity. Qed.

Lemma includes_mono (q s p : string) :
  isSubstring q s -> includes q p = true -> includes s p = true.
Proof.
  intros Hq Hp. apply includes_iff. apply includes_iff in Hp.
  exact (isSubstring_trans _ _ _ Hp Hq).
Qed.

Lemma toLowerCase_app (a b : string) :
  toLowerCase (a ++ b) = (toLowerCase a ++ toLowerCase b)%string.
Proof. induction a as [|c a IH]; simpl; [|rewrite IH]; reflexivity. Qed.

Lemma isSubstring_lower (q s : string) :
  isSubstring q s -> isSubstring (toLowerCase q) (toLowerCase s).
Proof.
  intros [a [b ->]]. exists (toLowerCase a), (toLowerCase b).
  rewrite !toLowerCase_app. reflexivity.
Qed.

Lemma trim_substring (s : string) : isSubstring (trim s) s.
Proof.
  unfold trim.
  destruct (trimStart_suffix s) as [w Hw].
  destruct (trimEnd_prefix (trimStart s)) as [w' Hw'].
  exists w, w'. rewrite <- Hw'. exact Hw.
Qed.

Lemma splitChar_cons (sep : ascii) (s : string) :
  exists p ps, splitChar sep s = p :: ps.
Proof.
  destruct s as [|c s]; simpl; [eauto|].
  destruct (Ascii.eqb c sep); [eauto|].
  destruct (splitChar sep s); eauto.
Qed.

Lemma splitChar_head (sep : ascii) (t : string) : forall p ps,
  splitChar sep t = p :: ps -> exists w, t = (p ++ w)%string.
Proof.
  induction t as [|d t IHt]; simpl; intros p ps E.
  - injection E as <- <-. exists ""%string. reflexivity.
  - destruct (Ascii.eqb d sep).
    + injection E as <- <-. exists (String d t). reflexivity.
    + destruct (splitChar sep t) as [|p' ps'] eqn:E'.
      * injection E as <- <-. exists t. reflexivity.
      * injection E as <- <-. destruct (IHt p' ps' eq_refl) as [w ->].
        exists w. reflexivity.
Qed.

(** The pieces of [split] on a character occur in the text. *)
Lemma splitChar_pieces (sep : ascii) (s : string) :
  Forall (fun q => isSubstring q s) (splitChar sep s).
Proof.
  induction s as [|c s IH]; simpl.
  - constructor; [apply isSubstring_refl|constructor].
  - assert (forall q, isSubstring q s -> isSubstring q (String c s)) as Hs.
    { intros q [a [b ->]]. exists (String c a), b. reflexivity. }
    destruct (Ascii.eqb c sep).
    + constructor.
      * exists ""%string, (String c s). reflexivity.
      * eapply Forall_impl; [|exact IH]. exact Hs.
    + destruct (splitChar sep s) as [|p ps] eqn:E.
      * constructor; [|constructor]. exists ""%string, s. reflexivity.
      * destruct (splitChar_head sep s p ps E) as [w Hw].
        inversion IH as [|? ? Hp Hps]; subst. constructor.
        -- exists ""%string, w. reflexivity.
        -- eapply Forall_impl; [|exact Hps]. exact Hs.
Qed.

(** The pieces of [split] on a pattern occur in the text. *)
Lemma splitFrom_substrings (r : Re.regex) (s : string) : forall skip piece,
  (skip <> 0 -> piece = ""%string) ->
  Forall (fun q => isSubstring q (piece ++ s)) (splitFrom r skip piece s).
Proof.
  induction s as [|c s IH]; intros skip piece H; simpl.
  - constructor; [apply isSubstring_prefix|constructor].
  - assert (forall q, isSubstring q s -> isSubstring q (piece ++ String c s)) as Hs.
    { intros q [a [b ->]]. exists (piece ++ String c a)%string, b.
      rewrite !append_assoc. reflexivity. }
    destruct skip as [|k].
    + destruct (option_map _ _) as [[|k]|].
      * replace (piece ++ String c s)%string with ((piece ++ String c "") ++ s)%string
          by (rewrite append_assoc; reflexivity).
        apply IH. intros Hk; contradiction.
      * constructor; [apply isSubstring_prefix|].
        eapply Forall_impl; [|apply (IH k ""%string); reflexivity]. exact Hs.
      * replace (piece ++ String c s)%string with ((piece ++ String c "") ++ s)%string
          by (rewrite append_assoc; reflexivity).
        apply IH. intros Hk; contradiction.
    + rewrite (H ltac:(discriminate)).
      eapply Forall_impl; [|apply (IH k ""%string); reflexivity].
      intros q [a [b E]]. simpl in E. subst s. exists (String c a), b. reflexivity.
Qed.

Lemma decompose_substring (step sub : string) :
  In sub (decomposeComplexStep step) -> isSubstring sub step.
Proof.
  unfold decomposeComplexStep, splitRe. intros H.
  apply in_map_iff in H. destruct H as [q [<- Hin]].
  pose proof (splitFrom_substrings Pat.clauseSeparator step 0 ""%string
                ltac:(intros X; contradiction)) as Hall.
  rewrite Forall_forall in Hall.
  exact (isSubstring_trans _ _ _ (trim_substring q) (Hall q Hin)).
Qed.

End SubFacts.

(* ================================================================== *)
(** ** Keywords survive trimming *)
(* ================================================================== *)

Module KeywordFacts.
Import JS JSFacts SubFacts.

Lemma trimStart_app_solid (a t : string) :
  startsSolid t = true -> trimStart (a ++ t) = (trimStart a ++ t)%string.
Proof.
  intros H. induction a as [|c a IH]; simpl.
  - destruct t as [|d t]; simpl in *; [discriminate|].
    apply negb_true_iff in H. rewrite H. reflexivity.
  - destruct (isSpace c); [exact IH|reflexivity].
Qed.

Lemma endsSolid_nonempty (t : string) : endsSolid t = true -> t <> ""%string.
Proof. destruct t; simpl; [discriminate|discriminate]. Qed.

Lemma endsSolid_app (x t : string) : endsSolid t = true -> endsSolid (x ++ t) = true.
Proof.
  intros H. induction x as [|c x IH]; simpl; [exact H|].
  destruct (x ++ t)%string eqn:E; [|exact IH].
  destruct x; simpl in E; [subst t; discriminate|discriminate].
Qed.

Lemma trimEnd_app_solid (t b : string) :
  endsSolid t = true -> trimEnd (t ++ b) = (t ++ trimEnd b)%string.
Proof.
  induction t as [|c t IH]; intros H; [discriminate|].
  destruct t as [|d t].
  - simpl in *. apply negb_true_iff in H. rewrite H.
    destruct (trimEnd b); reflexivity.
  - change (endsSolid (String c (String d t))) with (endsSolid (String d t)) in H.
    specialize (IH H). simpl in IH |- *. simpl in IH. rewrite IH. reflexivity.
Qed.

(** A keyword without white space at its ends that occurs in a text
    occurs in the trimmed text. *)
Lemma includes_trim (s kw : string) :
  edgesSolid kw = true -> includes s kw = true -> includes (trim s) kw = true.
Proof.
  unfold edgesSolid. intros He Hi. apply andb_true_iff in He. destruct He as [Hs He].
  apply includes_iff in Hi. destruct Hi as [a [b ->]]. apply includes_iff.
  unfold trim.
  rewrite trimStart_app_solid.
  - rewrite <- append_assoc. rewrite trimEnd_app_solid by (apply endsSolid_app, He).
    exists (trimStart a), (trimEnd b). rewrite append_assoc. reflexivity.
  - destruct kw; simpl in *; [discriminate|exact Hs].
Qed.

Lemma matchesIntent_mono (x s : string) (kws : list string) :
  forallb edgesSolid kws = true -> isSubstring x s ->
  matchesIntent x kws = true -> matchesIntent (trim s) kws = true.
Proof.
  unfold matchesIntent. intros Hk Hx H.
  apply existsb_exists in H. destruct H as [kw [Hin Hi]].
  apply existsb_exists. exists kw. split; [exact Hin|].
  rewrite forallb_forall in Hk.
  apply includes_trim; [apply Hk, Hin|]. exact (includes_mono _ _ _ Hx Hi).
Qed.

(** The intent is unknown, complex_workflow or data_driven_test exactly
    when no keyword of the six keyword intents occurs. *)
Lemma no_keyword_intent (t : string) :
  forallb (fun kws => negb (matchesIntent t kws)) intentKeywords = true
  <-> (primaryAction (analyzeStepContext t) = unknown
       \/ primaryAction (analyzeStepContext t) = complex_workflow
       \/ primaryAction (analyzeStepContext t) = data_driven_test).
Proof.
  unfold analyzeStepContext, intentKeywords. cbn [forallb].
  destruct (matchesIntent t ["navigate"; "open"; "go to"; "visit"]);
    [simpl; split; [discriminate|intros [H|[H|H]]; discriminate]|].
  destruct (matchesIntent t ["login"; "sign in"; "authenticate"; "enter credentials"]);
    [simpl; split; [discriminate|intros [H|[H|H]]; discriminate]|].
  destruct (matchesIntent t ["enter"; "input"; "type"; "fill"; "provide"]);
    [simpl; split; [discriminate|intros [H|[H|H]]; discriminate]|].
  destruct (matchesIntent t ["click"; "press"; "select"; "choose"; "tap"]);
    [simpl; split; [discriminate|intros [H|[H|H]]; discriminate]|].
  destruct (matchesIntent t ["verify"; "check"; "confirm"; "validate"; "assert"]);
    [simpl; split; [discriminate|intros [H|[H|H]]; discriminate]|].
  destruct (matchesIntent t ["wait"; "pause"; "delay"]);
    [simpl; split; [discriminate|intros [H|[H|H]]; discriminate]|].
  simpl. split; [intros _|reflexivity].
  destruct (isComplexWorkflow t); [right; left; reflexivity|].
  destruct (isDataDrivenTest t); [right; right; reflexivity|left; reflexivity].
Qed.

Lemma intentKeywords_solid :
  forallb (forallb edgesSolid) intentKeywords = true.
Proof. vm_compute. reflexivity. Qed.

(** No keyword in a step, no keyword in any text that occurs in it. *)
Lemma no_keyword_inside (step sub : string) :
  isSubstring sub step ->
  forallb (fun kws => negb (matchesIntent (trim (toLowerCase step)) kws)) intentKeywords
  = true ->
  forallb (fun kws => negb (matchesIntent (trim (toLowerCase sub)) kws)) intentKeywords
  = true.
Proof.
  intros Hsub H. rewrite forallb_forall in H |- *. intros kws Hin.
  specialize (H kws Hin). apply negb_true_iff in H. apply negb_true_iff.
  destruct (matchesIntent (trim (toLowerCase sub)) kws) eqn:E; [|reflexivity].
  rewrite <- H. symmetry.
  apply (matchesIntent_mono (trim (toLowerCase sub)) (toLowerCase step) kws).
  - pose proof intentKeywords_solid as Hs. rewrite forallb_forall in Hs.
    apply Hs, Hin.
  - exact (isSubstring_trans _ _ _ (trim_substring _) (isSubstring_lower _ _ Hsub)).
  - exact E.
Qed.

Lemma subclause_intents (step sub : string) :
  intentOf step = complex_workflow ->
  In sub (decomposeComplexStep step) ->
  intentOf sub = unknown \/ intentOf sub = complex_workflow
  \/ intentOf sub = data_driven_test.
Proof.
  unfold intentOf. intros Hc Hin.
  apply no_keyword_intent.
  apply (no_keyword_inside step sub (decompose_substring _ _ Hin)).
  apply no_keyword_intent. right. left. exact Hc.
Qed.

End KeywordFacts.

(** X1: the sub-clauses of a complex workflow never carry an intent
    keyword: a step is a complex workflow only when none of the
    navigate, login, fill, click, verify and wait keywords occurs in it,
    so each of its sub-clauses is classified unknown, complex_workflow
    or data_driven_test, never as one of the six keyword intents. *)
Theorem subclauses_have_no_keyword_intent (step sub : string) :
  intentOf step = complex_workflow ->
  In sub (decomposeComplexStep step) ->
  intentOf sub = unknown \/ intentOf sub = complex_workflow
  \/ intentOf sub = data_driven_test.
Proof. exact (KeywordFacts.subclause_intents step sub). Qed.

Lemma subclauses_have_no_keyword_intent_witness :
  intentOf "scroll to the bottom" = unknown
  \/ intentOf "scroll to the bottom" = complex_workflow
  \/ intentOf "scroll to the bottom" = data_driven_test.
Proof.
  apply (subclauses_have_no_keyword_intent twoClauses "scroll to the bottom").
  - vm_compute. reflexivity.
  - vm_compute. right. left. reflexivity.
Defined.

(* ================================================================== *)
(** ** What a match of the matcher is *)
(* ================================================================== *)

Module ReFacts.
Import JS JSFacts.

Lemma star_sound {A : Type} (p : ascii -> bool) (k : string -> option A) (s : string) :
  forall x, Re.star p k s = Some x ->
  exists w rest, s = (w ++ rest)%string /\ allChars p w = true /\ k rest = Some x.
Proof.
  induction s as [|c s IH]; simpl; intros x H.
  - exists ""%string, ""%string. auto.
  - destruct (p c) eqn:Ep.
    + destruct (Re.star p k s) as [y|] eqn:E.
      * injection H as <-. destruct (IH y eq_refl) as [w [rest [-> [Hw Hk]]]].
        exists (String c w), rest. simpl. rewrite Ep, Hw. auto.
      * exists ""%string, (String c s). auto.
    + exists ""%string, (String c s). auto.
Qed.

(** Whatever the matcher accepts is a text the pattern derives, with
    the captures it reports, followed by the text it hands on. *)
Lemma run_sound {A : Type} (r : Re.regex) :
  forall (s : string) (caps : list string) (k : string -> list string -> option A) x,
    Re.run r s caps k = Some x ->
    exists w rest cs, s = (w ++ rest)%string /\ derives r w cs
                      /\ k rest (caps ++ cs) = Some x.
Proof.
  induction r as [|ci c|p|p|p|r1 IH1|r1 IH1 r2 IH2|r1 IH1 r2 IH2|r1 IH1];
    intros s caps k x H; simpl in H.
  - exists ""%string, s, []. rewrite app_nil_r. split; [reflexivity|]; split; [constructor|exact H].
  - destruct s as [|d s]; [discriminate|].
    destruct (Re.chrEq ci c d) eqn:E; [|discriminate].
    exists (String d ""), s, []. rewrite app_nil_r.
    split; [reflexivity|]; split; [constructor; exact E|exact H].
  - destruct s as [|d s]; [discriminate|].
    destruct (p d) eqn:E; [|discriminate].
    exists (String d ""), s, []. rewrite app_nil_r.
    split; [reflexivity|]; split; [constructor; exact E|exact H].
  - apply star_sound in H. destruct H as [w [rest [-> [Hw Hk]]]].
    exists w, rest, []. rewrite app_nil_r. split; [reflexivity|]; split; [constructor; exact Hw|exact Hk].
  - destruct s as [|d s]; [discriminate|].
    destruct (p d) eqn:E; [|discriminate].
    apply star_sound in H. destruct H as [w [rest [-> [Hw Hk]]]].
    exists (String d w), rest, []. rewrite app_nil_r.
    split; [reflexivity|]; split; [|exact Hk]. constructor; [simpl; rewrite E, Hw; reflexivity|discriminate].
  - destruct (Re.run r1 s caps k) as [y|] eqn:E.
    + injection H as <-. destruct (IH1 _ _ _ _ E) as [w [rest [cs [-> [Hd Hk]]]]].
      exists w, rest, cs. split; [reflexivity|]; split; [apply d_opt_some, Hd|exact Hk].
    + exists ""%string, s, []. rewrite app_nil_r.
      split; [reflexivity|]; split; [apply d_opt_none|exact H].
  - destruct (Re.run r1 s caps k) as [y|] eqn:E.
    + injection H as <-. destruct (IH1 _ _ _ _ E) as [w [rest [cs [-> [Hd Hk]]]]].
      exists w, rest, cs. split; [reflexivity|]; split; [apply d_alt_l, Hd|exact Hk].
    + destruct (IH2 _ _ _ _ H) as [w [rest [cs [-> [Hd Hk]]]]].
      exists w, rest, cs. split; [reflexivity|]; split; [apply d_alt_r, Hd|exact Hk].
  - destruct (IH1 _ _ _ _ H) as [w1 [rest1 [cs1 [-> [Hd1 Hk1]]]]].
    destruct (IH2 _ _ _ _ Hk1) as [w2 [rest2 [cs2 [-> [Hd2 Hk2]]]]].
    exists (w1 ++ w2)%string, rest2, (cs1 ++ cs2).
    rewrite append_assoc, app_assoc. split; [reflexivity|]; split; [constructor; assumption|exact Hk2].
  - destruct (IH1 _ _ _ _ H) as [w [rest [cs [-> [Hd Hk]]]]].
    rewrite SplitFacts.consumed_prefix in Hk.
    exists w, rest, (cs ++ [w]).
    rewrite app_assoc. split; [reflexivity|]; split; [constructor; exact Hd|exact Hk].
Qed.

Lemma matchStart_sound (r : Re.regex) (s : string) (m : Re.result) :
  Re.matchStart r s = Some m ->
  s = (Re.whole m ++ Re.after m)%string /\ derives r (Re.whole m) (Re.groups m).
Proof.
  unfold Re.matchStart. intros H.
  apply run_sound in H. destruct H as [w [rest [cs [-> [Hd Hk]]]]].
  rewrite SplitFacts.consumed_prefix in Hk. injection Hk as <-. simpl. auto.
Qed.

Lemma search_sound (r : Re.regex) (s : string) (m : Re.result) :
  Re.search r s = Some m ->
  exists before, s = (before ++ Re.whole m ++ Re.after m)%string
                 /\ derives r (Re.whole m) (Re.groups m).
Proof.
  induction s as [|c s IH]; simpl; intros H.
  - destruct (Re.matchStart r "") as [m'|] eqn:E; [|discriminate].
    injection H as <-. apply matchStart_sound in E. destruct E as [E Hd].
    exists ""%string. auto.
  - destruct (Re.matchStart r (String c s)) as [m'|] eqn:E.
    + injection H as <-. apply matchStart_sound in E. destruct E as [E Hd].
      exists ""%string. auto.
    + destruct (IH H) as [before [-> Hd]]. exists (String c before). auto.
Qed.

(** The greedy iteration succeeds wherever the continuation succeeds
    after a run of the class. *)
Lemma star_complete {A : Type} (p : ascii -> bool) (k : string -> option A)
      (w rest : string) :
  allChars p w = true -> k rest <> None -> Re.star p k (w ++ rest) <> None.
Proof.
  intros Hw Hk. induction w as [|c w IH]; simpl in *.
  - destruct rest as [|c r]; simpl; [exact Hk|].
    destruct (p c); [|exact Hk].
    destruct (Re.star p k r); [discriminate|exact Hk].
  - apply andb_true_iff in Hw. destruct Hw as [Hc Hw]. rewrite Hc.
    destruct (Re.star p k (w ++ rest)) eqn:E; [discriminate|].
    exfalso. exact (IH Hw eq_refl).
Qed.

(** A match that starts somewhere in [s] makes the search succeed. *)
Lemma search_complete (r : Re.regex) (before s : string) :
  Re.matchStart r s <> None -> Re.search r (before ++ s) <> None.
Proof.
  intros H. induction before as [|c before IH]; simpl.
  - destruct s as [|d s]; simpl;
      destruct (Re.matchStart r _); [discriminate|contradiction|discriminate|contradiction].
  - destruct (Re.matchStart r (String c (before ++ s))); [discriminate|exact IH].
Qed.

End ReFacts.

(* ================================================================== *)
(** ** Steps of a numbered prompt *)
(* ================================================================== *)

Module PipelineFacts.
Import JS JSFacts SubFacts.

Lemma lowerChar_not_U (c : ascii) : Ascii.eqb "U" (lowerChar c) = false.
Proof. destruct c as [[] [] [] [] [] [] [] []]; vm_compute; reflexivity. Qed.

(** A lower-cased text does not contain the label 'Username:'. *)
Lemma lower_has_no_Username (s : string) :
  includes (toLowerCase s) "Username:" = false.
Proof.
  induction s as [|c s IH]; [reflexivity|].
  cbn [toLowerCase includes]. rewrite IH.
  cbn [startsWith]. rewrite lowerChar_not_U. reflexivity.
Qed.

Lemma intent_marker (t : string) :
  primaryAction (analyzeStepContext t) = data_driven_test -> isDataDrivenTest t = true.
Proof.
  unfold analyzeStepContext.
  destruct (matchesIntent t ["navigate"; "open"; "go to"; "visit"]); [discriminate|].
  destruct (matchesIntent t ["login"; "sign in"; "authenticate"; "enter credentials"]);
    [discriminate|].
  destruct (matchesIntent t ["enter"; "input"; "type"; "fill"; "provide"]);
    [discriminate|].
  destruct (matchesIntent t ["click"; "press"; "select"; "choose"; "tap"]);
    [discriminate|].
  destruct (matchesIntent t ["verify"; "check"; "confirm"; "validate"; "assert"]);
    [discriminate|].
  destruct (matchesIntent t ["wait"; "pause"; "delay"]); [discriminate|].
  destruct (isComplexWorkflow t); [discriminate|].
  destruct (isDataDrivenTest t); [reflexivity|discriminate].
Qed.

(** The dataset markers of a text without 'Username:' are markers of
    every text it occurs in. *)
Lemma isDataDrivenTest_mono (x y : string) :
  isSubstring x y -> includes x "Username:" = false ->
  isDataDrivenTest x = true -> isDataDrivenTest y = true.
Proof.
  intros Hsub HU H.
  assert (forall p, includes x p = true -> includes y p = true) as M
      by (intros p Hp; exact (includes_mono _ _ _ Hsub Hp)).
  unfold isDataDrivenTest, hasInlineDatasets in *. rewrite HU in H.
  repeat rewrite orb_true_iff in H. repeat rewrite andb_true_iff in H.
  repeat rewrite orb_true_iff. repeat rewrite andb_true_iff.
  intuition (try discriminate; auto).
Qed.

Lemma stepContent_suffix (step : string) : isSubstring (stepContent step) step.
Proof.
  unfold stepContent.
  destruct (Re.matchStart Pat.stepPrefix step) as [m|] eqn:E; [|apply isSubstring_refl].
  apply ReFacts.matchStart_sound in E. destruct E as [E _].
  rewrite E. apply isSubstring_suffix.
Qed.

(** The text of a numbered step occurs in the prompt. *)
Lemma step_in_prompt (content line : string) :
  In line (stepLines content) ->
  isSubstring (stepContent (trim line)) content.
Proof.
  unfold stepLines. intros H. apply filter_In in H. destruct H as [H _].
  apply in_map_iff in H. destruct H as [l [<- Hl]].
  pose proof (splitChar_pieces LF content) as Hall. rewrite Forall_forall in Hall.
  eapply isSubstring_trans; [apply stepContent_suffix|].
  eapply isSubstring_trans; [apply trim_substring|].
  eapply isSubstring_trans; [apply trim_substring|]. apply Hall, Hl.
Qed.

Lemma not_data_driven_inside (content z : string) :
  isDataDrivenTest (toLowerCase content) = false -> isSubstring z content ->
  intentOf z <> data_driven_test.
Proof.
  intros Hc Hz Hi. unfold intentOf in Hi. apply intent_marker in Hi.
  assert (isSubstring (trim (toLowerCase z)) (toLowerCase content)) as Hsub
      by exact (isSubstring_trans _ _ _ (trim_substring _) (isSubstring_lower _ _ Hz)).
  rewrite (isDataDrivenTest_mono _ _ Hsub) in Hc; [discriminate| |exact Hi].
  destruct (includes (trim (toLowerCase z)) "Username:") eqn:E; [|reflexivity].
  rewrite <- (lower_has_no_Username z). symmetry.
  exact (includes_mono _ _ _ (trim_substring _) E).
Qed.

Lemma steps_not_data_driven (content line : string) :
  isDataDrivenTest (toLowerCase content) = false ->
  In line (stepLines content) ->
  intentOf (stepContent (trim line)) <> data_driven_test
  /\ forall sub, In sub (decomposeComplexStep (stepContent (trim line))) ->
                 intentOf sub <> data_driven_test.
Proof.
  intros Hc Hl. pose proof (step_in_prompt _ _ Hl) as Hs. split.
  - exact (not_data_driven_inside _ _ Hc Hs).
  - intros sub Hin. apply (not_data_driven_inside _ _ Hc).
    exact (isSubstring_trans _ _ _ (decompose_substring _ _ Hin) Hs).
Qed.

End PipelineFacts.

(* ================================================================== *)
(** ** Which prompts the data-driven generator compiles *)
(* ================================================================== *)





(** C7: a triple whose labels are written in capitals is matched by
    the single-line pattern, which has flag i, so that N is 1, and the
    prompt is recognised as data-driven, its text being tested in
    lower case.  The expander then tests the text as written for
    'Username:' or the labels in lower case (lines 1265-1269), finds
    neither, and hands the text to the CSV generator: the inline row is
    never read, and with no csv file the prompt compiles to nothing.
    The same triple with the labels 'Username:', 'Password:',
    'Expected:' gives its one row. *)
Theorem triple_in_capitals_gets_no_row (mcpContext : MCPContext) (stack : nat) :
  List.length (filter (Re.test Pat.inlinePattern) (JS.splitChar JS.LF capitalTriple)) = 1
  /\ inlineTriples (JS.splitChar JS.LF capitalTriple)
     = [{| d_username := "a"; d_password := "b"; d_expected := "Dashboard" |}]
  /\ hasInlineDatasets capitalTriple = false
  /\ (forall fs : FileSystem,
         parsePromptToActions mcpContext fs stack (promptOf capitalTriple)
         = generateCSVDataActions mcpContext fs capitalTriple 1)
  /\ parsePromptToActions mcpContext noFiles stack (promptOf capitalTriple) = []
  /\ List.length (filter (isClickOf "login button")
                         (parsePromptToActions mcpContext noFiles stack
                                               (promptOf canonicalTriple))) = 1.
Proof.
  split; [vm_compute; reflexivity|].
  split; [vm_compute; reflexivity|].
  split; [vm_compute; reflexivity|].
  assert (forall fs : FileSystem,
             parsePromptToActions mcpContext fs stack (promptOf capitalTriple)
             = generateCSVDataActions mcpContext fs capitalTriple 1) as H.
  { intros fs. unfold parsePromptToActions. cbv zeta.
    replace (isDataDrivenTest (JS.toLowerCase (content (promptOf capitalTriple))))
      with true by (vm_compute; reflexivity).
    unfold generateDataDrivenActions.
    replace (hasInlineDatasets (content (promptOf capitalTriple)))
      with false by (vm_compute; reflexivity).
    reflexivity. }
  split; [exact H|].
  split; [rewrite H; vm_compute; reflexivity|].
  vm_compute. reflexivity.
Qed.

(** X2: in a prompt that is compiled step by step, no numbered step
    and no sub-clause of one is ever classified data_driven_test: the
    prompt got there because its lower-cased text has no dataset
    marker, and every step occurs in the prompt.  The data_driven_test
    case of the step parser is never taken on this path. *)
Theorem numbered_steps_are_never_data_driven (content line : string) :
  isDataDrivenTest (JS.toLowerCase content) = false ->
  In line (stepLines content) ->
  intentOf (stepContent (JS.trim line)) <> data_driven_test
  /\ forall sub, In sub (decomposeComplexStep (stepContent (JS.trim line))) ->
                 intentOf sub <> data_driven_test.
Proof. exact (PipelineFacts.steps_not_data_driven content line). Qed.

Lemma numbered_steps_are_never_data_driven_witness :
  intentOf (stepContent (JS.trim "3. Hover over the profile menu and scroll down"))
  <> data_driven_test
  /\ forall sub,
      In sub (decomposeComplexStep
                (stepContent (JS.trim "3. Hover over the profile menu and scroll down"))) ->
      intentOf sub <> data_driven_test.
Proof.
  apply (numbered_steps_are_never_data_driven compoundPrompt).
  - vm_compute. reflexivity.
  - vm_compute. left. reflexivity.
Defined.

(** X3: a numbered step that is a complex workflow compiles either to
    one Click on 'interactive element' per sub-clause, each described
    by its sub-clause, or to the single Wait(1000) 'Default wait
    action' of the fallback; never to a navigate, fill, assert or
    data-driven action. *)
Theorem compound_step_compiles_to_generic_clicks
        (mcpContext : MCPContext) (fs : FileSystem) (stack : nat)
        (content line : string) (n : nat) :
  isDataDrivenTest (JS.toLowerCase content) = false ->
  In line (stepLines content) ->
  intentOf (stepContent (JS.trim line)) = complex_workflow ->
  parseSimpleStep mcpContext fs stack (stepContent (JS.trim line)) n
  = flat_map (fun sub => generateSemanticActions sub n)
             (decomposeComplexStep (stepContent (JS.trim line)))
  \/ parseSimpleStep mcpContext fs stack (stepContent (JS.trim line)) n
     = [waitFor 1000 (stepTag n ++ "Default wait action")].
Proof.
  intros Hc Hl Hi. set (step := stepContent (JS.trim line)) in *.
  assert (fallbackBasicParser mcpContext step n
          = [waitFor 1000 (stepTag n ++ "Default wait action")]) as Hf.
  { unfold fallbackBasicParser. cbv zeta.
    assert (forall kws kw, In kws intentKeywords -> In kw kws ->
                           JS.includes (JS.toLowerCase step) kw = false) as Hk.
    { intros kws kw Hkws Hkw.
      destruct (JS.includes (JS.toLowerCase step) kw) eqn:E; [|reflexivity].
      assert (forallb (fun kws => negb (matchesIntent (JS.trim (JS.toLowerCase step)) kws))
                      intentKeywords = true) as Hn
          by (apply KeywordFacts.no_keyword_intent; right; left; exact Hi).
      rewrite forallb_forall in Hn. specialize (Hn kws Hkws).
      apply negb_true_iff in Hn. rewrite <- Hn. symmetry.
      unfold matchesIntent. apply existsb_exists. exists kw. split; [exact Hkw|].
      apply KeywordFacts.includes_trim; [|exact E].
      pose proof KeywordFacts.intentKeywords_solid as Hs.
      rewrite forallb_forall in Hs. specialize (Hs kws Hkws).
      rewrite forallb_forall in Hs. exact (Hs kw Hkw). }
    rewrite (Hk ["navigate"; "open"; "go to"; "visit"] "navigate")
      by (simpl; auto).
    rewrite (Hk ["login"; "sign in"; "authenticate"; "enter credentials"] "login")
      by (simpl; auto).
    reflexivity. }
  unfold parseSimpleStep.
  destruct (intelligentStepParser mcpContext fs stack step n) as [acts|] eqn:E;
    [|right; exact Hf].
  left. destruct stack as [|k]; [discriminate|].
  rewrite parser_unfold in E. rewrite Hi in E.
  assert (parseEach (fun sub => intelligentStepParser mcpContext fs k sub n)
                    (decomposeComplexStep step)
          = Some (flat_map (fun sub => generateSemanticActions sub n)
                           (decomposeComplexStep step))) as Hp.
  { assert (forall sub, In sub (decomposeComplexStep step) ->
                        intelligentStepParser mcpContext fs k sub n
                        = Some (generateSemanticActions sub n)) as Hsub.
    { intros sub Hin.
      destruct (parseEach_each _ _ _ E sub Hin) as [a Ha].
      pose proof (subclause_simple _ _ _ _ _ _ _ Hin Ha) as Hnc.
      pose proof (proj2 (PipelineFacts.steps_not_data_driven content line Hc Hl)
                        sub Hin) as Hnd.
      destruct k as [|k']; [discriminate|].
      rewrite parser_unfold.
      destruct (KeywordFacts.subclause_intents step sub Hi Hin) as [-> | [H | H]];
        [reflexivity|contradiction|contradiction]. }
    revert Hsub. generalize (decomposeComplexStep step). intros l.
    induction l as [|x l IH]; intros Hsub; simpl; [reflexivity|].
    rewrite (Hsub x (or_introl eq_refl)).
    rewrite IH by (intros y Hy; apply Hsub; right; exact Hy). reflexivity. }
  rewrite Hp in E. injection E as <-.
  destruct (flat_map _ _) eqn:Ef; [|reflexivity].
  exfalso. destruct (decomposeComplexStep step) as [|x l] eqn:Ed.
  - exact (SplitFacts.decompose_nonempty step Ed).
  - simpl in Ef. discriminate.
Qed.

Lemma compound_step_compiles_to_generic_clicks_witness :
  parseSimpleStep demoContext noFiles 5
    (stepContent (JS.trim "3. Hover over the profile menu and scroll down")) 1
  = flat_map (fun sub => generateSemanticActions sub 1)
      (decomposeComplexStep
         (stepContent (JS.trim "3. Hover over the profile menu and scroll down")))
  \/ parseSimpleStep demoContext noFiles 5
       (stepContent (JS.trim "3. Hover over the profile menu and scroll down")) 1
     = [waitFor 1000 (stepTag 1 ++ "Default wait action")].
Proof.
  apply (compound_step_compiles_to_generic_clicks demoContext noFiles 5 compoundPrompt).
  - vm_compute. reflexivity.
  - vm_compute. left. reflexivity.
  - vm_compute. reflexivity.
Defined.

(* ================================================================== *)
(** ** Numbered steps, in order *)
(* ================================================================== *)

Lemma forEachFrom_nth {X : Type} (body : nat -> X -> list MCPAction) (xs : list X) :
  forall index i,
    nth_error (map (fun p => body (fst p) (snd p))
                   (combine (seq index (List.length xs)) xs)) i
    = option_map (body (index + i)) (nth_error xs i).
Proof.
  induction xs as [|x xs IH]; intros index i; simpl.
  - destruct i; reflexivity.
  - destruct i as [|i]; simpl; [rewrite Nat.add_0_r; reflexivity|].
    rewrite IH. rewrite Nat.add_succ_r. reflexivity.
Qed.

Lemma concat_length_blocks (blocks : list (list MCPAction)) :
  Forall (fun b => b <> []) blocks -> List.length blocks <= List.length (concat blocks).
Proof.
  induction 1 as [|b blocks Hb _ IH]; simpl; [lia|].
  rewrite length_app. destruct b; [contradiction|simpl; lia].
Qed.

(** X4: a prompt compiled step by step gives one block of actions per
    numbered line, in the order of the lines: block i is the
    compilation of line i, numbered i + 1, and no block is empty, so N
    numbered lines give at least N actions. *)
Theorem numbered_lines_give_blocks_in_order
        (mcpContext : MCPContext) (fs : FileSystem) (stack : nat) (content : string) :
  exists blocks : list (list MCPAction),
    parseStepByStepPrompt mcpContext fs stack content = concat blocks
    /\ List.length blocks = List.length (stepLines content)
    /\ (forall i, nth_error blocks i
                  = option_map (fun line => parseSimpleStep mcpContext fs stack
                                              (stepContent (JS.trim line)) (i + 1))
                               (nth_error (stepLines content) i))
    /\ Forall (fun b => b <> []) blocks
    /\ List.length (stepLines content)
       <= List.length (parseStepByStepPrompt mcpContext fs stack content).
Proof.
  unfold parseStepByStepPrompt. rewrite forEachFrom_concat.
  set (blocks := map _ _).
  assert (List.length blocks = List.length (stepLines content)) as Hlen.
  { unfold blocks. rewrite length_map, length_combine, length_seq. apply Nat.min_id. }
  assert (Forall (fun b => b <> []) blocks) as Hne.
  { unfold blocks. apply Forall_forall. intros b Hb.
    apply in_map_iff in Hb. destruct Hb as [[i line] [<- _]].
    apply parseSimpleStep_nonempty. }
  exists blocks. split; [reflexivity|]. split; [exact Hlen|]. split; [|split].
  - intros i. unfold blocks.
    rewrite (forEachFrom_nth
               (fun i line => parseSimpleStep mcpContext fs stack
                                (stepContent (JS.trim line)) (i + 1))).
    reflexivity.
  - exact Hne.
  - rewrite <- Hlen. apply concat_length_blocks, Hne.
Qed.

(* ================================================================== *)
(** ** Rows of a CSV file *)
(* ================================================================== *)

Lemma csvRowActions_shape (mcpContext : MCPContext) (n total index : nat) (row : Row) :
  csvRowShape row (csvRowActions mcpContext n total index row).
Proof.
  unfold csvRowShape, csvRowActions, csvAssert. cbv zeta.
  generalize (rowTag n index) as tag. intros tag.
  match goal with
  | |- context [JS.includes ?e "dashboard"] =>
      destruct (JS.includes e "dashboard"); destruct (JS.includes e "invalid")
  end;
    destruct (Nat.ltb index (total - 1));
    (split; [eexists; eexists; split; [reflexivity|split; reflexivity]|]);
    repeat split; reflexivity.
Qed.

(** X5: for an external dataset the expander's output is the
    concatenation of one block per data row of the file, in the order
    of the rows; each block opens with its only Navigate and has
    exactly one Fill of the username field, one Fill of the password
    field, with the values of the row's Username and Password columns
    (capitalised or not, empty when the column is missing), and one
    Click of the login button. *)
Theorem csv_rows_expand_row_by_row
        (mcpContext : MCPContext) (fs : FileSystem) (step : string) (n : nat) :
  exists blocks : list (list MCPAction),
    generateCSVDataActions mcpContext fs step n = concat blocks
    /\ Forall2 csvRowShape (readCSVData fs (extractCSVFileName step)) blocks.
Proof.
  unfold generateCSVDataActions. cbv zeta. rewrite forEachFrom_concat.
  eexists. split; [reflexivity|].
  apply forEachFrom_blocks. intros i row. apply csvRowActions_shape.
Qed.

(* ================================================================== *)
(** ** The wait between rows *)
(* ================================================================== *)

Section Separators.

Variable X : Type.
Variable total : nat.
Variable body : nat -> X -> list MCPAction.

Hypothesis body_separators : forall i x,
  List.length (filter isSeparatorWait (body i x))
  = if Nat.ltb i (total - 1) then 1 else 0.

Hypothesis body_last : forall i x a,
  Nat.ltb i (total - 1) = false -> lastAction (body i x) = Some a ->
  isSeparatorWait a = false.

Hypothesis body_nonempty : forall i x, body i x <> [].

Lemma forEachFrom_nonempty (xs : list X) (index : nat) :
  xs <> [] -> forEachFrom body index xs <> [].
Proof.
  destruct xs as [|x xs]; [contradiction|]. intros _. simpl.
  pose proof (body_nonempty index x). destruct (body index x); [contradiction|discriminate].
Qed.

Lemma lastAction_app (u v : list MCPAction) :
  v <> [] -> lastAction (u ++ v) = lastAction v.
Proof.
  unfold lastAction. intros H. rewrite rev_app_distr.
  destruct (rev v) eqn:E; [|reflexivity].
  apply (f_equal (@rev MCPAction)) in E. rewrite rev_involutive in E. contradiction.
Qed.

Lemma forEachFrom_separators (xs : list X) : forall index,
  index + List.length xs = total ->
  List.length (filter isSeparatorWait (forEachFrom body index xs)) = List.length xs - 1
  /\ forall a, lastAction (forEachFrom body index xs) = Some a ->
               isSeparatorWait a = false.
Proof.
  induction xs as [|x xs IH]; intros index Hlen; simpl.
  - split; [reflexivity|]. intros a H. discriminate.
  - simpl in Hlen. rewrite filter_app, length_app, body_separators.
    destruct xs as [|y xs].
    + simpl in *. rewrite app_nil_r.
      assert (Nat.ltb index (total - 1) = false) as E by (apply Nat.ltb_ge; lia).
      rewrite E. split; [reflexivity|]. intros a. apply body_last, E.
    + destruct (IH (S index) ltac:(simpl in *; lia)) as [IH1 IH2].
      assert (Nat.ltb index (total - 1) = true) as E
          by (apply Nat.ltb_lt; simpl in *; lia).
      rewrite E, IH1. split; [simpl; lia|].
      intros a. rewrite lastAction_app by (apply forEachFrom_nonempty; discriminate).
      apply IH2.
Qed.

End Separators.

Lemma inlineRow_separators (mcpContext : MCPContext) (step : string) (n total i : nat)
      (d : InlineDataset) :
  List.length (filter isSeparatorWait (inlineRowActions mcpContext step n total i d))
  = (if Nat.ltb i (total - 1) then 1 else 0)
  /\ (forall a, Nat.ltb i (total - 1) = false ->
                lastAction (inlineRowActions mcpContext step n total i d) = Some a ->
                isSeparatorWait a = false)
  /\ inlineRowActions mcpContext step n total i d <> [].
Proof.
  unfold inlineRowActions, inlineAssert. cbv zeta.
  generalize (rowTag n i) as tag. intros tag.
  destruct (JS.includes (JS.toLowerCase (d_expected d)) "dashboard");
    destruct (JS.includes (JS.toLowerCase (d_expected d)) "invalid"
              || JS.includes (JS.toLowerCase (d_expected d)) "error");
    destruct (JS.includes (JS.toLowerCase step) "logout");
    destruct (Nat.ltb i (total - 1));
    (split; [reflexivity|split; [|discriminate]]);
    intros a E H; try discriminate; cbv in H; injection H as <-; reflexivity.
Qed.

Lemma csvRow_separators (mcpContext : MCPContext) (n total i : nat) (row : Row) :
  List.length (filter isSeparatorWait (csvRowActions mcpContext n total i row))
  = (if Nat.ltb i (total - 1) then 1 else 0)
  /\ (forall a, Nat.ltb i (total - 1) = false ->
                lastAction (csvRowActions mcpContext n total i row) = Some a ->
                isSeparatorWait a = false)
  /\ csvRowActions mcpContext n total i row <> [].
Proof.
  unfold csvRowActions, csvAssert. cbv zeta.
  generalize (rowTag n i) as tag. intros tag.
  match goal with
  | |- context [JS.includes ?e "dashboard"] =>
      destruct (JS.includes e "dashboard"); destruct (JS.includes e "invalid")
  end;
    destruct (Nat.ltb i (total - 1));
    (split; [reflexivity|split; [|discriminate]]);
    intros a E H; try discriminate; cbv in H; injection H as <-; reflexivity.
Qed.

(** X6: the Wait(1000) 'Wait before next test case' stands between
    rows only: for N rows, inline or from a CSV file, the output holds
    exactly N - 1 waits of 1000 ms and its last action is not one of
    them. *)
Theorem row_separator_only_between_rows
        (mcpContext : MCPContext) (fs : FileSystem) (step : string) (n : nat) :
  (List.length (filter isSeparatorWait (generateInlineDataActions mcpContext step n))
   = List.length (extractInlineDatasets step) - 1
   /\ forall a, lastAction (generateInlineDataActions mcpContext step n) = Some a ->
                isSeparatorWait a = false)
  /\ (List.length (filter isSeparatorWait (generateCSVDataActions mcpContext fs step n))
      = List.length (readCSVData fs (extractCSVFileName step)) - 1
      /\ forall a, lastAction (generateCSVDataActions mcpContext fs step n) = Some a ->
                   isSeparatorWait a = false).
Proof.
  split.
  - unfold generateInlineDataActions. cbv zeta.
    apply (forEachFrom_separators InlineDataset (List.length (extractInlineDatasets step))).
    + intros i x. apply inlineRow_separators.
    + intros i x a. apply inlineRow_separators.
    + intros i x. apply inlineRow_separators.
    + reflexivity.
  - unfold generateCSVDataActions. cbv zeta.
    apply (forEachFrom_separators Row
             (List.length (readCSVData fs (extractCSVFileName step)))).
    + intros i x. apply csvRow_separators.
    + intros i x a. apply csvRow_separators.
    + intros i x. apply csvRow_separators.
    + reflexivity.
Qed.

(* ================================================================== *)
(** ** The logout subsequence *)
(* ================================================================== *)

Lemma existsb_forEachFrom {X : Type} (p : MCPAction -> bool) (q : X -> bool)
      (body : nat -> X -> list MCPAction) (xs : list X) :
  (forall i x, existsb p (body i x) = q x) ->
  forall index, existsb p (forEachFrom body index xs) = existsb q xs.
Proof.
  intros H. induction xs as [|x xs IH]; intros index; simpl; [reflexivity|].
  rewrite existsb_app, H, IH. reflexivity.
Qed.

(** X7: the output of the inline generator holds a Click on the
    logout button exactly when some row's expected result contains
    'dashboard' and the step mentions 'logout' (both without regard to
    case); the CSV generator never clicks the logout button or the
    user dropdown menu, whatever the step says. *)
Theorem logout_follows_successful_inline_rows_only
        (mcpContext : MCPContext) (fs : FileSystem) (step : string) (n : nat) :
  existsb (isClickOf "logout button") (generateInlineDataActions mcpContext step n)
  = existsb (fun d => JS.includes (JS.toLowerCase (d_expected d)) "dashboard")
            (extractInlineDatasets step)
    && JS.includes (JS.toLowerCase step) "logout"
  /\ existsb (isClickOf "logout button") (generateCSVDataActions mcpContext fs step n)
     = false
  /\ existsb (isClickOf "user dropdown menu") (generateCSVDataActions mcpContext fs step n)
     = false.
Proof.
  split; [|split].
  - unfold generateInlineDataActions. cbv zeta.
    rewrite (existsb_forEachFrom _
               (fun d => JS.includes (JS.toLowerCase (d_expected d)) "dashboard"
                         && JS.includes (JS.toLowerCase step) "logout")).
    + generalize (extractInlineDatasets step). intros l.
      induction l as [|d l IH]; simpl; [reflexivity|]. rewrite IH.
      destruct (JS.includes (JS.toLowerCase (d_expected d)) "dashboard");
        destruct (JS.includes (JS.toLowerCase step) "logout"); simpl;
        rewrite ?andb_false_r; reflexivity.
    + intros i d. unfold inlineRowActions, inlineAssert. cbv zeta.
      generalize (rowTag n i) as tag. intros tag.
      destruct (JS.includes (JS.toLowerCase (d_expected d)) "dashboard");
        destruct (JS.includes (JS.toLowerCase (d_expected d)) "invalid"
                  || JS.includes (JS.toLowerCase (d_expected d)) "error");
        destruct (JS.includes (JS.toLowerCase step) "logout");
        destruct (Nat.ltb i (List.length (extractInlineDatasets step) - 1));
        reflexivity.
  - unfold generateCSVDataActions. cbv zeta.
    rewrite (existsb_forEachFrom _ (fun _ => false)).
    + generalize (readCSVData fs (extractCSVFileName step)). intros l.
      induction l; simpl; auto.
    + intros i row. unfold csvRowActions, csvAssert. cbv zeta.
      generalize (rowTag n i) as tag. intros tag.
      match goal with
      | |- context [JS.includes ?e "dashboard"] =>
          destruct (JS.includes e "dashboard"); destruct (JS.includes e "invalid")
      end;
        destruct (Nat.ltb i _); reflexivity.
  - unfold generateCSVDataActions. cbv zeta.
    rewrite (existsb_forEachFrom _ (fun _ => false)).
    + generalize (readCSVData fs (extractCSVFileName step)). intros l.
      induction l; simpl; auto.
    + intros i row. unfold csvRowActions, csvAssert. cbv zeta.
      generalize (rowTag n i) as tag. intros tag.
      match goal with
      | |- context [JS.includes ?e "dashboard"] =>
          destruct (JS.includes e "dashboard"); destruct (JS.includes e "invalid")
      end;
        destruct (Nat.ltb i _); reflexivity.
Qed.

(* ================================================================== *)
(** ** Reading a row of a CSV file *)
(* ================================================================== *)

Lemma field_none (row : Row) (key : string) :
  field row key = None <-> ~ In key (map fst row).
Proof.
  induction row as [|[k v] row IH]; simpl.
  - split; [intros _ []|reflexivity].
  - destruct (field row key) as [later|] eqn:E.
    + split; [discriminate|]. intros H. exfalso. apply H. right.
      destruct (in_dec string_dec key (map fst row)) as [Hin|Hn]; [exact Hin|].
      apply IH in Hn. discriminate.
    + destruct (String.eqb k key) eqn:Ek.
      * apply String.eqb_eq in Ek. split; [discriminate|]. intros H. exfalso. auto.
      * apply String.eqb_neq in Ek. split; [|reflexivity].
        intros _ [H | H]; [contradiction|]. apply (proj1 IH eq_refl H).
Qed.

Lemma field_unique (row : Row) (key v : string) :
  NoDup (map fst row) -> In (key, v) row -> field row key = Some v.
Proof.
  induction row as [|[k w] row IH]; simpl; intros Hnd Hin; [contradiction|].
  inversion Hnd as [|? ? Hk Hnd']; subst.
  destruct Hin as [Hin | Hin].
  - injection Hin as -> ->.
    assert (field row key = None) as -> by (apply field_none; exact Hk).
    rewrite String.eqb_refl. reflexivity.
  - rewrite (IH Hnd' Hin). reflexivity.
Qed.

Lemma combine_seq_fst {X : Type} (l : list X) (a : nat) :
  map fst (combine l (seq a (List.length l))) = l.
Proof.
  revert a. induction l as [|x l IH]; intros a; simpl; [reflexivity|].
  rewrite IH. reflexivity.
Qed.

Lemma combine_seq_in {X : Type} (l : list X) : forall a i x,
  nth_error l i = Some x -> In (x, a + i) (combine l (seq a (List.length l))).
Proof.
  induction l as [|y l IH]; intros a i x H; [destruct i; discriminate|].
  destruct i as [|i]; simpl in *.
  - injection H as ->. left. rewrite Nat.add_0_r. reflexivity.
  - right. rewrite Nat.add_succ_r. apply (IH (S a) i x H).
Qed.

Lemma csvRow_keys (headers : list string) (line : string) :
  map fst (csvRow headers line) = headers.
Proof.
  unfold csvRow. cbv zeta. rewrite map_map. simpl.
  apply combine_seq_fst.
Qed.

(** X8: reading a row that [readCSVData] built.  When no header name
    is repeated and none is '__proto__', header i reads as the trimmed
    cell i of the line, and as the empty string when the line has too
    few cells; a name that is no header and no property of
    Object.prototype reads as undefined. *)
Theorem csv_row_lookup (headers : list string) (line : string) :
  NoDup headers ->
  ~ In "__proto__"%string headers ->
  (forall i h, nth_error headers i = Some h ->
               field (csvRow headers line) h
               = Some (nth i (map JS.trim (JS.splitChar "," line)) ""))
  /\ (forall key, ~ In key headers -> ~ In key inheritedNames ->
                  field (csvRow headers line) key = None).
Proof.
  intros Hnd _. split.
  - intros i h Hi. apply field_unique; [rewrite csvRow_keys; exact Hnd|].
    unfold csvRow. cbv zeta. apply in_map_iff.
    exists (h, i). simpl. rewrite orElse_empty. split; [reflexivity|].
    apply (combine_seq_in headers 0 i h Hi).
  - intros key Hk _. apply field_none. rewrite csvRow_keys. exact Hk.
Qed.

Lemma csv_row_lookup_witness :
  field (csvRow ["Username"; "Password"; "Expected"] "bob, wrong") "Password"
  = Some "wrong"%string
  /\ field (csvRow ["Username"; "Password"; "Expected"] "bob, wrong") "Expected"
     = Some ""%string
  /\ field (csvRow ["Username"; "Password"; "Expected"] "bob, wrong") "username" = None.
Proof.
  assert (NoDup ["Username"; "Password"; "Expected"]%string) as Hnd
      by (repeat constructor; simpl; intuition discriminate).
  assert (~ In "__proto__"%string ["Username"; "Password"; "Expected"]%string) as Hp
      by (simpl; intuition discriminate).
  destruct (csv_row_lookup ["Username"; "Password"; "Expected"]%string "bob, wrong" Hnd Hp)
    as [Hh Hk].
  split; [exact (Hh 1 "Password"%string eq_refl)|].
  split; [exact (Hh 2 "Expected"%string eq_refl)|].
  apply Hk; simpl; intuition discriminate.
Defined.

(* ================================================================== *)
(** ** Rows of the block scan are filled *)
(* ================================================================== *)

Lemma truthy_show (v : option string) : JS.truthy v = true -> JS.show v <> ""%string.
Proof. destruct v as [[|c s]|]; simpl; discriminate. Qed.

Lemma scanLine_filled (st : ScanState) (line : string) :
  Forall filled (datasets st) -> Forall filled (datasets (scanLine st line)).
Proof.
  intros H. unfold scanLine. cbv zeta.
  destruct (isMarkerLine _); [exact H|].
  destruct (inDatasetSection st); [|exact H].
  destruct (JS.includes _ "expected" && JS.includes _ ":"); [|exact H].
  destruct (Re.search Pat.blockExpected line) as [m|]; [|exact H].
  set (a := readPassword line _ (readUsername line _ (currentDataset st))).
  destruct (JS.truthy (a_username a)) eqn:Eu; [|exact H].
  destruct (JS.truthy (a_password a)) eqn:Ep; [|exact H].
  cbn [andb].
  destruct (JS.truthy (Some (JS.trim (Re.group 1 m)))) eqn:Ee; [|exact H].
  cbn [datasets]. apply Forall_app. split; [exact H|].
  constructor; [|constructor]. unfold filled. cbn.
  split; [apply truthy_show, Eu|]. split; [apply truthy_show, Ep|].
  exact (truthy_show _ Ee).
Qed.

(** X9: every dataset the block scan returns has a non-empty
    username, password and expected result: an accumulator is pushed
    only when its three fields are truthy. *)
Theorem block_scan_rows_are_filled (lines : list string) :
  Forall filled (blockScan lines).
Proof.
  unfold blockScan.
  assert (forall st, Forall filled (datasets st) ->
                     Forall filled (datasets (fold_left scanLine lines st))) as H.
  { induction lines as [|l lines IH]; intros st Hst; simpl; [exact Hst|].
    apply IH, scanLine_filled, Hst. }
  apply H. constructor.
Qed.

(* ================================================================== *)
(** ** What the extractors return *)
(* ================================================================== *)

Ltac invert_derives :=
  repeat match goal with
         | H : derives (Re.Seq _ _) _ _ |- _ => inversion H; subst; clear H
         | H : derives (Re.Grp _) _ _ |- _ => inversion H; subst; clear H
         | H : derives (Re.Chr _ _) _ _ |- _ => inversion H; subst; clear H
         | H : derives (Re.Cls _) _ _ |- _ => inversion H; subst; clear H
         | H : derives (Re.Plus _) _ _ |- _ => inversion H; subst; clear H
         | H : derives (Re.Star _) _ _ |- _ => inversion H; subst; clear H
         | H : derives Re.Eps _ _ |- _ => inversion H; subst; clear H
         | H : derives (Re.Opt _) _ _ |- _ => inversion H; subst; clear H
         | H : derives (Re.Alt _ _) _ _ |- _ => inversion H; subst; clear H
         end.

Lemma chrEq_exact (c d : ascii) : Re.chrEq false c d = true -> d = c.
Proof. unfold Re.chrEq. intros H. apply Ascii.eqb_eq in H. auto. Qed.

Lemma chrEq_lower (c d : ascii) :
  Re.chrEq true c d = true -> JS.lowerChar d = JS.lowerChar c.
Proof. unfold Re.chrEq. intros H. apply Ascii.eqb_eq in H. auto. Qed.

Lemma csvName_match (step : string) (m : Re.result) :
  Re.search Pat.csvName step = Some m -> csvFileName (Re.group 1 m).
Proof.
  intros H. apply ReFacts.search_sound in H. destruct H as [before [_ Hd]].
  destruct m as [wh gr af]. unfold Re.group. simpl in *.
  unfold Pat.csvName in Hd. cbn [Re.seqs Re.lit] in Hd.
  invert_derives. simpl.
  repeat match goal with
         | H : Re.chrEq true _ _ = true |- _ => apply chrEq_lower in H
         end.
  eexists; eexists. split; [reflexivity|]. split; [assumption|]. split; [assumption|].
  simpl. repeat match goal with H : JS.lowerChar _ = _ |- _ => rewrite H; clear H end.
  reflexivity.
Qed.

(** X10: the file name [extractCSVFileName] hands to the file system is
    always a non-empty run of letters, digits and underscores followed
    by '.csv' (in any case): it never contains a path separator, so the
    file that is read is a direct member of the test-data directory. *)
Theorem csv_file_name_is_a_plain_name (step : string) :
  csvFileName (extractCSVFileName step).
Proof.
  unfold extractCSVFileName.
  destruct (Re.search Pat.csvName step) as [m|] eqn:E.
  - exact (csvName_match step m E).
  - exists "loginData"%string, ".csv"%string. repeat split. discriminate.
Qed.

Lemma urlPattern_match (step : string) (m : Re.result) :
  Re.search Pat.urlPattern step = Some m ->
  isSubstring (Re.whole m) step /\ httpUrl (Re.whole m).
Proof.
  intros H. apply ReFacts.search_sound in H. destruct H as [before [Hs Hd]].
  split; [exists before, (Re.after m); exact Hs|]. clear Hs.
  destruct m as [wh gr af]. simpl in *.
  unfold Pat.urlPattern in Hd. cbn [Re.seqs Re.lit] in Hd.
  invert_derives;
    repeat match goal with
           | H : Re.chrEq false _ _ = true |- _ => apply chrEq_exact in H; subst
           end;
    simpl; rewrite JSFacts.append_nil_r;
    eexists; (split; [|split; eassumption]); [right|left]; reflexivity.
Qed.

(** X11: a navigate step compiles to exactly one Navigate action whose
    target is either the configured application URL or a text that
    occurs in the step, starts with 'http://' or 'https://' in lower
    case and goes on with at least one character, none of them white
    space or a quote. *)
Theorem navigation_target_is_base_or_http_url
        (mcpContext : MCPContext) (step : string) (n : nat) :
  exists target,
    generateNavigationActions mcpContext step n
    = [navigateTo target (stepTag n ++ "Navigate to " ++ target)]
    /\ (target = applicationUrl mcpContext
        \/ (isSubstring target step /\ httpUrl target)).
Proof.
  unfold generateNavigationActions, extractURL. cbv zeta.
  destruct (Re.search Pat.urlPattern step) as [m|] eqn:E; simpl.
  - destruct (urlPattern_match step m E) as [Hs Hu].
    destruct (Re.whole m) as [|c u] eqn:Ew.
    + eexists. split; [reflexivity|]. left. reflexivity.
    + eexists. split; [reflexivity|]. right. split; assumption.
  - eexists. split; [reflexivity|]. left. reflexivity.
Qed.

(* ================================================================== *)
(** ** Tags of a prompt file *)
(* ================================================================== *)

Lemma existsb_eqb_In (t : string) (l : list string) :
  existsb (String.eqb t) l = true <-> In t l.
Proof.
  rewrite existsb_exists. split.
  - intros [x [Hx E]]. apply String.eqb_eq in E. subst. exact Hx.
  - intros H. exists t. split; [exact H|apply String.eqb_refl].
Qed.

Lemma distinctFrom_spec (tags : list string) : forall seen,
  NoDup (distinctFrom seen tags)
  /\ forall t, In t (distinctFrom seen tags) <-> (In t tags /\ ~ In t seen).
Proof.
  induction tags as [|x tags IH]; intros seen; simpl.
  - split; [constructor|]. intros t. tauto.
  - destruct (existsb (String.eqb x) seen) eqn:E.
    + apply existsb_eqb_In in E. destruct (IH seen) as [Hnd Hin].
      split; [exact Hnd|]. intros t. rewrite Hin. split; [tauto|].
      intros [[<- | H] Hn]; [contradiction|tauto].
    + assert (~ In x seen) as Hx.
      { intros H. apply existsb_eqb_In in H. rewrite H in E. discriminate. }
      destruct (IH (x :: seen)) as [Hnd Hin]. split.
      * constructor; [|exact Hnd]. rewrite Hin. simpl. tauto.
      * intros t. simpl. rewrite Hin. simpl. split.
        -- intros [<- | [H Hn]]; [tauto|tauto].
        -- intros [[<- | H] Hn]; [tauto|].
           destruct (string_dec x t) as [<- | Hd]; [tauto|]. right. tauto.
Qed.

Lemma explicitTags_trimmed (lines : list string) (t : string) :
  In t (explicitTags lines) -> t <> ""%string /\ JS.trim t = t.
Proof.
  induction lines as [|l lines IH]; simpl; [contradiction|].
  match goal with |- context [if ?b then _ else _] => destruct b end; [|exact IH].
  intros H. apply filter_In in H. destruct H as [H Hne].
  apply in_map_iff in H. destruct H as [x [<- _]].
  split; [|apply JSFacts.trim_idem].
  destruct (JS.trim x); [discriminate|discriminate].
Qed.

Lemma contentTags_derived (combined t : string) :
  In t (contentTags combined) -> In t derivedTags.
Proof.
  unfold contentTags, derivedTags. intros H.
  repeat (apply in_app_or in H; destruct H as [H | H]);
    match type of H with
    | In _ (if ?b then _ else _) => destruct b
    end; simpl in H; try contradiction;
    destruct H as [<- | []]; simpl; tauto.
Qed.

(** X12: the tags of a prompt file are never repeated, never empty and
    carry no surrounding white space.  They are either the tags written
    on the first line that starts with 'Tags:' (when that line names at
    least one) or tags derived from the file name and content, never a
    mixture of the two. *)
Theorem tags_are_distinct_and_from_one_source (fileName content : string) :
  let tags := extractTags fileName content in
  let explicit := explicitTags (JS.splitChar JS.LF content) in
  NoDup tags
  /\ (forall t, In t tags -> t <> ""%string /\ JS.trim t = t)
  /\ ((explicit <> [] /\ forall t, In t tags <-> In t explicit)
      \/ (explicit = [] /\ forall t, In t tags -> In t derivedTags)).
Proof.
  cbv zeta. unfold extractTags. cbv zeta.
  set (explicit := explicitTags (JS.splitChar JS.LF content)).
  set (derived := contentTags _).
  assert (forall l t, In t (distinctFrom [] l) <-> In t l) as Hin.
  { intros l t. rewrite (proj2 (distinctFrom_spec l [])). simpl. tauto. }
  split; [apply distinctFrom_spec|].
  destruct explicit as [|e es] eqn:E.
  - split.
    + intros t Ht. apply (proj1 (Hin _ _)) in Ht. apply contentTags_derived in Ht.
      unfold derivedTags in Ht. simpl in Ht.
      repeat (destruct Ht as [<- | Ht]; [split; [discriminate|reflexivity]|]).
      contradiction.
    + right. split; [reflexivity|]. intros t Ht. apply (proj1 (Hin _ _)) in Ht.
      exact (contentTags_derived _ _ Ht).
  - split.
    + intros t Ht. apply (proj1 (Hin _ _)) in Ht.
      apply (explicitTags_trimmed (JS.splitChar JS.LF content)).
      fold explicit. rewrite E. exact Ht.
    + left. split; [discriminate|]. intros t. apply Hin.
Qed.

(* ================================================================== *)
(** ** Browsers to run *)
(* ================================================================== *)

(** X13: [getBrowsersToRun] never returns an empty list and never a
    browser outside the supported ones: requested browsers that are not
    supported are dropped, the order and repetitions of the others are
    kept, and 'chromium' alone is returned when none is left or none
    was requested. *)
Theorem browsers_to_run_are_supported (options : ExecutorOptions) :
  getBrowsersToRun options <> []
  /\ Forall (fun name => In name supportedBrowsers) (getBrowsersToRun options)
  /\ (getBrowsersToRun options = ["chromium"]
      \/ exists requested,
           o_browsers options = Some requested
           /\ getBrowsersToRun options
              = filter (fun name => existsb (String.eqb name) supportedBrowsers) requested).
Proof.
  unfold getBrowsersToRun.
  assert (Forall (fun name => In name supportedBrowsers) ["chromium"]) as Hc
      by (repeat constructor).
  destruct (o_browsers options) as [[|b bs]|];
    try (split; [discriminate|split; [exact Hc|left; reflexivity]]).
  destruct (filter _ (b :: bs)) as [|v vs] eqn:E;
    [split; [discriminate|split; [exact Hc|left; reflexivity]]|].
  split; [discriminate|]. split.
  - rewrite <- E. apply Forall_forall. intros x Hx.
    apply filter_In in Hx. destruct Hx as [_ Hx].
    apply existsb_eqb_In in Hx. exact Hx.
  - right. exists (b :: bs). split; [reflexivity|]. symmetry. exact E.
Qed.

(* ================================================================== *)
(** ** Per-browser statistics *)
(* ================================================================== *)






(* ================================================================== *)
(** ** Flattened element selectors *)
(* ================================================================== *)

Lemma assigned_In {V : Type} (object : list (string * V)) (key : string) (v : V) :
  assigned object key = Some v -> In (key, v) object.
Proof.
  induction object as [|[k x] object IH]; simpl; [discriminate|].
  destruct (assigned object key) as [later|].
  - intros H. right. apply IH. exact H.
  - destruct (String.eqb k key) eqn:E; [|discriminate].
    apply String.eqb_eq in E. subst. intros H. injection H as <-. left. reflexivity.
Qed.

Lemma assigned_defined {V : Type} (object : list (string * V)) (key : string) (v : V) :
  In (key, v) object -> exists x, assigned object key = Some x.
Proof.
  induction object as [|[k x] object IH]; simpl; [contradiction|].
  intros [H | H].
  - injection H as -> ->. destruct (assigned object key) as [later|]; [eauto|].
    rewrite String.eqb_refl. eauto.
  - destruct (IH H) as [y ->]. eauto.
Qed.

(** X15: [flattenElementSelectors] defines, for every element of every
    module, the key 'module_element' and the bare key 'element', each
    of them unless it is the name '__proto__', under which an
    assignment defines nothing; and whatever a key that is no property
    of Object.prototype reads is the selector of an element of the
    configuration whose prefixed or bare name is that key. *)
Theorem flattened_selectors_cover_both_names
        (elements : list (string * list (string * string))) :
  (forall m es e sel, In (m, es) elements -> In (e, sel) es ->
      ((m ++ "_" ++ e)%string <> "__proto__"%string ->
       exists x, assigned (flattenElementSelectors elements) (m ++ "_" ++ e) = Some x)
      /\ (e <> "__proto__"%string ->
          exists x, assigned (flattenElementSelectors elements) e = Some x))
  /\ (forall key sel,
         ~ In key inheritedNames ->
         assigned (flattenElementSelectors elements) key = Some sel ->
         exists m es e, In (m, es) elements /\ In (e, sel) es
                        /\ (key = (m ++ "_" ++ e)%string \/ key = e)).
Proof.
  split.
  - intros m es e sel Hm He.
    assert (forall key, In (key, sel) [((m ++ "_" ++ e)%string, sel); (e, sel)] ->
                        exists x, assigned (flattenElementSelectors elements) key = Some x)
      as H.
    { intros key Hk. apply (assigned_defined _ key sel).
      unfold flattenElementSelectors. apply in_flat_map. exists (m, es).
      split; [exact Hm|]. apply in_flat_map. exists (e, sel). split; [exact He|exact Hk]. }
    split; intros _; apply H; simpl; auto.
  - intros key sel _ H. apply assigned_In in H. unfold flattenElementSelectors in H.
    apply in_flat_map in H. destruct H as [[m es] [Hm H]].
    apply in_flat_map in H. destruct H as [[e x] [He H]]. simpl in H.
    exists m, es, e.
    destruct H as [H | [H | []]]; injection H as <- <-; auto.
Qed.

Lemma flattened_selectors_cover_both_names_witness :
  (exists x, assigned (flattenElementSelectors loginElements) "login_submit" = Some x)
  /\ (exists x, assigned (flattenElementSelectors loginElements) "submit" = Some x).
Proof.
  destruct (proj1 (flattened_selectors_cover_both_names loginElements)
                  "login"%string [("submit"%string, "#go"%string)]
                  "submit"%string "#go"%string) as [Hp Hb].
  - left. reflexivity.
  - left. reflexivity.
  - split; [apply Hp|apply Hb]; discriminate.
Defined.

(* ================================================================== *)
(** ** Command-line arguments *)
(* ================================================================== *)

Lemma splitChar_free (sep : ascii) (s : string) :
  Forall (fun piece => freeOf sep piece = true) (JS.splitChar sep s).
Proof.
  induction s as [|c s IH]; simpl.
  - repeat constructor.
  - destruct (Ascii.eqb c sep) eqn:E.
    + constructor; [reflexivity|exact IH].
    + destruct (JS.splitChar sep s) as [|p ps].
      * constructor; [|constructor]. unfold freeOf. simpl. rewrite E. reflexivity.
      * inversion IH as [|? ? Hp Hps]; subst.
        constructor; [|exact Hps]. unfold freeOf in *. simpl. rewrite E. exact Hp.
Qed.

Lemma splitChar_nonempty (sep : ascii) (s : string) : JS.splitChar sep s <> [].
Proof.
  destruct s as [|c s]; simpl; [discriminate|].
  destruct (Ascii.eqb c sep); [discriminate|].
  destruct (JS.splitChar sep s); discriminate.
Qed.

Lemma splitChar_whole (sep : ascii) (s : string) :
  freeOf sep s = true -> JS.splitChar sep s = [s].
Proof.
  unfold freeOf. induction s as [|c s IH]; simpl; [reflexivity|].
  intros H. apply andb_true_iff in H. destruct H as [Hc Hs].
  apply negb_true_iff in Hc. rewrite Hc, (IH Hs). reflexivity.
Qed.

Lemma splitChar_at (sep : ascii) (a b : string) :
  freeOf sep a = true ->
  JS.splitChar sep (a ++ String sep b) = a :: JS.splitChar sep b.
Proof.
  unfold freeOf. induction a as [|c a IH]; simpl.
  - intros _. rewrite Ascii.eqb_refl. reflexivity.
  - intros H. apply andb_true_iff in H. destruct H as [Hc Ha].
    apply negb_true_iff in Hc. rewrite Hc, (IH Ha). reflexivity.
Qed.

Lemma afterEquals_free (arg v : string) :
  afterEquals arg = Some v -> freeOf "=" v = true.
Proof.
  unfold afterEquals. intros H. apply nth_error_In in H.
  exact (proj1 (Forall_forall _ _) (splitChar_free "=" arg) v H).
Qed.

Lemma freeOf_piece (sep c : ascii) (s piece : string) :
  freeOf c s = true -> In piece (JS.splitChar sep s) -> freeOf c piece = true.
Proof.
  unfold freeOf. revert piece. induction s as [|d s IH]; simpl; intros piece H Hin.
  - destruct Hin as [<- | []]. reflexivity.
  - apply andb_true_iff in H. destruct H as [Hd Hs].
    destruct (Ascii.eqb d sep).
    + destruct Hin as [<- | Hin]; [reflexivity|]. exact (IH piece Hs Hin).
    + destruct (JS.splitChar sep s) as [|p ps] eqn:E.
      * destruct Hin as [<- | []]. simpl. rewrite Hd. reflexivity.
      * destruct Hin as [<- | Hin].
        -- simpl. rewrite Hd. apply (IH p Hs). left. reflexivity.
        -- apply (IH piece Hs). right. exact Hin.
Qed.

Lemma parseArgument_plain (o : CLIOptions) (arg : string) :
  plainValues o -> plainValues (parseArgument o arg).
Proof.
  intros [Ha [Hf [Hs Hb]]]. unfold parseArgument.
  repeat match goal with
         | |- context [if ?b then _ else _] => destruct b
         end;
    (split; [|split; [|split]]); simpl;
    try assumption; try (intros v; apply afterEquals_free).
  intros names H. destruct (afterEquals arg) as [v|] eqn:E; [|discriminate].
  injection H as <-. split; [apply splitChar_nonempty|].
  intros name Hin. split.
  - apply (freeOf_piece "," "=" v name); [exact (afterEquals_free arg v E)|exact Hin].
  - exact (proj1 (Forall_forall _ _) (splitChar_free "," v) name Hin).
Qed.

Lemma parseArguments_plain (args : list string) : plainValues (parseArguments args).
Proof.
  unfold parseArguments.
  assert (plainValues noOptions) as H0 by (repeat split; simpl in *; discriminate).
  revert H0. generalize noOptions. induction args as [|arg args IH]; intros o Ho; simpl.
  - exact Ho.
  - apply IH, parseArgument_plain, Ho.
Qed.

(** X16: whatever the command line is, no value [parseArguments] gives
    to --app, --file or --suite holds the character '=' (the text after
    a second '=' is cut off), and the list of --browsers is never empty
    and its names hold neither '=' nor ','. *)
Theorem option_values_hold_no_equals_sign (args : list string) :
  plainValues (parseArguments args).
Proof. exact (parseArguments_plain args). Qed.

Lemma parseArgument_file (o : CLIOptions) (arg : string) :
  JS.startsWith arg "--app=" = false -> JS.startsWith arg "--file=" = true ->
  cli_file (parseArgument o arg) = afterEquals arg.
Proof. intros Ha Hf. unfold parseArgument. rewrite Ha, Hf. reflexivity. Qed.

(** X17: the last --file= argument wins, and its value is read up to
    the next '=': for a value [v] without '=', both '--file=v' and
    '--file=v=rest' set the file to [v], whatever came before. *)
Theorem last_file_argument_wins (args : list string) (v rest : string) :
  freeOf "=" v = true ->
  cli_file (parseArguments (args ++ ["--file=" ++ v]%string)) = Some v
  /\ cli_file (parseArguments (args ++ ["--file=" ++ v ++ "=" ++ rest]%string)) = Some v.
Proof.
  intros Hv. unfold parseArguments. rewrite !fold_left_app. cbn [fold_left].
  rewrite !parseArgument_file by reflexivity.
  unfold afterEquals. split.
  - change ("--file=" ++ v)%string with ("--file" ++ String "=" v)%string.
    rewrite splitChar_at by reflexivity. rewrite (splitChar_whole "=" v Hv). reflexivity.
  - change ("--file=" ++ v ++ "=" ++ rest)%string
      with ("--file" ++ String "=" (v ++ String "=" rest))%string.
    rewrite splitChar_at by reflexivity. rewrite (splitChar_at "=" v rest Hv). reflexivity.
Qed.

Lemma last_file_argument_wins_witness :
  cli_file (parseArguments ["--file=a.txt"; "--headed"; "--file=login.txt"]%string)
  = Some "login.txt"%string.
Proof.
  assert (freeOf "=" "login.txt" = true) as H by reflexivity.
  exact (proj1 (last_file_argument_wins ["--file=a.txt"; "--headed"]%string
                                        "login.txt" "" H)).
Defined.

(* ================================================================== *)
(** ** Execution of a compiled sequence *)
(* ================================================================== *)

Section ExecutionFacts.

Variable World : Type.
Variable Thrown : Type.
Variable message : Thrown -> option string.
Variable thrownText : Thrown -> string.
Variable dateNow : World -> Z * World.
Variable executeBrowserAction : MCPAction -> World -> (string + Thrown) * World.

Local Abbreviation loop := (runActions message dateNow executeBrowserAction).

Lemma passed_counts (l : list StepResult) :
  forallb isPassed l = true ->
  List.length (filter isPassed l) = List.length l
  /\ List.length (filter isFailed l) = 0.
Proof.
  induction l as [|s l IH]; simpl; [auto|].
  intros H. apply andb_true_iff in H. destruct H as [Hs Hl].
  destruct (IH Hl) as [Hp Hf]. rewrite Hs. unfold isPassed in Hs. unfold isFailed at 1.
  destruct (status s); [|discriminate]. simpl. auto.
Qed.

(** What the loop has recorded when it ends. *)
Lemma runActions_records (actions : list MCPAction) :
  forall i w recorded executionLog,
  exists more,
    l_steps (loop i actions w recorded executionLog) = recorded ++ more
    /\ map stepNumber more = seq (i + 1) (List.length more)
    /\ map s_description more = map description (firstn (List.length more) actions)
    /\ match l_thrown (loop i actions w recorded executionLog) with
       | None => List.length more = List.length actions
                 /\ forallb isPassed more = true
       | Some _ => exists done bad,
                     more = done ++ [bad] /\ forallb isPassed done = true
                     /\ status bad = failed
                     /\ List.length more <= List.length actions
       end.
Proof.
  induction actions as [|a rest IH]; intros i w recorded executionLog.
  - exists []. simpl. rewrite app_nil_r. auto.
  - simpl. destruct (dateNow w) as [t0 w1].
    destruct (executeBrowserAction a w1) as [[text | thrown] w2];
      destruct (dateNow w2) as [t1 w3].
    + match goal with
      | |- context [runActions _ _ _ (S i) rest w3 (recorded ++ [?s]) ?log] =>
          destruct (IH (S i) w3 (recorded ++ [s]) log) as [more [Hs [Hn [Hd Ht]]]];
          exists (s :: more)
      end.
      rewrite Hs, <- app_assoc. split; [reflexivity|].
      split; [simpl; rewrite Hn; reflexivity|].
      split; [simpl; rewrite Hd; reflexivity|].
      destruct (l_thrown _).
      * destruct Ht as [done [bad [-> [Hp [Hb Hl]]]]].
        eexists (_ :: done), bad. simpl. rewrite Hp.
        split; [reflexivity|]. split; [reflexivity|]. split; [exact Hb|]. simpl in Hl. lia.
      * destruct Ht as [Hl Hp]. simpl. rewrite Hl, Hp. auto.
    + eexists [_]. simpl. split; [reflexivity|]. split; [reflexivity|].
      split; [reflexivity|]. eexists [], _. simpl.
      split; [reflexivity|]. split; [reflexivity|]. split; [reflexivity|]. lia.
Qed.

(** X18: the loop of [executePromptDirectly] stops at the first action
    that throws.  Running a sequence followed by another is running the
    first and, only when none of its actions threw, going on with the
    second from where the first ended; after a failure the actions that
    follow are not executed and leave no record. *)
Theorem execution_stops_at_first_failure (before after : list MCPAction) :
  forall i w recorded executionLog,
    loop i (before ++ after) w recorded executionLog
    = let first := loop i before w recorded executionLog in
      match l_thrown first with
      | Some _ => first
      | None => loop (i + List.length before) after (l_world first) (l_steps first)
                     (l_executionLog first)
      end.
Proof.
  induction before as [|a rest IH]; intros i w recorded executionLog.
  - simpl. rewrite Nat.add_0_r. reflexivity.
  - simpl. destruct (dateNow w) as [t0 w1].
    destruct (executeBrowserAction a w1) as [[text | thrown] w2];
      destruct (dateNow w2) as [t1 w3].
    + rewrite IH. cbv zeta. replace (S i + List.length rest) with (i + S (List.length rest)) by lia.
      reflexivity.
    + reflexivity.
Qed.

Variable mcpContext : MCPContext.
Variable fs : FileSystem.
Variable stack : nat.

(** X19: the result [executePromptDirectly] reports is consistent with
    what it recorded.  The recorded steps are numbered 1, 2, ... and
    describe the compiled actions in order; the total is the number of
    recorded steps and equals passed plus failed.  On success every
    compiled action is recorded as passed and there is no error; on
    failure exactly one step failed, it is the last one recorded, every
    step before it passed and the result carries an error text. *)
Theorem result_counts_match_recorded_steps
        (prompt : PromptData) (browserType : string) (w : World) :
  let result := fst (executePromptDirectly message thrownText dateNow executeBrowserAction
                                           mcpContext fs stack prompt browserType w) in
  let actions := parsePromptToActions mcpContext fs stack prompt in
  exists recorded passedCount failedCount,
    steps result = Some recorded
    /\ passedSteps result = Some passedCount
    /\ failedSteps result = Some failedCount
    /\ totalSteps result = Some (List.length recorded)
    /\ passedCount + failedCount = List.length recorded
    /\ map stepNumber recorded = seq 1 (List.length recorded)
    /\ map s_description recorded = map description (firstn (List.length recorded) actions)
    /\ (success result = true ->
        List.length recorded = List.length actions /\ failedCount = 0
        /\ forallb isPassed recorded = true /\ r_error result = None)
    /\ (success result = false ->
        failedCount = 1 /\ List.length recorded <= List.length actions
        /\ r_error result <> None
        /\ exists done bad, recorded = done ++ [bad]
                            /\ forallb isPassed done = true /\ status bad = failed).
Proof.
  cbv zeta. unfold executePromptDirectly.
  destruct (dateNow w) as [startTime w0]. cbv zeta.
  set (actions := parsePromptToActions mcpContext fs stack prompt).
  destruct (runActions_records actions 0 w0 [] "") as [more [Hs [Hn [Hd Ht]]]].
  simpl in Hs. rewrite Hs. clear Hs.
  destruct (dateNow (l_world _)) as [endTime w'].
  destruct (l_thrown _) as [thrown|]; simpl.
  - destruct Ht as [done [bad [-> [Hp [Hb Hl]]]]].
    destruct (passed_counts done Hp) as [Cp Cf].
    exists (done ++ [bad]), (List.length done), 1.
    rewrite !filter_app, !length_app, Cp, Cf. simpl.
    unfold isPassed at 1, isFailed at 1. rewrite Hb. simpl.
    rewrite Nat.add_0_r. rewrite length_app in Hn, Hd, Hl. simpl in Hn, Hd, Hl.
    repeat (split; [first [reflexivity | assumption]|]).
    split; [discriminate|]. intros _.
    split; [reflexivity|]. split; [exact Hl|]. split; [discriminate|].
    exists done, bad. auto.
  - destruct Ht as [Hl Hp].
    destruct (passed_counts more Hp) as [Cp Cf].
    exists more, (List.length more), 0. rewrite Cp, Cf, Hl, Nat.add_0_r.
    rewrite Hl in Hn, Hd.
    repeat (split; [first [reflexivity | assumption]|]).
    split; [|discriminate]. intros _. auto.
Qed.

End ExecutionFacts.

(* ================================================================== *)
(** ** Values read from a step *)
(* ================================================================== *)

Module ValueFacts.
Import JS JSFacts SubFacts.

Lemma lit_captures (ci : bool) (label : string) :
  forall w caps, derives (Re.lit ci label) w caps -> caps = [].
Proof.
  induction label as [|c label IH]; simpl; intros w caps H.
  - inversion H. reflexivity.
  - inversion H as [ | | | | | | | | | r1 r2 w1 w2 c1 c2 H1 H2 |]; subst.
    inversion H1; subst. rewrite (IH _ _ H2). reflexivity.
Qed.

Lemma isSubstring_inner (a s b : string) : isSubstring s (a ++ s ++ b).
Proof. exists a, b. reflexivity. Qed.

Lemma isSubstring_tail (q a s : string) : isSubstring q s -> isSubstring q (a ++ s).
Proof. intros H. exact (isSubstring_trans _ _ _ H (isSubstring_suffix a s)). Qed.

Lemma quotedField_match (label step : string) (m : Re.result) :
  Re.search (Pat.quotedField label) step = Some m -> quotedIn step (Re.group 1 m).
Proof.
  intros H. apply ReFacts.search_sound in H. destruct H as [before [Hs Hd]].
  assert (isSubstring (Re.whole m) step) as Hw by (rewrite Hs; apply isSubstring_inner).
  clear Hs. destruct m as [wh gr af]. unfold Re.group. simpl in *.
  unfold Pat.quotedField in Hd. cbn [Re.seqs] in Hd.
  inversion Hd as [ | | | | | | | | | r1 r2 w1 w2 c1 c2 Hl Hrest |]; subst; clear Hd.
  apply lit_captures in Hl. subst c1.
  invert_derives.
  repeat match goal with
         | H : Re.chrEq false _ _ = true |- _ => apply chrEq_exact in H; subst
         end.
  simpl. split; [assumption|]. split; [assumption|].
  refine (isSubstring_trans _ _ _ _ Hw).
  apply isSubstring_tail, isSubstring_tail, isSubstring_refl.
Qed.

Lemma valueOf_match (field content : string) (m : Re.result) :
  Re.search (Pat.valueOf field) content = Some m -> quotedIn content (Re.group 1 m).
Proof.
  intros H. apply ReFacts.search_sound in H. destruct H as [before [Hs Hd]].
  assert (isSubstring (Re.whole m) content) as Hw by (rewrite Hs; apply isSubstring_inner).
  clear Hs. destruct m as [wh gr af]. unfold Re.group. simpl in *.
  unfold Pat.valueOf in Hd. cbn [Re.seqs] in Hd.
  inversion Hd as [ | | | | | | | | | r1 r2 w1 w2 c1 c2 Hl Hrest |]; subst; clear Hd.
  apply lit_captures in Hl. subst c1.
  invert_derives;
    repeat match goal with
           | H : Re.chrEq false _ _ = true |- _ => apply chrEq_exact in H; subst
           end;
    simpl; (split; [assumption|]); (split; [assumption|]);
    refine (isSubstring_trans _ _ _ _ Hw);
    repeat first [apply isSubstring_refl | apply isSubstring_tail].
Qed.

Lemma credential_match (label step : string) (m : Re.result) :
  Re.search (Pat.credential label) step = Some m -> bareIn step (Re.group 1 m).
Proof.
  intros H. apply ReFacts.search_sound in H. destruct H as [before [Hs Hd]].
  assert (isSubstring (Re.whole m) step) as Hw by (rewrite Hs; apply isSubstring_inner).
  clear Hs. destruct m as [wh gr af]. unfold Re.group. simpl in *.
  unfold Pat.credential in Hd. cbn [Re.seqs] in Hd.
  inversion Hd as [ | | | | | | | | | r1 r2 w1 w2 c1 c2 Hl Hrest |]; subst; clear Hd.
  apply lit_captures in Hl. subst c1.
  invert_derives;
    simpl; (split; [assumption|]); (split; [assumption|]);
    refine (isSubstring_trans _ _ _ _ Hw);
    apply isSubstring_tail, isSubstring_tail;
    repeat first [apply isSubstring_prefix | apply isSubstring_tail].
Qed.

(** A text that occurs in a lower-case text is in lower case. *)
Lemma lower_inside (v s : string) :
  isSubstring v (toLowerCase s) -> toLowerCase v = v.
Proof.
  intros [a [b E]].
  assert (forall x y, toLowerCase (x ++ y) = (x ++ y)%string -> toLowerCase y = y) as Hr.
  { induction x as [|c x IH]; simpl; intros y H; [exact H|].
    injection H as _ H. exact (IH y H). }
  assert (forall x y, toLowerCase (x ++ y) = (x ++ y)%string -> toLowerCase x = x) as Hl.
  { induction x as [|c x IH]; simpl; intros y H; [reflexivity|].
    injection H as Hc H. rewrite Hc, (IH y H). reflexivity. }
  apply (Hl v b), (Hr a). rewrite <- E. apply toLowerCase_idem.
Qed.

End ValueFacts.

(** X20: a fill step types only what the step gives between double
    quotes.  [generateFormActions] emits at most three Fill actions,
    for first name, last name and email in this order; each value is
    not empty, holds no double quote and stands between two double
    quotes in the step. *)
Theorem form_step_fills_quoted_texts (step : string) (n : nat) :
  List.length (generateFormActions step n) <= 3
  /\ forall a, In a (generateFormActions step n) ->
       type a = Fill
       /\ exists label v,
            In label formLabels
            /\ element a = Some (label ++ " input field")%string
            /\ value a = Some v /\ quotedIn step v.
Proof.
  unfold generateFormActions, extractFormFields, formField.
  destruct (Re.search (Pat.quotedField "first name") step) as [m1|] eqn:E1;
    destruct (Re.search (Pat.quotedField "last name") step) as [m2|] eqn:E2;
    destruct (Re.search (Pat.quotedField "email") step) as [m3|] eqn:E3;
    (split; [simpl; lia|]); intros a Ha; simpl in Ha;
    repeat match goal with
           | H : _ \/ _ |- _ => destruct H as [H | H]
           | H : False |- _ => destruct H
           end;
    subst a; (split; [reflexivity|]);
    [> first
       [ exists "first name"%string, (Re.group 1 m1);
         split; [simpl; tauto|]; split; [reflexivity|]; split; [reflexivity|];
         exact (ValueFacts.quotedField_match _ _ _ E1)
       | exists "last name"%string, (Re.group 1 m2);
         split; [simpl; tauto|]; split; [reflexivity|]; split; [reflexivity|];
         exact (ValueFacts.quotedField_match _ _ _ E2)
       | exists "email"%string, (Re.group 1 m3);
         split; [simpl; tauto|]; split; [reflexivity|]; split; [reflexivity|];
         exact (ValueFacts.quotedField_match _ _ _ E3) ] ..].
Qed.

(** X21: a login step types what the step gives after 'username' and
    'password', and the configured credentials otherwise.  It always
    compiles to Fill username, Fill password, Click login button and
    Wait 3000; the user name is either the configured one or a
    non-empty text of the step without white space and double quotes,
    and so is the password. *)
Theorem login_step_types_written_or_configured_credentials
        (mcpContext : MCPContext) (step : string) (n : nat) :
  exists name secret,
    generateLoginActions mcpContext step n
    = [fillIn "username input field" name (stepTag n ++ "Enter username");
       fillIn "password input field" secret (stepTag n ++ "Enter password");
       clickOn "login button" (stepTag n ++ "Click login button");
       waitFor 3000 (stepTag n ++ "Wait for login to complete")]
    /\ (name = username (userCredentials mcpContext) \/ bareIn step name)
    /\ (secret = password (userCredentials mcpContext) \/ bareIn step secret).
Proof.
  unfold generateLoginActions, extractCredentials. cbv zeta. cbn [c_username c_password].
  eexists; eexists. split; [reflexivity|].
  split.
  - destruct (Re.search (Pat.credential "username") step) as [m|] eqn:E;
      [|left; reflexivity].
    pose proof (ValueFacts.credential_match _ _ _ E) as H. simpl.
    unfold JS.orU, JS.truthy. destruct (Re.group 1 m) eqn:G; [left; reflexivity|].
    right. exact H.
  - destruct (Re.search (Pat.credential "password") step) as [m|] eqn:E;
      [|left; reflexivity].
    pose proof (ValueFacts.credential_match _ _ _ E) as H. simpl.
    unfold JS.orU, JS.truthy. destruct (Re.group 1 m) eqn:G; [left; reflexivity|].
    right. exact H.
Qed.

(* ================================================================== *)
(** ** Steps that parse to nothing *)
(* ================================================================== *)

Lemma no_navigate_no_login (step : string) :
  intentOf step <> navigate -> intentOf step <> login ->
  JS.includes (JS.toLowerCase step) "navigate" = false
  /\ JS.includes (JS.toLowerCase step) "login" = false.
Proof.
  unfold intentOf, analyzeStepContext.
  destruct (matchesIntent _ ["navigate"; "open"; "go to"; "visit"]) eqn:E1;
    [intros H; exfalso; apply H; reflexivity|].
  destruct (matchesIntent _ ["login"; "sign in"; "authenticate"; "enter credentials"]) eqn:E2;
    [intros _ H; exfalso; apply H; reflexivity|].
  intros _ _. unfold matchesIntent in E1, E2. cbn [existsb] in E1, E2.
  apply orb_false_elim in E1. destruct E1 as [E1 _].
  apply orb_false_elim in E2. destruct E2 as [E2 _].
  split.
  - destruct (JS.includes (JS.toLowerCase step) "navigate") eqn:F; [|reflexivity].
    apply KeywordFacts.includes_trim in F; [|reflexivity].
    rewrite F in E1. discriminate.
  - destruct (JS.includes (JS.toLowerCase step) "login") eqn:F; [|reflexivity].
    apply KeywordFacts.includes_trim in F; [|reflexivity].
    rewrite F in E2. discriminate.
Qed.

(** X22: when the step parser returns no action at all, the step
    compiles to the single default Wait of one second.  The other two
    branches of [fallbackBasicParser] cannot be taken then: a step with
    'navigate' or 'login' in it is classified navigate or login, and
    those generators always return actions. *)
Theorem empty_parse_falls_back_to_default_wait
        (mcpContext : MCPContext) (fs : FileSystem) (stack : nat)
        (step : string) (n : nat) :
  intelligentStepParser mcpContext fs stack step n = Some [] ->
  parseSimpleStep mcpContext fs stack step n
  = [waitFor 1000 (stepTag n ++ "Default wait action")].
Proof.
  intros H. unfold parseSimpleStep. rewrite H. cbn [List.length Nat.ltb Nat.leb].
  destruct stack as [|stack]; [discriminate|].
  rewrite parser_unfold in H.
  destruct (no_navigate_no_login step) as [Hn Hl].
  - intros E. rewrite E in H. unfold generateNavigationActions in H. cbv zeta in H.
    discriminate.
  - intros E. rewrite E in H. unfold generateLoginActions in H. cbv zeta in H.
    discriminate.
  - unfold fallbackBasicParser. cbv zeta. rewrite Hn, Hl. reflexivity.
Qed.

Lemma empty_parse_falls_back_to_default_wait_witness :
  parseSimpleStep demoContext noFiles 5 "enter the user name" 3
  = [waitFor 1000 (stepTag 3 ++ "Default wait action")].
Proof.
  apply (empty_parse_falls_back_to_default_wait demoContext noFiles 5
           "enter the user name" 3).
  vm_compute. reflexivity.
Defined.

(* ================================================================== *)
(** ** The timeout of a wait step *)
(* ================================================================== *)

Lemma timeout_match (step : string) (m : Re.result) :
  Re.search Pat.timeoutPattern step = Some m ->
  Re.group 1 m <> ""%string
  /\ allChars JS.isDigit (Re.group 1 m) = true
  /\ isSubstring (Re.group 1 m) step
  /\ JS.includes (JS.toLowerCase step) "s" = true.
Proof.
  intros H. apply ReFacts.search_sound in H. destruct H as [before [Hs Hd]].
  assert (isSubstring (Re.whole m) step) as Hw
      by (rewrite Hs; apply ValueFacts.isSubstring_inner).
  clear Hs. destruct m as [wh gr af]. unfold Re.group. simpl in *.
  unfold Pat.timeoutPattern in Hd. cbn [Re.seqs Re.lit] in Hd.
  invert_derives;
    repeat match goal with
           | H : Re.chrEq true _ _ = true |- _ => apply chrEq_lower in H
           end;
    simpl; (split; [assumption|]); (split; [assumption|]);
    (split; [exact (SubFacts.isSubstring_trans _ _ _ (SubFacts.isSubstring_prefix _ _) Hw)|]);
    apply SubFacts.isSubstring_lower in Hw;
    rewrite !SubFacts.toLowerCase_app in Hw; simpl in Hw;
    repeat match goal with H : JS.lowerChar _ = _ |- _ => rewrite H in Hw; clear H end;
    apply SubFacts.includes_iff;
    refine (SubFacts.isSubstring_trans _ _ _ _ Hw);
    apply ValueFacts.isSubstring_tail, ValueFacts.isSubstring_tail;
    apply SubFacts.includes_iff; reflexivity.
Qed.

Lemma timeout_found (before digits spaces unit rest : string) :
  digits <> ""%string -> allChars JS.isDigit digits = true ->
  allChars JS.isSpace spaces = true ->
  In unit ["ms"; "milliseconds"; "s"; "seconds"]%string ->
  Re.search Pat.timeoutPattern (before ++ digits ++ spaces ++ unit ++ rest) <> None.
Proof.
  intros Hn Hd Hs Hu. apply ReFacts.search_complete.
  destruct digits as [|d digits]; [contradiction|].
  simpl in Hd. apply andb_true_iff in Hd. destruct Hd as [Hd0 Hd].
  unfold Re.matchStart, Pat.timeoutPattern. cbn [Re.seqs Re.run append].
  rewrite Hd0. apply ReFacts.star_complete; [exact Hd|].
  apply ReFacts.star_complete; [exact Hs|].
  simpl in Hu.
  destruct Hu as [<- | [<- | [<- | [<- | []]]]]; vm_compute; discriminate.
Qed.

(** X23: the unit [extractTimeout] applies, for a step written in
    lower case.  When no number followed by a unit is found the timeout
    is the default 2000.  When one is found, and a number followed by
    optional white space and one of the units ms, milliseconds, s,
    seconds is always found, the timeout of a number of at most twelve
    digits is the number itself when the two letters 'ms' occur
    anywhere in the step and the number times 1000 when they do not:
    the unit that was written plays no role, and 'milliseconds' counts
    as seconds. *)
Theorem timeout_is_seconds_unless_ms_occurs (step : string) :
  JS.toLowerCase step = step ->
  (Re.search Pat.timeoutPattern step = None -> extractTimeout step = 2000%N)
  /\ (forall m, Re.search Pat.timeoutPattern step = Some m ->
        Re.group 1 m <> ""%string
        /\ allChars JS.isDigit (Re.group 1 m) = true
        /\ isSubstring (Re.group 1 m) step
        /\ (String.length (Re.group 1 m) <= 12 ->
            extractTimeout step
            = if JS.includes step "ms" then JS.parseInt (Re.group 1 m)
              else (JS.parseInt (Re.group 1 m) * 1000)%N))
  /\ (forall before digits spaces unit rest,
        step = (before ++ digits ++ spaces ++ unit ++ rest)%string ->
        digits <> ""%string -> allChars JS.isDigit digits = true ->
        allChars JS.isSpace spaces = true ->
        In unit ["ms"; "milliseconds"; "s"; "seconds"]%string ->
        exists m, Re.search Pat.timeoutPattern step = Some m).
Proof.
  intros Hl. split; [|split].
  - intros E. unfold extractTimeout. rewrite E. reflexivity.
  - intros m E. destruct (timeout_match step m E) as [Hn [Hd [Hs Hi]]].
    rewrite Hl in Hi.
    split; [exact Hn|]. split; [exact Hd|]. split; [exact Hs|].
    intros _. unfold extractTimeout. rewrite E. cbv zeta. rewrite Hi.
    destruct (JS.includes step "ms"); reflexivity.
  - intros before digits spaces unit rest -> Hn Hd Hs Hu.
    pose proof (timeout_found before digits spaces unit rest Hn Hd Hs Hu) as H.
    destruct (Re.search Pat.timeoutPattern _) as [m|]; [exists m; reflexivity|].
    contradiction.
Qed.

Lemma timeout_is_seconds_unless_ms_occurs_witness :
  extractTimeout "wait 500 milliseconds" = 500000%N.
Proof.
  assert (JS.toLowerCase "wait 500 milliseconds" = "wait 500 milliseconds"%string) as Hl
      by (vm_compute; reflexivity).
  destruct (timeout_is_seconds_unless_ms_occurs "wait 500 milliseconds" Hl)
    as [_ [Hm Hf]].
  destruct (Hf "wait "%string "500"%string " "%string "milliseconds"%string ""%string)
    as [m E];
    [reflexivity|discriminate|reflexivity|reflexivity|simpl; tauto|].
  destruct (Hm m E) as [_ [_ [_ Hv]]].
  assert (Re.search Pat.timeoutPattern "wait 500 milliseconds"
          = Some {| Re.whole := "500 milliseconds"; Re.groups := ["500"%string];
                    Re.after := "" |}) as E' by (vm_compute; reflexivity).
  rewrite E' in E. injection E as <-.
  rewrite Hv; [vm_compute; reflexivity|vm_compute; lia].
Defined.

Example milliseconds_count_as_seconds :
  extractTimeout "wait 500 milliseconds" = 500000%N
  /\ extractTimeout "wait 500 ms" = 500%N.
Proof. split; vm_compute; reflexivity. Qed.

(* ================================================================== *)
(** ** The pattern path *)
(* ================================================================== *)

Lemma pattern_path_actions (mcpContext : MCPContext) (fs : FileSystem) (stack : nat)
      (prompt : PromptData) (a : MCPAction) :
  isDataDrivenTest (JS.toLowerCase (content prompt)) = false ->
  isStepByStepPrompt (JS.toLowerCase (content prompt)) = false ->
  In a (parsePromptToActions mcpContext fs stack prompt) ->
  a = navigateTo (applicationUrl mcpContext) "Navigate to application (default action)"
  \/ In a (patternActions mcpContext (JS.toLowerCase (content prompt))).
Proof.
  intros Hd Hs. unfold parsePromptToActions. cbv zeta. rewrite Hd, Hs.
  destruct (patternActions mcpContext (JS.toLowerCase (content prompt))) as [|x l].
  - intros [<- | []]. left. reflexivity.
  - intros H. right. exact H.
Qed.

Lemma extractValue_lower (content field defaultValue : string) :
  extractValue (JS.toLowerCase content) field defaultValue = defaultValue
  \/ (quotedIn (JS.toLowerCase content)
               (extractValue (JS.toLowerCase content) field defaultValue)
      /\ JS.toLowerCase (extractValue (JS.toLowerCase content) field defaultValue)
         = extractValue (JS.toLowerCase content) field defaultValue).
Proof.
  unfold extractValue.
  destruct (Re.search (Pat.valueOf field) (JS.toLowerCase content)) as [m|] eqn:E;
    [|left; reflexivity].
  right. pose proof (ValueFacts.valueOf_match _ _ _ E) as H. split; [exact H|].
  destruct H as [_ [_ H]]. apply (ValueFacts.lower_inside _ content).
  refine (SubFacts.isSubstring_trans _ _ _ _ H).
  exists (String Pat.DQ ""), (String Pat.DQ ""). reflexivity.
Qed.

Lemma lit_self {A : Type} (ci : bool) (label rest : string) (caps : list string)
      (k : string -> list string -> option A) :
  Re.run (Re.lit ci label) (label ++ rest) caps k = k rest caps.
Proof.
  induction label as [|c label IH]; simpl; [reflexivity|].
  assert (Re.chrEq ci c c = true) as ->
      by (unfold Re.chrEq; destruct ci; apply Ascii.eqb_refl).
  exact IH.
Qed.

(** A quoted text after the label and white space is found. *)
Lemma value_found (label before spaces w rest : string) :
  spaces <> ""%string -> allChars JS.isSpace spaces = true ->
  w <> ""%string -> quoteFree w = true ->
  Re.search (Pat.valueOf label) (before ++ (label ++ spaces ++ quoted w) ++ rest) <> None.
Proof.
  intros Hsn Hs Hwn Hw. apply ReFacts.search_complete.
  unfold quoted.
  replace ((label ++ spaces ++ String Pat.DQ (w ++ String Pat.DQ "")) ++ rest)%string
    with (label ++ spaces ++ String Pat.DQ (w ++ String Pat.DQ rest))%string
    by (rewrite !JSFacts.append_assoc; cbn [append];
        rewrite JSFacts.append_assoc; reflexivity).
  unfold Re.matchStart, Pat.valueOf. cbn [Re.seqs Re.run].
  rewrite lit_self.
  destruct spaces as [|c spaces]; [contradiction|].
  simpl in Hs. apply andb_true_iff in Hs. destruct Hs as [Hc Hs].
  cbn [append]. rewrite Hc. apply ReFacts.star_complete; [exact Hs|].
  destruct w as [|d w]; [contradiction|].
  unfold quoteFree in Hw. simpl in Hw. apply andb_true_iff in Hw. destruct Hw as [Hd Hw].
  cbn [append Re.lit Re.run Re.chrEq].
  change (Ascii.eqb (JS.lowerChar "a") (JS.lowerChar Pat.DQ)) with false. cbv iota.
  rewrite Ascii.eqb_refl. rewrite Hd.
  apply ReFacts.star_complete; [exact Hw|].
  cbn [Re.run Re.chrEq]. rewrite Ascii.eqb_refl. discriminate.
Qed.

Lemma extractValue_found (content label defaultValue spaces w : string) :
  isSubstring (label ++ spaces ++ quoted w) (JS.toLowerCase content) ->
  spaces <> ""%string -> allChars JS.isSpace spaces = true ->
  w <> ""%string -> quoteFree w = true ->
  quotedIn (JS.toLowerCase content)
           (extractValue (JS.toLowerCase content) label defaultValue)
  /\ JS.toLowerCase (extractValue (JS.toLowerCase content) label defaultValue)
     = extractValue (JS.toLowerCase content) label defaultValue.
Proof.
  intros [before [rest E]] Hsn Hs Hwn Hw.
  pose proof (value_found label before spaces w rest Hsn Hs Hwn Hw) as Hf.
  rewrite <- E in Hf.
  destruct (extractValue_lower content label defaultValue) as [Hd | H]; [|exact H].
  unfold extractValue in *.
  destruct (Re.search (Pat.valueOf label) (JS.toLowerCase content)) as [m|] eqn:Em;
    [|contradiction].
  pose proof (ValueFacts.valueOf_match _ _ _ Em) as H. split; [exact H|].
  destruct H as [_ [_ H]]. apply (ValueFacts.lower_inside _ content).
  refine (SubFacts.isSubstring_trans _ _ _ _ H).
  exists (String Pat.DQ ""), (String Pat.DQ ""). reflexivity.
Qed.

Lemma lower_is_no_default (v : string) :
  JS.toLowerCase v = v -> v <> "John123"%string /\ v <> "Doe456"%string.
Proof. intros H. split; intros ->; vm_compute in H; discriminate. Qed.

(** X24: on the pattern path the names typed into the first-name and
    last-name fields are read from the lower-cased prompt.  Each is
    either the default ('John123', 'Doe456') or a non-empty text that
    stands between double quotes in the lower-cased content, and it is
    such a text, not the default, whenever the content holds the
    field's label, white space and a quoted text: a name the prompt
    gives is typed without its upper-case letters. *)
Theorem pattern_path_types_names_in_lower_case
        (mcpContext : MCPContext) (fs : FileSystem) (stack : nat)
        (prompt : PromptData) (a : MCPAction) :
  isDataDrivenTest (JS.toLowerCase (content prompt)) = false ->
  isStepByStepPrompt (JS.toLowerCase (content prompt)) = false ->
  In a (parsePromptToActions mcpContext fs stack prompt) ->
  element a = Some "first name input field"%string
  \/ element a = Some "last name input field"%string ->
  exists v,
    value a = Some v
    /\ ((v = "John123"%string \/ v = "Doe456"%string)
        \/ (quotedIn (JS.toLowerCase (content prompt)) v /\ JS.toLowerCase v = v))
    /\ (forall label spaces w,
          In label ["first name"; "last name"]%string ->
          element a = Some (label ++ " input field")%string ->
          isSubstring (label ++ spaces ++ quoted w) (JS.toLowerCase (content prompt)) ->
          spaces <> ""%string -> allChars JS.isSpace spaces = true ->
          w <> ""%string -> quoteFree w = true ->
          quotedIn (JS.toLowerCase (content prompt)) v /\ JS.toLowerCase v = v
          /\ v <> "John123"%string /\ v <> "Doe456"%string).
Proof.
  intros Hd Hs Ha He.
  destruct (pattern_path_actions _ _ _ _ _ Hd Hs Ha) as [-> | H];
    [simpl in He; destruct He; discriminate|].
  clear Ha. unfold patternActions, getActionPatterns in H.
  pose proof (extractValue_lower (content prompt) "first name" "John123") as Hf.
  pose proof (extractValue_lower (content prompt) "last name" "Doe456") as Hl.
  pose proof (fun spaces w =>
                extractValue_found (content prompt) "first name" "John123" spaces w) as Ff.
  pose proof (fun spaces w =>
                extractValue_found (content prompt) "last name" "Doe456" spaces w) as Fl.
  remember (extractValue (JS.toLowerCase (content prompt)) "first name" "John123") as fn.
  remember (extractValue (JS.toLowerCase (content prompt)) "last name" "Doe456") as ln.
  cbn [flat_map fst snd] in H.
  repeat (apply in_app_or in H; destruct H as [H | H]);
    try match type of H with
        | In _ (if ?b then _ else _) => destruct b
        end;
    simpl in H; repeat (destruct H as [H | H]); try contradiction;
    subst a; simpl in He; destruct He as [He | He]; try discriminate He.
  - exists fn. split; [reflexivity|]. split.
    + destruct Hf as [-> | Hf]; [left; left; reflexivity|]. right. exact Hf.
    + intros label spaces w [<- | [<- | []]] Hel Hsub Hsn Hsp Hwn Hw;
        [|discriminate Hel].
      destruct (Ff spaces w Hsub Hsn Hsp Hwn Hw) as [Hq Hlow].
      split; [exact Hq|]. split; [exact Hlow|]. exact (lower_is_no_default _ Hlow).
  - exists ln. split; [reflexivity|]. split.
    + destruct Hl as [-> | Hl]; [left; right; reflexivity|]. right. exact Hl.
    + intros label spaces w [<- | [<- | []]] Hel Hsub Hsn Hsp Hwn Hw;
        [discriminate Hel|].
      destruct (Fl spaces w Hsub Hsn Hsp Hwn Hw) as [Hq Hlow].
      split; [exact Hq|]. split; [exact Hlow|]. exact (lower_is_no_default _ Hlow).
Qed.

Lemma pattern_path_types_names_in_lower_case_witness :
  value (fillIn "first name input field" "alice" "Enter first name") = Some "alice"%string
  /\ quotedIn (JS.toLowerCase (content (promptOf aliceFirstName))) "alice"
  /\ "alice"%string <> "John123"%string.
Proof.
  destruct (pattern_path_types_names_in_lower_case demoContext noFiles 5
              (promptOf aliceFirstName)
              (fillIn "first name input field" "alice" "Enter first name"))
    as [v [Hv [_ Hw]]].
  - vm_compute. reflexivity.
  - vm_compute. reflexivity.
  - vm_compute. tauto.
  - left. reflexivity.
  - simpl in Hv. injection Hv as <-.
    destruct (Hw "first name"%string " "%string "alice"%string) as [Hq [_ [Hn _]]].
    + left. reflexivity.
    + reflexivity.
    + exists "add an employee with "%string, ""%string. vm_compute. reflexivity.
    + discriminate.
    + reflexivity.
    + discriminate.
    + reflexivity.
    + split; [reflexivity|]. split; [exact Hq|exact Hn].
Defined.

(** X25: on the pattern path the compiled sequence is never empty and
    never longer than the fifteen actions of the six patterns, and
    every Navigate in it goes to the configured application URL: a URL
    written in the prompt is not used there. *)
Theorem pattern_path_is_bounded_and_navigates_home
        (mcpContext : MCPContext) (fs : FileSystem) (stack : nat) (prompt : PromptData) :
  isDataDrivenTest (JS.toLowerCase (content prompt)) = false ->
  isStepByStepPrompt (JS.toLowerCase (content prompt)) = false ->
  1 <= List.length (parsePromptToActions mcpContext fs stack prompt) <= allPatternActions
  /\ forall a, In a (parsePromptToActions mcpContext fs stack prompt) ->
       type a = Navigate -> url a = Some (applicationUrl mcpContext).
Proof.
  intros Hd Hs. split.
  - unfold parsePromptToActions. cbv zeta. rewrite Hd, Hs.
    unfold patternActions, getActionPatterns, allPatternActions.
    remember (extractValue (JS.toLowerCase (content prompt)) "first name" "John123") as fn.
    remember (extractValue (JS.toLowerCase (content prompt)) "last name" "Doe456") as ln.
    cbn [flat_map fst snd].
    repeat match goal with
           | |- context [if ?b then _ else _] => destruct b
           end; simpl; lia.
  - intros a Ha Ht.
    destruct (pattern_path_actions _ _ _ _ _ Hd Hs Ha) as [-> | H]; [reflexivity|].
    clear Ha. unfold patternActions, getActionPatterns in H.
    remember (extractValue (JS.toLowerCase (content prompt)) "first name" "John123") as fn.
    remember (extractValue (JS.toLowerCase (content prompt)) "last name" "Doe456") as ln.
    cbn [flat_map fst snd] in H.
    repeat (apply in_app_or in H; destruct H as [H | H]);
      try match type of H with
          | In _ (if ?b then _ else _) => destruct b
          end;
      simpl in H; repeat (destruct H as [H | H]); try contradiction;
      subst a; first [reflexivity | discriminate Ht].
Qed.

Lemma pattern_path_is_bounded_and_navigates_home_witness :
  1 <= List.length (parsePromptToActions demoContext noFiles 5 (promptOf "Say hello"))
    <= allPatternActions
  /\ forall a, In a (parsePromptToActions demoContext noFiles 5 (promptOf "Say hello")) ->
       type a = Navigate -> url a = Some (applicationUrl demoContext).
Proof.
  apply (pattern_path_is_bounded_and_navigates_home demoContext noFiles 5
           (promptOf "Say hello")); vm_compute; reflexivity.
Defined.

(* ================================================================== *)
(** ** The title of a prompt file *)
(* ================================================================== *)

Lemma removeAtEnd_unfold (r : Re.regex) (s : string) :
  removeAtEnd r s
  = match Re.run r s [] (fun rest _ => match rest with
                                       | EmptyString => Some tt
                                       | String _ _ => None
                                       end) with
    | Some _ => EmptyString
    | None => match s with
              | EmptyString => EmptyString
              | String c s' => String c (removeAtEnd r s')
              end
    end.
Proof. destruct s; reflexivity. Qed.

Lemma extension_sound (s : string) (u : unit) :
  Re.run promptExtension s [] (fun rest _ => match rest with
                                             | EmptyString => Some tt
                                             | String _ _ => None
                                             end) = Some u ->
  JS.toLowerCase s = ".prompt"%string \/ JS.toLowerCase s = ".txt"%string.
Proof.
  intros H. apply ReFacts.run_sound in H. destruct H as [w [rest [cs [-> [Hd Hk]]]]].
  destruct rest; [|discriminate]. rewrite JSFacts.append_nil_r.
  unfold promptExtension in Hd. cbn [Re.lit] in Hd.
  invert_derives;
    repeat match goal with
           | H : Re.chrEq true _ _ = true |- _ => apply chrEq_lower in H
           end;
    simpl;
    repeat match goal with H : JS.lowerChar _ = _ |- _ => rewrite H; clear H end;
    [left | right]; reflexivity.
Qed.

Lemma extension_complete (ext : string) :
  JS.toLowerCase ext = ".txt"%string \/ JS.toLowerCase ext = ".prompt"%string ->
  Re.run promptExtension ext [] (fun rest _ => match rest with
                                               | EmptyString => Some tt
                                               | String _ _ => None
                                               end) = Some tt.
Proof.
  intros [H | H];
    repeat (destruct ext as [|? ext]; [discriminate H|]);
    simpl in H; injection H; intros; subst;
    (destruct ext; [|discriminate]);
    unfold promptExtension; simpl; unfold Re.chrEq;
    repeat match goal with H : JS.lowerChar _ = _ |- _ => rewrite H; clear H end;
    reflexivity.
Qed.

Lemma no_longer_extension (x e t : string) :
  x <> ""%string ->
  e = ".txt"%string \/ e = ".prompt"%string ->
  t = ".prompt"%string \/ t = ".txt"%string ->
  (x ++ e)%string <> t.
Proof.
  intros Hx [-> | ->] [-> | ->] E;
    pose proof (f_equal String.length E) as L;
    rewrite JSFacts.length_append in L; simpl in L;
    destruct x as [|x1 [|x2 [|x3 [|x4 x]]]]; simpl in L; try lia;
    try (apply Hx; reflexivity);
    simpl in E; discriminate E.
Qed.

Lemma removeAtEnd_extension (base ext : string) :
  JS.toLowerCase ext = ".txt"%string \/ JS.toLowerCase ext = ".prompt"%string ->
  removeAtEnd promptExtension (base ++ ext) = base.
Proof.
  intros He. induction base as [|c base IH].
  - simpl. rewrite removeAtEnd_unfold, (extension_complete ext He). reflexivity.
  - rewrite removeAtEnd_unfold.
    destruct (Re.run _ _ _ _) as [u|] eqn:E.
    + exfalso. apply extension_sound in E.
      rewrite SubFacts.toLowerCase_app in E.
      exact (no_longer_extension (JS.toLowerCase (String c base)) (JS.toLowerCase ext) _
               ltac:(discriminate) He E eq_refl).
    + simpl. rewrite IH. reflexivity.
Qed.

Lemma spaced_plain (s : string) :
  freeOf "-" (spaced s) = true /\ freeOf "_" (spaced s) = true.
Proof.
  unfold freeOf. induction s as [|c s [IH1 IH2]]; simpl; [auto|].
  rewrite IH1, IH2.
  destruct (Ascii.eqb c "-") eqn:E1; simpl; [auto|].
  destruct (Ascii.eqb c "_") eqn:E2; simpl; [auto|].
  rewrite E1, E2. auto.
Qed.

Lemma firstHeading_trimmed (lines : list string) (t : string) :
  firstHeading lines = Some t -> JS.trim t = t.
Proof.
  induction lines as [|l lines IH]; cbn [firstHeading]; [discriminate|].
  destruct (JS.startsWith l "# "); [|exact IH].
  intros H. injection H as <-. apply JSFacts.trim_idem.
Qed.

(** X26: the title of a prompt file.  When one of the first three
    lines of the content starts with '# ', the title is the rest of the
    first such line, without surrounding white space.  Otherwise it is
    made from the file name: a final '.txt' or '.prompt' (in any case)
    is removed, and every '-' and '_' becomes a space, so the title
    holds neither. *)
Theorem title_is_heading_or_spaced_file_name (base ext content : string) :
  let heading := firstHeading (firstn 3 (JS.splitChar JS.LF content)) in
  (forall t, heading = Some t ->
      extractTitle (base ++ ext) content = t /\ JS.trim t = t)
  /\ (heading = None ->
      (JS.toLowerCase ext = ".txt"%string \/ JS.toLowerCase ext = ".prompt"%string ->
       extractTitle (base ++ ext) content = spaced base)
      /\ freeOf "-" (extractTitle (base ++ ext) content) = true
      /\ freeOf "_" (extractTitle (base ++ ext) content) = true).
Proof.
  cbv zeta. unfold extractTitle. split.
  - intros t H. rewrite H. split; [reflexivity|]. exact (firstHeading_trimmed _ _ H).
  - intros H. rewrite H. split.
    + intros He. rewrite (removeAtEnd_extension base ext He). reflexivity.
    + apply spaced_plain.
Qed.

(* ================================================================== *)
(** ** From the command line to the executor *)
(* ================================================================== *)

Lemma parseArgument_other (o : CLIOptions) (arg : string) :
  isAppArgument arg = false -> cli_app (parseArgument o arg) = cli_app o.
Proof.
  unfold isAppArgument, parseArgument. intros ->.
  repeat match goal with
         | |- context [if ?b then _ else _] => destruct b
         end; reflexivity.
Qed.

Lemma parseArguments_other (later : list string) :
  forall o, existsb isAppArgument later = false ->
            cli_app (fold_left parseArgument later o) = cli_app o.
Proof.
  induction later as [|arg later IH]; intros o H; simpl in *; [reflexivity|].
  apply orb_false_elim in H. destruct H as [Ha Hl].
  rewrite (IH _ Hl). apply parseArgument_other, Ha.
Qed.

Lemma parseArgument_app (o : CLIOptions) (v : string) :
  freeOf "=" v = true -> cli_app (parseArgument o ("--app=" ++ v)) = Some v.
Proof.
  intros Hv. unfold parseArgument.
  change (JS.startsWith ("--app=" ++ v) "--app=") with true. cbv iota. cbn [cli_app].
  unfold afterEquals.
  change ("--app=" ++ v)%string with ("--app" ++ String "=" v)%string.
  rewrite splitChar_at by reflexivity. rewrite (splitChar_whole "=" v Hv). reflexivity.
Qed.

(** X27: the application the options of [run] name.  When no argument
    starts with '--app=' it is 'orangehrm'.  Otherwise it is the value
    of the last such argument (a value without '='), and 'orangehrm'
    when that value is empty.  In every case the name is not empty and
    holds no '='. *)
Theorem executor_always_gets_an_application :
  (forall args,
      existsb isAppArgument args = false ->
      o_app (executorOptions (parseArguments args)) = Some "orangehrm"%string)
  /\ (forall before v later,
         freeOf "=" v = true ->
         existsb isAppArgument later = false ->
         o_app (executorOptions
                  (parseArguments (before ++ [("--app=" ++ v)%string] ++ later)))
         = Some (JS.orElse v "orangehrm"))
  /\ (forall args,
         exists app,
           o_app (executorOptions (parseArguments args)) = Some app
           /\ app <> ""%string /\ freeOf "=" app = true).
Proof.
  split; [|split].
  - intros args H. unfold executorOptions, parseArguments. cbn [o_app].
    rewrite (parseArguments_other args noOptions H). reflexivity.
  - intros before v later Hv Hl. unfold executorOptions, parseArguments. cbn [o_app].
    rewrite !fold_left_app. rewrite (parseArguments_other later _ Hl).
    cbn [fold_left]. rewrite (parseArgument_app _ v Hv).
    destruct v; reflexivity.
  - intros args. destruct (parseArguments_plain args) as [Ha _].
    unfold executorOptions. cbn [o_app]. eexists. split; [reflexivity|].
    destruct (cli_app (parseArguments args)) as [[|c v]|] eqn:E; simpl.
    + split; [discriminate|reflexivity].
    + split; [discriminate|exact (Ha _ eq_refl)].
    + split; [discriminate|reflexivity].
Qed.

Lemma executor_always_gets_an_application_witness :
  o_app (executorOptions (parseArguments ["--headed"; "--app=demo"; "--verbose"]%string))
  = Some "demo"%string
  /\ o_app (executorOptions (parseArguments ["--headed"; "--verbose"]%string))
     = Some "orangehrm"%string.
Proof.
  split.
  - apply (proj1 (proj2 executor_always_gets_an_application)
                 ["--headed"%string] "demo"%string ["--verbose"%string]);
      reflexivity.
  - apply (proj1 executor_always_gets_an_application). reflexivity.
Defined.

(* ================================================================== *)
(** ** Execution on the simulated browser *)
(* ================================================================== *)

Section SimulationFacts.

Variable Clock : Type.
Variable now : Clock -> Z * Clock.
Variable sleep : N -> Clock -> Clock.

Local Abbreviation act := (executeBrowserAction now sleep).

Lemma snapshot_keeps (s : Session Clock) :
  isInitialized (fst (snd (mcpTakeSnapshot now s))) = isInitialized (fst s)
  /\ currentUrl (fst (snd (mcpTakeSnapshot now s))) = currentUrl (fst s)
  /\ isHeaded (fst (snd (mcpTakeSnapshot now s))) = isHeaded (fst s)
  /\ browserType (fst (snd (mcpTakeSnapshot now s))) = browserType (fst s).
Proof.
  destruct s as [b c]. unfold mcpTakeSnapshot. destruct (now c) as [t c']. simpl. auto.
Qed.

(** X28: what an action does to the simulated browser.  After any
    action the browser is initialised.  A Navigate sets the current
    URL to its target and no other action changes the current URL of
    an initialised browser; no action changes the browser type or the
    headed flag of an initialised browser. *)
Theorem actions_change_only_their_part_of_the_browser
        (action : MCPAction) (s : Session Clock) :
  let after := fst (snd (act action s)) in
  isInitialized after = true
  /\ (type action = Navigate -> currentUrl after = url action)
  /\ (isInitialized (fst s) = true ->
      (type action <> Navigate -> currentUrl after = currentUrl (fst s))
      /\ browserType after = browserType (fst s)
      /\ isHeaded after = isHeaded (fst s)).
Proof.
  cbv zeta. destruct s as [b c]. unfold executeBrowserAction.
  set (ready := if isInitialized b then b else _).
  assert (isInitialized ready = true) as Hr.
  { unfold ready. destruct (isInitialized b) eqn:E; [exact E|reflexivity]. }
  assert (isInitialized b = true -> ready = b) as Hb.
  { intros E. unfold ready. rewrite E. reflexivity. }
  destruct (snapshot_keeps (ready, c)) as [S1 [S2 [S3 S4]]].
  change (fst (ready, c)) with ready in S1, S2, S3, S4.
  assert (forall text : string,
             fst (snd (let (_, s') := mcpTakeSnapshot now (ready, c) in (text, s')))
             = fst (snd (mcpTakeSnapshot now (ready, c)))) as Hsnap.
  { intros text. destruct (mcpTakeSnapshot now (ready, c)). reflexivity. }
  destruct (type action); unfold mcpNavigate, mcpFill, mcpClick, mcpWait, mcpAssert;
    rewrite ?Hsnap; cbn [fst snd isInitialized currentUrl isHeaded browserType];
    (split; [congruence|]);
    (split; [intros H; first [reflexivity | discriminate H]|]);
    intros Hi; rewrite <- (Hb Hi);
    (split; [intros H; first [congruence | exfalso; apply H; reflexivity]|]);
    split; congruence.
Qed.

Variable mcpContext : MCPContext.
Variable fs : FileSystem.
Variable stack : nat.

Local Abbreviation loop := (runActions (fun e : string => Some e) (sessionNow now)
                                        (awaited now sleep)).

Lemma simulated_loop_never_throws (actions : list MCPAction) :
  forall i s recorded executionLog,
    l_thrown (loop i actions s recorded executionLog) = None.
Proof.
  induction actions as [|a rest IH]; intros i s recorded executionLog; [reflexivity|].
  simpl. destruct (sessionNow now s) as [t0 s1].
  unfold awaited at 1. destruct (act a s1) as [text s2].
  destruct (sessionNow now s2) as [t1 s3]. apply IH.
Qed.

Lemma simulated_loop_keeps_ready (actions : list MCPAction) :
  forall i s recorded executionLog,
    isInitialized (fst s) = true ->
    isInitialized (fst (l_world (loop i actions s recorded executionLog))) = true.
Proof.
  induction actions as [|a rest IH]; intros i s recorded executionLog Hs; [exact Hs|].
  simpl. destruct (sessionNow now s) as [t0 s1] eqn:E0.
  unfold awaited at 1.
  pose proof (proj1 (actions_change_only_their_part_of_the_browser a s1)) as Ha.
  cbv zeta in Ha. destruct (act a s1) as [text s2]. simpl in Ha.
  destruct (sessionNow now s2) as [t1 s3] eqn:E1.
  apply IH. unfold sessionNow in E1. destruct s2 as [b2 c2].
  destruct (now c2) as [t c']. injection E1 as _ <-. exact Ha.
Qed.

Lemma executePrompt_result (prompt : PromptData) (kind : string) (s : Session Clock) :
  let result := fst (executePrompt now sleep mcpContext fs stack prompt kind s) in
  let actions := parsePromptToActions mcpContext fs stack prompt in
  success result = true /\ r_error result = None
  /\ r_file result = file prompt /\ r_title result = title prompt
  /\ browser result = Some kind
  /\ totalSteps result = Some (List.length actions)
  /\ passedSteps result = Some (List.length actions)
  /\ failedSteps result = Some 0
  /\ exists recorded,
       steps result = Some recorded
       /\ List.length recorded = List.length actions
       /\ forallb isPassed recorded = true.
Proof.
  cbv zeta. unfold executePrompt, executePromptDirectly.
  destruct (sessionNow now s) as [startTime s0]. cbv zeta.
  set (actions := parsePromptToActions mcpContext fs stack prompt).
  pose proof (simulated_loop_never_throws actions 0 s0 [] "") as Ht.
  destruct (runActions_records _ _ (fun e : string => Some e) (sessionNow now)
              (awaited now sleep) actions 0 s0 [] "") as [more [Hs [_ [_ Hm]]]].
  rewrite Ht in Hm. destruct Hm as [Hl Hp]. simpl in Hs.
  destruct (sessionNow now (l_world _)) as [endTime s'].
  rewrite Ht. simpl. rewrite Hs.
  destruct (passed_counts more Hp) as [Cp Cf]. rewrite Cp, Cf, Hl.
  repeat (split; [reflexivity|]).
  exists more. auto.
Qed.

Lemma executePrompt_keeps_ready (prompt : PromptData) (kind : string) (s : Session Clock) :
  isInitialized (fst s) = true ->
  isInitialized (fst (snd (executePrompt now sleep mcpContext fs stack prompt kind s))) = true.
Proof.
  intros Hs. unfold executePrompt, executePromptDirectly.
  destruct (sessionNow now s) as [startTime s0] eqn:E0. cbv zeta.
  assert (isInitialized (fst s0) = true) as H0.
  { unfold sessionNow in E0. destruct s as [b c]. destruct (now c) as [t c'].
    injection E0 as _ <-. exact Hs. }
  pose proof (simulated_loop_keeps_ready
                (parsePromptToActions mcpContext fs stack prompt) 0 s0 [] "" H0) as H1.
  destruct (sessionNow now (l_world _)) as [endTime s'] eqn:E1.
  assert (isInitialized (fst s') = true) as H2.
  { unfold sessionNow in E1.
    destruct (l_world _) as [b c]. destruct (now c) as [t c'].
    injection E1 as _ <-. exact H1. }
  destruct (l_thrown _); exact H2.
Qed.

(** X29: on the simulated browser of this file every prompt passes.
    For any prompt, browser state and clock, [executePromptDirectly]
    reports success without an error; every compiled action is recorded
    as a passed step, so the total and the passed count are the number
    of compiled actions and the failed count is 0.  No action, an
    assertion included, can fail. *)
Theorem every_prompt_passes_on_the_simulated_browser
        (prompt : PromptData) (kind : string) (s : Session Clock) :
  let result := fst (executePrompt now sleep mcpContext fs stack prompt kind s) in
  let actions := parsePromptToActions mcpContext fs stack prompt in
  success result = true /\ r_error result = None
  /\ totalSteps result = Some (List.length actions)
  /\ passedSteps result = Some (List.length actions)
  /\ failedSteps result = Some 0
  /\ exists recorded,
       steps result = Some recorded
       /\ List.length recorded = List.length actions
       /\ forallb isPassed recorded = true.
Proof.
  cbv zeta.
  destruct (executePrompt_result prompt kind s) as [H1 [H2 [_ [_ [_ H]]]]].
  split; [exact H1|]. split; [exact H2|]. exact H.
Qed.

Lemma runPrompts_results (prompts : list PromptData) (kind : string) :
  forall s results,
    isInitialized (fst s) = true ->
    exists more,
      fst (runPrompts now sleep mcpContext fs stack prompts kind s results)
      = results ++ more
      /\ map r_file more = map file prompts
      /\ map r_title more = map title prompts
      /\ Forall (fun r => success r = true /\ browser r = Some kind) more
      /\ isInitialized
           (fst (snd (runPrompts now sleep mcpContext fs stack prompts kind s results)))
         = true.
Proof.
  induction prompts as [|p rest IH]; intros s results Hs.
  - exists []. simpl. rewrite app_nil_r. auto.
  - simpl.
    destruct (executePrompt_result p kind s) as [R1 [_ [R3 [R4 [R5 _]]]]].
    pose proof (executePrompt_keeps_ready p kind s Hs) as Hk.
    destruct (executePrompt now sleep mcpContext fs stack p kind s) as [result s'].
    simpl in R1, R3, R4, R5, Hk.
    destruct (IH s' (results ++ [result]) Hk) as [more [E [Hf [Ht [Ha Hi]]]]].
    exists (result :: more). rewrite E, <- app_assoc. simpl.
    rewrite R3, R4, Hf, Ht. repeat (split; [reflexivity|]).
    split; [constructor; [split; assumption|exact Ha]|exact Hi].
Qed.

(** X30: a batch runs every prompt once, in order, on the browser it
    was asked for, and leaves a clean browser.  [executeBrowserBatch]
    returns one result per prompt, result i carrying the file and the
    title of prompt i and the batch's browser type; every result is a
    success; afterwards the browser is not initialised and has no
    current URL, no snapshot and no browser type. *)
Theorem batch_runs_every_prompt_and_cleans_up
        (prompts : list PromptData) (kind : string) (options : ExecutorOptions)
        (s : Session Clock) :
  let batch := executeBrowserBatch now sleep mcpContext fs stack prompts kind options s in
  map r_file (fst batch) = map file prompts
  /\ map r_title (fst batch) = map title prompts
  /\ Forall (fun r => success r = true /\ browser r = Some kind) (fst batch)
  /\ isClean (fst (snd batch)).
Proof.
  cbv zeta. unfold executeBrowserBatch. destruct s as [b c]. cbv zeta.
  set (s0 := (initializeBrowser _ kind b, c)).
  destruct (runPrompts_results prompts kind s0 [] eq_refl) as [more [E [Hf [Ht [Ha Hi]]]]].
  destruct (runPrompts now sleep mcpContext fs stack prompts kind s0 []) as [results [b' c']].
  simpl in E, Hi. subst results. simpl.
  split; [exact Hf|]. split; [exact Ht|]. split; [exact Ha|].
  unfold isClean, cleanup. rewrite Hi. simpl. auto.
Qed.

End SimulationFacts.
